(** * Quiz Arcade and Code Quality Checker: a shallow embedding

    The development follows [src/arcade.py] (quiz state machine, power-ups,
    badges, cosmetic shop) and [src/code_checker.py] (analysis / refactor
    pipeline).  Python integers are [Z], [len] is [Z.of_nat (length _)],
    Python sets are [gset], Python lists are [list], and
    [st.session_state] is the record [SessionState] threaded through a
    small state monad whose computations may stop early, either because
    the script called [st.rerun()] or because an exception was raised. *)

From Stdlib Require Import ZArith Lia.
From stdpp Require Import base option list gmap sets strings.

#[local] Set Warnings "-clear-no-such-hyp".

Open Scope Z_scope.

(** ** Python helpers *)

Definition len {A} (l : list A) : Z := Z.of_nat (length l).

(** [range(n)] for a length [n]. *)
Definition range (n : nat) : list Z := Z.of_nat <$> seq 0 n.

(** [l[i]] with Python's wrap-around for negative indices; [None] stands
    for [IndexError]. *)
Definition py_index {A} (l : list A) (i : Z) : option A :=
  if 0 <=? i then l !! Z.to_nat i
  else if 0 <=? len l + i then l !! Z.to_nat (len l + i)
  else None.

(** [l.remove(x)]: drops the first occurrence of [x]. *)
Fixpoint py_remove (x : string) (l : list string) : list string :=
  match l with
  | [] => []
  | y :: l' => if decide (y = x) then l' else y :: py_remove x l'
  end.

(** *** [random.sample]

    The generator is an external collaborator: a script run receives the
    stream [draws] of raw values the generator yields during that run, and
    [randbelow m] is the next raw value reduced modulo [m].  The selection
    itself is CPython's pool algorithm, the one it runs on populations of up
    to 21 elements (the question bank has 20, a question a handful of
    options): the element at the drawn position is emitted and the last
    live element of the pool is moved into the vacancy. *)
Fixpoint sample_pool {A} (draws : nat -> nat) (i : nat) (pool : list A)
    (k : nat) : list A :=
  match k with
  | O => []
  | S k' =>
      let m := length pool in
      let j := (draws i `mod` m)%nat in
      match pool !! j, pool !! pred m with
      | Some x, Some z => x :: sample_pool draws (S i) (take (pred m) (<[j := z]> pool)) k'
      | _, _ => []
      end
  end.

(** [random.sample(population, k)]; [None] stands for the [ValueError]
    raised when [k] is negative or larger than the population. *)
Definition random_sample {A} (draws : nat -> nat) (population : list A)
    (k : Z) : option (list A) :=
  if (0 <=? k) && (k <=? len population)
  then Some (sample_pool draws 0 population (Z.to_nat k))
  else None.

(** ** Configuration constants *)

Definition DEFAULT_NUM_QUESTIONS : Z := 7.
Definition MIN_QUESTIONS_PER_GAME : Z := 3.
Definition MAX_QUESTIONS_PER_GAME : Z := 10.

Definition BASE_COIN_REWARD : Z := 5.
Definition MAX_STREAK_BONUS : Z := 5.

Definition HINT_COST : Z := 3.
Definition SKIP_COST : Z := 4.
Definition FIFTY_FIFTY_COST : Z := 5.

Definition BADGE_SCORE_APPRENTICE : Z := 5.
Definition BADGE_SCORE_PRO : Z := 7.
Definition BADGE_STREAK_THRESHOLD : Z := 3.

Definition BADGE_MONSTER_COLLECTOR : string := "✨ Monster Collector".
Definition BADGE_APPRENTICE : string := "🏅 PEP Apprentice".
Definition BADGE_PRO : string := "🥇 PEP Pro".
Definition BADGE_STREAK_MASTER : string := "🔥 Streak Master (3+)".
Definition BADGE_NO_HINT_HERO : string := "🧠 No-Hint Hero".
Definition BADGE_5050_USER : string := "🪓 50/50 User".

(** ** Catalogs

    A question keeps the fields the game logic reads: its identifier, its
    options, the index of the right option and its topic.  The prompt, the
    code sample and the explanation are display texts only.  Likewise a
    monster keeps identifier, name, price and image. *)

Record Question : Type := mkQuestion {
  q_id : string;
  q_options : list string;
  q_answer_idx : Z;
  q_topic : string
}.

Record Monster : Type := mkMonster {
  m_id : string;
  m_name : string;
  m_price : Z;
  m_image : string
}.

#[global] Instance Question_eq_dec : EqDecision Question.
Proof. solve_decision. Defined.

#[global] Instance Monster_eq_dec : EqDecision Monster.
Proof. solve_decision. Defined.

Definition dquote : string := String (Ascii.ascii_of_nat 34) EmptyString.

Definition QUESTION_POOL : list Question := [
  {| q_id := "line_length";
     q_options := ["79 characters";
                   "99 characters";
                   "120 characters";
                   "60 characters"];
     q_answer_idx := 0;
     q_topic := "Formatting" |};
  {| q_id := "imports_order";
     q_options := ["Standard library -> third-party -> local application imports";
                   "Third-party -> standard library -> local application imports";
                   "Local -> third-party -> standard library imports";
                   "Any order is fine"];
     q_answer_idx := 0;
     q_topic := "Imports" |};
  {| q_id := "naming_functions";
     q_options := ["calculateTotal()";
                   "calculate_total()";
                   "CalculateTotal()";
                   "calculate-Total()"];
     q_answer_idx := 1;
     q_topic := "Naming" |};
  {| q_id := "whitespace";
     q_options := ["Version 1";
                   "Version 2";
                   "Both are equally recommended";
                   "Neither"];
     q_answer_idx := 1;
     q_topic := "Formatting" |};
  {| q_id := "docstring";
     q_options := ["As a comment above the function";
                   "As the first statement inside the function (triple quotes)";
                   "In a separate README file only";
                   "Docstrings are only for classes, not functions"];
     q_answer_idx := 1;
     q_topic := "Docstrings" |};
  {| q_id := "comparisons";
     q_options := ["== None";
                   "!= None";
                   "is None";
                   "equals(None)"];
     q_answer_idx := 2;
     q_topic := "Best practices" |};
  {| q_id := "trailing_whitespace";
     q_options := ["It is recommended for alignment";
                   "It is allowed only in comments";
                   "It should be avoided";
                   "It should be used after commas"];
     q_answer_idx := 2;
     q_topic := "Formatting" |};
  {| q_id := "indentation";
     q_options := ["2 spaces";
                   "4 spaces";
                   "Tabs only";
                   "Mix of tabs and spaces"];
     q_answer_idx := 1;
     q_topic := "Formatting" |};
  {| q_id := "tabs_vs_spaces";
     q_options := ["Tabs only";
                   "Spaces only";
                   "Either tabs or spaces, mixing is fine";
                   "Mixing tabs and spaces is recommended"];
     q_answer_idx := 1;
     q_topic := "Formatting" |};
  {| q_id := "class_naming";
     q_options := ["myclass";
                   "MyClass";
                   "my_class";
                   "MYCLASS"];
     q_answer_idx := 1;
     q_topic := "Naming" |};
  {| q_id := "constant_naming";
     q_options := ["maxValue";
                   "MAX_VALUE";
                   "MaxValue";
                   "max_value"];
     q_answer_idx := 1;
     q_topic := "Naming" |};
  {| q_id := "blank_lines";
     q_options := ["0";
                   "1";
                   "2";
                   "4"];
     q_answer_idx := 2;
     q_topic := "Layout" |};
  {| q_id := "spaces_after_comma";
     q_options := ["Version 1";
                   "Version 2";
                   "Both are fine";
                   "Neither"];
     q_answer_idx := 1;
     q_topic := "Formatting" |};
  {| q_id := "boolean_singleton";
     q_options := ["if x == True:";
                   "if x is True:";
                   "if x:";
                   "if bool(x) == True:"];
     q_answer_idx := 2;
     q_topic := "Best practices" |};
  {| q_id := "imports_at_top";
     q_options := ["Spread throughout the file where needed";
                   "Inside functions only";
                   "At the top of the file, after any module comments and docstrings";
                   "At the bottom of the file"];
     q_answer_idx := 2;
     q_topic := "Imports" |};
  {| q_id := "inline_comments";
     q_options := ["Version 1";
                   "Version 2";
                   "Both are fine";
                   "Neither"];
     q_answer_idx := 1;
     q_topic := "Comments" |};
  {| q_id := "docstring_quotes";
     q_options := ["Single quotes: '''docstring'''";
                   ("Double quotes: " +:+ dquote +:+ dquote +:+ dquote +:+ "docstring" +:+ dquote +:+ dquote +:+ dquote);
                   "Either, but triple double quotes are recommended";
                   "Single line comments instead of docstrings"];
     q_answer_idx := 2;
     q_topic := "Docstrings" |};
  {| q_id := "module_naming";
     q_options := ["MyModule.py";
                   "mymodule.py";
                   "myModule.py";
                   "MYMODULE.py"];
     q_answer_idx := 1;
     q_topic := "Naming" |};
  {| q_id := "complicated_expressions";
     q_options := ["Write them on one line, no matter the length";
                   "Add more comments, but keep them as one expression";
                   "Break them into smaller, named variables or helper functions";
                   "Avoid using them at all"];
     q_answer_idx := 2;
     q_topic := "Readability" |};
  {| q_id := "shebang_encoding";
     q_options := ["Anywhere in the file";
                   "At the bottom of the file";
                   "On the first or second line";
                   "Inside the main() function"];
     q_answer_idx := 2;
     q_topic := "Encoding" |}
].
Definition MONSTER_SHOP : list Monster := [
  {| m_id := "pep_snek"; m_name := "PEP Snek"; m_price := 20; m_image := "1.jpg" |};
  {| m_id := "lint_lizard"; m_name := "Lint Lizard"; m_price := 35; m_image := "2.jpg" |};
  {| m_id := "docstring_dragon"; m_name := "Docstring Dragon"; m_price := 50; m_image := "3.jpg" |};
  {| m_id := "whitespace_wraith"; m_name := "Whitespace Wraith"; m_price := 60; m_image := "4.jpg" |}
].

(** ** Session state ([st.session_state]) *)

Record SessionState : Type := mkState {
  started : bool;
  num_questions : Z;
  question_ids : list string;
  q_index : Z;
  score : Z;
  coins : Z;
  streak : Z;
  answered : bool;
  last_correct : option bool;
  used_5050 : bool;
  eliminated_options : gset Z;
  hints_used : Z;
  skips_used : Z;
  badges : gset string;
  shop_buys : list string;
  show_hint : bool;
  monsters_owned : list string;
  selected_monster : option string
}.

Definition set_started (v : bool) (s : SessionState) : SessionState :=
  {| started := v; num_questions := num_questions s; question_ids := question_ids s; q_index := q_index s; score := score s; coins := coins s; streak := streak s; answered := answered s; last_correct := last_correct s; used_5050 := used_5050 s; eliminated_options := eliminated_options s; hints_used := hints_used s; skips_used := skips_used s; badges := badges s; shop_buys := shop_buys s; show_hint := show_hint s; monsters_owned := monsters_owned s; selected_monster := selected_monster s |}.

Definition set_num_questions (v : Z) (s : SessionState) : SessionState :=
  {| started := started s; num_questions := v; question_ids := question_ids s; q_index := q_index s; score := score s; coins := coins s; streak := streak s; answered := answered s; last_correct := last_correct s; used_5050 := used_5050 s; eliminated_options := eliminated_options s; hints_used := hints_used s; skips_used := skips_used s; badges := badges s; shop_buys := shop_buys s; show_hint := show_hint s; monsters_owned := monsters_owned s; selected_monster := selected_monster s |}.

Definition set_question_ids (v : list string) (s : SessionState) : SessionState :=
  {| started := started s; num_questions := num_questions s; question_ids := v; q_index := q_index s; score := score s; coins := coins s; streak := streak s; answered := answered s; last_correct := last_correct s; used_5050 := used_5050 s; eliminated_options := eliminated_options s; hints_used := hints_used s; skips_used := skips_used s; badges := badges s; shop_buys := shop_buys s; show_hint := show_hint s; monsters_owned := monsters_owned s; selected_monster := selected_monster s |}.

Definition set_q_index (v : Z) (s : SessionState) : SessionState :=
  {| started := started s; num_questions := num_questions s; question_ids := question_ids s; q_index := v; score := score s; coins := coins s; streak := streak s; answered := answered s; last_correct := last_correct s; used_5050 := used_5050 s; eliminated_options := eliminated_options s; hints_used := hints_used s; skips_used := skips_used s; badges := badges s; shop_buys := shop_buys s; show_hint := show_hint s; monsters_owned := monsters_owned s; selected_monster := selected_monster s |}.

Definition set_score (v : Z) (s : SessionState) : SessionState :=
  {| started := started s; num_questions := num_questions s; question_ids := question_ids s; q_index := q_index s; score := v; coins := coins s; streak := streak s; answered := answered s; last_correct := last_correct s; used_5050 := used_5050 s; eliminated_options := eliminated_options s; hints_used := hints_used s; skips_used := skips_used s; badges := badges s; shop_buys := shop_buys s; show_hint := show_hint s; monsters_owned := monsters_owned s; selected_monster := selected_monster s |}.

Definition set_coins (v : Z) (s : SessionState) : SessionState :=
  {| started := started s; num_questions := num_questions s; question_ids := question_ids s; q_index := q_index s; score := score s; coins := v; streak := streak s; answered := answered s; last_correct := last_correct s; used_5050 := used_5050 s; eliminated_options := eliminated_options s; hints_used := hints_used s; skips_used := skips_used s; badges := badges s; shop_buys := shop_buys s; show_hint := show_hint s; monsters_owned := monsters_owned s; selected_monster := selected_monster s |}.

Definition set_streak (v : Z) (s : SessionState) : SessionState :=
  {| started := started s; num_questions := num_questions s; question_ids := question_ids s; q_index := q_index s; score := score s; coins := coins s; streak := v; answered := answered s; last_correct := last_correct s; used_5050 := used_5050 s; eliminated_options := eliminated_options s; hints_used := hints_used s; skips_used := skips_used s; badges := badges s; shop_buys := shop_buys s; show_hint := show_hint s; monsters_owned := monsters_owned s; selected_monster := selected_monster s |}.

Definition set_answered (v : bool) (s : SessionState) : SessionState :=
  {| started := started s; num_questions := num_questions s; question_ids := question_ids s; q_index := q_index s; score := score s; coins := coins s; streak := streak s; answered := v; last_correct := last_correct s; used_5050 := used_5050 s; eliminated_options := eliminated_options s; hints_used := hints_used s; skips_used := skips_used s; badges := badges s; shop_buys := shop_buys s; show_hint := show_hint s; monsters_owned := monsters_owned s; selected_monster := selected_monster s |}.

Definition set_last_correct (v : option bool) (s : SessionState) : SessionState :=
  {| started := started s; num_questions := num_questions s; question_ids := question_ids s; q_index := q_index s; score := score s; coins := coins s; streak := streak s; answered := answered s; last_correct := v; used_5050 := used_5050 s; eliminated_options := eliminated_options s; hints_used := hints_used s; skips_used := skips_used s; badges := badges s; shop_buys := shop_buys s; show_hint := show_hint s; monsters_owned := monsters_owned s; selected_monster := selected_monster s |}.

Definition set_used_5050 (v : bool) (s : SessionState) : SessionState :=
  {| started := started s; num_questions := num_questions s; question_ids := question_ids s; q_index := q_index s; score := score s; coins := coins s; streak := streak s; answered := answered s; last_correct := last_correct s; used_5050 := v; eliminated_options := eliminated_options s; hints_used := hints_used s; skips_used := skips_used s; badges := badges s; shop_buys := shop_buys s; show_hint := show_hint s; monsters_owned := monsters_owned s; selected_monster := selected_monster s |}.

Definition set_eliminated_options (v : gset Z) (s : SessionState) : SessionState :=
  {| started := started s; num_questions := num_questions s; question_ids := question_ids s; q_index := q_index s; score := score s; coins := coins s; streak := streak s; answered := answered s; last_correct := last_correct s; used_5050 := used_5050 s; eliminated_options := v; hints_used := hints_used s; skips_used := skips_used s; badges := badges s; shop_buys := shop_buys s; show_hint := show_hint s; monsters_owned := monsters_owned s; selected_monster := selected_monster s |}.

Definition set_hints_used (v : Z) (s : SessionState) : SessionState :=
  {| started := started s; num_questions := num_questions s; question_ids := question_ids s; q_index := q_index s; score := score s; coins := coins s; streak := streak s; answered := answered s; last_correct := last_correct s; used_5050 := used_5050 s; eliminated_options := eliminated_options s; hints_used := v; skips_used := skips_used s; badges := badges s; shop_buys := shop_buys s; show_hint := show_hint s; monsters_owned := monsters_owned s; selected_monster := selected_monster s |}.

Definition set_skips_used (v : Z) (s : SessionState) : SessionState :=
  {| started := started s; num_questions := num_questions s; question_ids := question_ids s; q_index := q_index s; score := score s; coins := coins s; streak := streak s; answered := answered s; last_correct := last_correct s; used_5050 := used_5050 s; eliminated_options := eliminated_options s; hints_used := hints_used s; skips_used := v; badges := badges s; shop_buys := shop_buys s; show_hint := show_hint s; monsters_owned := monsters_owned s; selected_monster := selected_monster s |}.

Definition set_badges (v : gset string) (s : SessionState) : SessionState :=
  {| started := started s; num_questions := num_questions s; question_ids := question_ids s; q_index := q_index s; score := score s; coins := coins s; streak := streak s; answered := answered s; last_correct := last_correct s; used_5050 := used_5050 s; eliminated_options := eliminated_options s; hints_used := hints_used s; skips_used := skips_used s; badges := v; shop_buys := shop_buys s; show_hint := show_hint s; monsters_owned := monsters_owned s; selected_monster := selected_monster s |}.

Definition set_shop_buys (v : list string) (s : SessionState) : SessionState :=
  {| started := started s; num_questions := num_questions s; question_ids := question_ids s; q_index := q_index s; score := score s; coins := coins s; streak := streak s; answered := answered s; last_correct := last_correct s; used_5050 := used_5050 s; eliminated_options := eliminated_options s; hints_used := hints_used s; skips_used := skips_used s; badges := badges s; shop_buys := v; show_hint := show_hint s; monsters_owned := monsters_owned s; selected_monster := selected_monster s |}.

Definition set_show_hint (v : bool) (s : SessionState) : SessionState :=
  {| started := started s; num_questions := num_questions s; question_ids := question_ids s; q_index := q_index s; score := score s; coins := coins s; streak := streak s; answered := answered s; last_correct := last_correct s; used_5050 := used_5050 s; eliminated_options := eliminated_options s; hints_used := hints_used s; skips_used := skips_used s; badges := badges s; shop_buys := shop_buys s; show_hint := v; monsters_owned := monsters_owned s; selected_monster := selected_monster s |}.

Definition set_monsters_owned (v : list string) (s : SessionState) : SessionState :=
  {| started := started s; num_questions := num_questions s; question_ids := question_ids s; q_index := q_index s; score := score s; coins := coins s; streak := streak s; answered := answered s; last_correct := last_correct s; used_5050 := used_5050 s; eliminated_options := eliminated_options s; hints_used := hints_used s; skips_used := skips_used s; badges := badges s; shop_buys := shop_buys s; show_hint := show_hint s; monsters_owned := v; selected_monster := selected_monster s |}.

Definition set_selected_monster (v : option string) (s : SessionState) : SessionState :=
  {| started := started s; num_questions := num_questions s; question_ids := question_ids s; q_index := q_index s; score := score s; coins := coins s; streak := streak s; answered := answered s; last_correct := last_correct s; used_5050 := used_5050 s; eliminated_options := eliminated_options s; hints_used := hints_used s; skips_used := skips_used s; badges := badges s; shop_buys := shop_buys s; show_hint := show_hint s; monsters_owned := monsters_owned s; selected_monster := v |}.

(** [init_state]: the defaults installed on the first run of the page. *)
Definition init_state : SessionState :=
  {| started := false;
     num_questions := DEFAULT_NUM_QUESTIONS;
     question_ids := [];
     q_index := 0;
     score := 0;
     coins := 0;
     streak := 0;
     answered := false;
     last_correct := None;
     used_5050 := false;
     eliminated_options := ∅;
     hints_used := 0;
     skips_used := 0;
     badges := ∅;
     shop_buys := [];
     show_hint := false;
     monsters_owned := [];
     selected_monster := None |}.

(** ** The script monad

    A script either runs to its end ([Done]), stops because it called
    [st.rerun()] ([Rerun]), or stops on an exception ([Raise]).  In every
    case the session state written so far is kept, as Streamlit keeps it. *)

Inductive PyExc : Type :=
  | KeyError | IndexError | ValueError | ZeroDivisionError
  | StreamlitAPIException.

Inductive Flow (A : Type) : Type :=
  | Done (a : A)
  | Rerun
  | Raise (e : PyExc).
Arguments Done {A} a.
Arguments Rerun {A}.
Arguments Raise {A} e.

Definition Script (A : Type) : Type := SessionState -> Flow A * SessionState.

#[global] Instance Script_ret : MRet Script := λ A a s, (Done a, s).

#[global] Instance Script_bind : MBind Script := λ A B f m s,
  match m s with
  | (Done a, s') => f a s'
  | (Rerun, s') => (Rerun, s')
  | (Raise e, s') => (Raise e, s')
  end.

Definition get_state : Script SessionState := λ s, (Done s, s).
Definition modify (f : SessionState -> SessionState) : Script unit :=
  λ s, (Done tt, f s).
Definition st_rerun {A} : Script A := λ s, (Rerun, s).
Definition py_raise {A} (e : PyExc) : Script A := λ s, (Raise e, s).
Definition when (b : bool) (m : Script unit) : Script unit :=
  if b then m else mret tt.
Definition or_raise {A} (e : PyExc) (o : option A) : Script A :=
  match o with
  | Some a => mret a
  | None => py_raise e
  end.

Fixpoint for_each {A} (f : A -> Script unit) (l : list A) : Script unit :=
  match l with
  | [] => mret tt
  | x :: l' => f x ;; for_each f l'
  end.

(** ** Widgets

    One script run is triggered by at most one widget interaction.  The run
    is given the slider position (when the user moved it), the button that
    was pressed, the row picked in the radio group, and the values the
    random generator yields.  A disabled button cannot be pressed. *)

Inductive Click : Type :=
  | NoClick
  | ClickNewGame
  | ClickHint
  | ClickSkip
  | ClickFiftyFifty
  | ClickPlayAgain
  | ClickSubmit
  | ClickNext
  | ClickSelect (monster_id : string)
  | ClickBuy (monster_id : string).

#[global] Instance Click_eq_dec : EqDecision Click.
Proof. solve_decision. Defined.

Record RunInput : Type := mkInput {
  slider : option Z;
  click : Click;
  radio : nat;
  draws : nat -> nat
}.

Definition st_button (inp : RunInput) (b : Click) (disabled : bool) : bool :=
  bool_decide (click inp = b) && negb disabled.

(** [st.slider(label, lo, hi, value)]: the position chosen by the user, or
    [value] when the slider was not touched; a position outside [lo..hi] is
    refused by the widget. *)
Definition st_slider (inp : RunInput) (lo hi value : Z) : Script Z :=
  let v := default value (slider inp) in
  if (lo <=? v) && (v <=? hi) then mret v else py_raise StreamlitAPIException.

(** ** State and scoring helpers *)

Definition get_monster (monster_id : string) : option Monster :=
  head (filter (λ monster, m_id monster = monster_id) MONSTER_SHOP).

Definition start_new_game (rnd : nat -> nat) : Script unit :=
  modify (set_started true) ;;
  modify (set_score 0) ;;
  modify (set_coins 0) ;;
  modify (set_streak 0) ;;
  modify (set_q_index 0) ;;
  modify (set_answered false) ;;
  modify (set_last_correct None) ;;
  modify (set_used_5050 false) ;;
  modify (set_eliminated_options ∅) ;;
  modify (set_hints_used 0) ;;
  modify (set_skips_used 0) ;;
  modify (set_badges ∅) ;;
  modify (set_shop_buys []) ;;
  modify (set_show_hint false) ;;
  s ← get_state;
  let num := Z.min (num_questions s) (len QUESTION_POOL) in
  picked_ids ← or_raise ValueError
                  (random_sample rnd (q_id <$> QUESTION_POOL) num);
  modify (set_question_ids picked_ids).

Definition get_question_by_id (question_id : string) : Script Question :=
  or_raise KeyError
    (head (filter (λ question, q_id question = question_id) QUESTION_POOL)).

Definition add_badge (b : string) : Script unit :=
  modify (λ s, set_badges ({[ b ]} ∪ badges s) s).

Definition award_badges : Script unit :=
  s ← get_state;
  when (BADGE_SCORE_APPRENTICE <=? score s) (add_badge BADGE_APPRENTICE) ;;
  s ← get_state;
  when (BADGE_SCORE_PRO <=? score s) (add_badge BADGE_PRO) ;;
  s ← get_state;
  when (BADGE_STREAK_THRESHOLD <=? streak s) (add_badge BADGE_STREAK_MASTER) ;;
  s ← get_state;
  when ((hints_used s =? 0) && (q_index s =? len (question_ids s)))
    (add_badge BADGE_NO_HINT_HERO) ;;
  s ← get_state;
  when (used_5050 s) (add_badge BADGE_5050_USER).

Definition reset_question_powerups : Script unit :=
  modify (set_answered false) ;;
  modify (set_used_5050 false) ;;
  modify (set_eliminated_options ∅) ;;
  modify (set_show_hint false) ;;
  modify (set_shop_buys []).

Definition wrong_indices (question : Question) : list Z :=
  filter (λ index, index ≠ q_answer_idx question)
         (range (length (q_options question))).

Definition apply_5050 (rnd : nat -> nat) (question : Question) : Script unit :=
  let num_to_eliminate := Z.min 2 (len (wrong_indices question)) in
  picked ← or_raise ValueError
             (random_sample rnd (wrong_indices question) num_to_eliminate);
  let eliminated : gset Z := list_to_set picked in
  modify (set_eliminated_options eliminated) ;;
  modify (set_used_5050 true).

Definition get_visible_option_indices (question : Question) : Script (list Z) :=
  s ← get_state;
  if negb (used_5050 s) then mret (range (length (q_options question)))
  else mret (filter (λ index, index ∉ eliminated_options s)
                    (range (length (q_options question)))).

Definition coins_for_correct : Script Z :=
  s ← get_state;
  let streak_bonus := Z.min (streak s) MAX_STREAK_BONUS in
  mret (BASE_COIN_REWARD + streak_bonus).

(** ** The page script ([main]) *)

(** Quiz settings: the slider and the "New game" button. *)
Definition quiz_settings (inp : RunInput) : Script unit :=
  s ← get_state;
  v ← st_slider inp MIN_QUESTIONS_PER_GAME
        (Z.min MAX_QUESTIONS_PER_GAME (len QUESTION_POOL)) (num_questions s);
  modify (set_num_questions v) ;;
  when (st_button inp ClickNewGame false)
    (start_new_game (draws inp) ;; st_rerun).

(** Power-up shop: Hint, Skip and 50/50. *)
Definition powerup_shop (inp : RunInput) : Script unit :=
  s ← get_state;
  when (st_button inp ClickHint
          ((coins s <? HINT_COST) || negb (started s) || answered s))
    (modify (λ s, set_coins (coins s - HINT_COST) s) ;;
     modify (λ s, set_hints_used (hints_used s + 1) s) ;;
     modify (λ s, set_shop_buys (shop_buys s ++ ["Hint"]) s) ;;
     modify (set_show_hint true)) ;;
  s ← get_state;
  when (st_button inp ClickSkip
          ((coins s <? SKIP_COST) || negb (started s) || answered s))
    (modify (λ s, set_coins (coins s - SKIP_COST) s) ;;
     modify (λ s, set_skips_used (skips_used s + 1) s) ;;
     modify (λ s, set_shop_buys (shop_buys s ++ ["Skip"]) s) ;;
     modify (set_last_correct None) ;;
     modify (set_streak 0) ;;
     modify (set_answered true)) ;;
  s ← get_state;
  when (st_button inp ClickFiftyFifty
          ((coins s <? FIFTY_FIFTY_COST) || negb (started s) || answered s
           || used_5050 s))
    (modify (λ s, set_coins (coins s - FIFTY_FIFTY_COST) s) ;;
     modify (λ s, set_shop_buys (shop_buys s ++ ["50/50"]) s)).

(** The "Submit" handler. *)
Definition submit_answer (inp : RunInput) (question : Question)
    (option_indices : list Z) : Script unit :=
  chosen_original_idx ← or_raise IndexError (option_indices !! radio inp);
  let is_correct := bool_decide (chosen_original_idx = q_answer_idx question) in
  modify (set_answered true) ;;
  modify (set_last_correct (Some is_correct)) ;;
  if is_correct then
    modify (λ s, set_score (score s + 1) s) ;;
    modify (λ s, set_streak (streak s + 1) s) ;;
    coins_earned ← coins_for_correct;
    modify (λ s, set_coins (coins s + coins_earned) s)
  else
    modify (set_streak 0).

(** The results screen, shown once every question has been passed. *)
Definition results_screen (inp : RunInput) (total_questions : Z) : Script unit :=
  award_badges ;;
  when (total_questions =? 0) (py_raise ZeroDivisionError) ;;
  when (st_button inp ClickPlayAgain false)
    (start_new_game (draws inp) ;; st_rerun).

(** The question screen. *)
Definition question_screen (inp : RunInput) (current_index : Z) : Script unit :=
  s ← get_state;
  question_id ← or_raise IndexError (py_index (question_ids s) current_index);
  question ← get_question_by_id question_id;
  when (bool_decide ("50/50" ∈ shop_buys s) && negb (used_5050 s))
    (modify (λ s, set_shop_buys (py_remove "50/50" (shop_buys s)) s) ;;
     apply_5050 (draws inp) question) ;;
  option_indices ← get_visible_option_indices question;
  s ← get_state;
  when (st_button inp ClickSubmit (answered s))
    (submit_answer inp question option_indices) ;;
  s ← get_state;
  when (st_button inp ClickNext (negb (answered s)))
    (modify (λ s, set_q_index (q_index s + 1) s) ;;
     reset_question_powerups ;;
     st_rerun).

Definition quiz_area (inp : RunInput) : Script unit :=
  s ← get_state;
  if negb (started s) then mret tt
  else
    let total_questions := len (question_ids s) in
    let current_index := q_index s in
    when (answered s && bool_decide (last_correct s = None)
          && (current_index <? total_questions))
      (modify (λ s, set_q_index (q_index s + 1) s) ;;
       reset_question_powerups ;;
       st_rerun) ;;
    if total_questions <=? current_index
    then results_screen inp total_questions
    else question_screen inp current_index.

(** One card of the monster shop. *)
Definition monster_card (inp : RunInput) (monster : Monster) : Script unit :=
  s ← get_state;
  let owned := bool_decide (m_id monster ∈ monsters_owned s) in
  if owned then
    if bool_decide (selected_monster s = Some (m_id monster)) then mret tt
    else
      when (st_button inp (ClickSelect (m_id monster)) false)
        (modify (set_selected_monster (Some (m_id monster))) ;;
         st_rerun)
  else
    let not_enough_coins := coins s <? m_price monster in
    when (st_button inp (ClickBuy (m_id monster)) not_enough_coins)
      (modify (λ s, set_coins (coins s - m_price monster) s) ;;
       modify (λ s, set_monsters_owned (monsters_owned s ++ [m_id monster]) s) ;;
       modify (set_selected_monster (Some (m_id monster))) ;;
       add_badge BADGE_MONSTER_COLLECTOR ;;
       st_rerun).

Definition monster_shop (inp : RunInput) : Script unit :=
  for_each (monster_card inp) MONSTER_SHOP.

Definition main (inp : RunInput) : Script unit :=
  quiz_settings inp ;;
  powerup_shop inp ;;
  quiz_area inp ;;
  monster_shop inp.

(** ** Sessions

    After [st.rerun()] the script runs again with no button pressed. *)

Definition rerun_input (inp : RunInput) : RunInput :=
  {| slider := None; click := NoClick; radio := radio inp; draws := draws inp |}.

Fixpoint run_until_idle (fuel : nat) (inp : RunInput) (s : SessionState)
    : Flow unit * SessionState :=
  match main inp s with
  | (Rerun, s') =>
      match fuel with
      | O => (Rerun, s')
      | S fuel' => run_until_idle fuel' (rerun_input inp) s'
      end
  | r => r
  end.

(** One user interaction: the run it triggers and the rerun that run may
    ask for. *)
Definition interact (inp : RunInput) (s : SessionState) : Flow unit * SessionState :=
  run_until_idle 1 inp s.

(** States the page can be in: the initial one, and what any script run
    leaves behind. *)
Inductive reachable : SessionState -> Prop :=
  | reachable_init : reachable init_state
  | reachable_run inp s : reachable s -> reachable (main inp s).2.

(** ** Specification vocabulary *)

(** [m] keeps [I]: whatever way [m] ends, the state it leaves satisfies [I]
    if the state it started from did. *)
Definition preserves {A} (I : SessionState -> Prop) (m : Script A) : Prop :=
  ∀ s, I s -> I (m s).2.

(** What holds of every state the page reaches: coins and streak are not
    negative, the 50/50 badge has not been handed out, and the 50/50 flag is
    only ever up while a question is on screen. *)
Definition session_inv (s : SessionState) : Prop :=
  0 <= coins s ∧ 0 <= streak s
  ∧ (BADGE_5050_USER ∉ badges s)
  ∧ (used_5050 s = true -> q_index s < len (question_ids s)).

(** [if c: badges.add(b)] *)
Definition add_if (c : bool) (b : string) (B : gset string) : gset string :=
  if c then {[ b ]} ∪ B else B.

(** The badge set [award_badges] leaves behind, in closed form. *)
Definition awarded (s : SessionState) : gset string :=
  add_if (used_5050 s) BADGE_5050_USER
    (add_if ((hints_used s =? 0) && (q_index s =? len (question_ids s)))
       BADGE_NO_HINT_HERO
       (add_if (BADGE_STREAK_THRESHOLD <=? streak s) BADGE_STREAK_MASTER
          (add_if (BADGE_SCORE_PRO <=? score s) BADGE_PRO
             (add_if (BADGE_SCORE_APPRENTICE <=? score s) BADGE_APPRENTICE
                (badges s))))).

(** Unfolds the monad's plumbing so that a script applied to a state
    computes. *)
Ltac run_script :=
  unfold mbind, Script_bind, get_state, when, modify, mret, Script_ret,
    st_rerun, py_raise, or_raise, add_badge in *.

(** The spec's [clamp]. *)
Definition clamp (x lo hi : Z) : Z := Z.max lo (Z.min x hi).

(** The spec's [wrongOptionCount]: the options of a question other than the
    right answer.  When the answer index points at none of the options,
    every option is a wrong one. *)
Definition wrong_option_count (question : Question) : Z :=
  if bool_decide (0 <= q_answer_idx question < len (q_options question))
  then len (q_options question) - 1
  else len (q_options question).

(** *** Playing the game

    A script run in which only the button [c] is pressed, with row [row]
    picked in the radio group and the slider left alone. *)
Definition press (c : Click) (row : nat) (rnd : nat -> nat) : RunInput :=
  {| slider := None; click := c; radio := row; draws := rnd |}.

(** The question on screen. *)
Definition current_question (s : SessionState) : option Question :=
  question_id ← py_index (question_ids s) (q_index s);
  head (filter (λ question, q_id question = question_id) QUESTION_POOL).

(** The option indices on screen, as [get_visible_option_indices] lists
    them. *)
Definition visible_rows (s : SessionState) (question : Question) : list Z :=
  if negb (used_5050 s) then range (length (q_options question))
  else filter (λ index, index ∉ eliminated_options s)
              (range (length (q_options question))).

(** The radio row that shows the right answer. *)
Definition correct_row (s : SessionState) : nat :=
  match current_question s with
  | Some question =>
      default 0%nat
        (fst <$> list_find (λ index, index = q_answer_idx question)
                   (visible_rows s question))
  | None => 0%nat
  end.

Definition answer_correctly (rnd : nat -> nat) (s : SessionState) : SessionState :=
  (interact (press ClickSubmit (correct_row s) rnd) s).2.

Definition next_question (rnd : nat -> nat) (s : SessionState) : SessionState :=
  (interact (press ClickNext 0 rnd) s).2.

(** One round: pick the right answer, submit, press "Next". *)
Definition play_round (rnd : nat -> nat) (s : SessionState) : SessionState :=
  next_question rnd (answer_correctly rnd s).

(** [startGame(n)]: the slider is moved to [n] and "New game" is pressed. *)
Definition start_game (n : Z) (rnd : nat -> nat) (s : SessionState) : SessionState :=
  (interact {| slider := Some n; click := ClickNewGame; radio := 0; draws := rnd |} s).2.

(** The state "Next" leaves behind: the index moved on, the per-question
    flags cleared. *)
Definition advanced (s : SessionState) : SessionState :=
  set_shop_buys [] (set_show_hint false (set_eliminated_options ∅
    (set_used_5050 false (set_answered false
      (set_q_index (q_index s + 1) s))))).

(** Coins earned by [n] right answers in a row, starting from streak [st]. *)
Fixpoint reward_sum (st : Z) (n : nat) : Z :=
  match n with
  | O => 0
  | S n' =>
      (BASE_COIN_REWARD + Z.min (st + 1) MAX_STREAK_BONUS) + reward_sum (st + 1) n'
  end.


(** The highest streak seen in a list of states. *)
Definition max_streak (states : list SessionState) : Z :=
  foldr (λ s acc, Z.max (streak s) acc) 0 states.

(** The price tag of a purchase button. *)
Definition purchase_cost (c : Click) : option Z :=
  match c with
  | ClickHint => Some HINT_COST
  | ClickSkip => Some SKIP_COST
  | ClickFiftyFifty => Some FIFTY_FIFTY_COST
  | ClickBuy monster_id => m_price <$> get_monster monster_id
  | _ => None
  end.


(** The state [start_new_game] builds when the sampling succeeds. *)
Definition fresh_game (rnd : nat -> nat) (s : SessionState) : SessionState :=
  set_question_ids
    (sample_pool rnd 0 (q_id <$> QUESTION_POOL)
       (Z.to_nat (Z.min (num_questions s) (len QUESTION_POOL))))
    (set_show_hint false (set_shop_buys [] (set_badges ∅ (set_skips_used 0
      (set_hints_used 0 (set_eliminated_options ∅ (set_used_5050 false
        (set_last_correct None (set_answered false (set_q_index 0
          (set_streak 0 (set_coins 0 (set_score 0
            (set_started true s)))))))))))))).

(** *** Screens and rounds *)

(** The question count in the session is one the slider accepts. *)
Definition valid_setting (s : SessionState) : Prop :=
  MIN_QUESTIONS_PER_GAME <= num_questions s
    <= Z.min MAX_QUESTIONS_PER_GAME (len QUESTION_POOL).

(** Buttons of the quiz area: with one of them pressed (or none), the page
    does what the quiz area does. *)
Definition quiz_click (c : Click) : Prop :=
  c = NoClick ∨ c = ClickSubmit ∨ c = ClickNext ∨ c = ClickPlayAgain.

(** No bought 50/50 is waiting to be applied. *)
Definition no_pending_5050 (s : SessionState) : Prop :=
  bool_decide ("50/50" ∈ shop_buys s) && negb (used_5050 s) = false.

(** The skip marker: answered, with no verdict, on a question still to come. *)
Definition skip_pending (s : SessionState) : bool :=
  answered s && bool_decide (last_correct s = None)
  && (q_index s <? len (question_ids s)).

(** A question is on screen, not yet answered, with no power-up bought. *)
Definition in_game (s : SessionState) : Prop :=
  started s = true ∧ answered s = false ∧ used_5050 s = false
  ∧ shop_buys s = []
  ∧ 0 <= q_index s < len (question_ids s)
  ∧ (∀ question_id, question_id ∈ question_ids s ->
       question_id ∈ q_id <$> QUESTION_POOL)
  ∧ valid_setting s.

(** The state a right answer leaves behind. *)
Definition answered_right (s : SessionState) : SessionState :=
  set_coins (coins s + (BASE_COIN_REWARD
                        + Z.min (streak s + 1) MAX_STREAK_BONUS))
    (set_streak (streak s + 1)
       (set_score (score s + 1)
          (set_last_correct (Some true) (set_answered true s)))).

(** [n] rounds in a row. *)
Fixpoint play_rounds (rnd : nat -> nat) (n : nat) (s : SessionState)
    : SessionState :=
  match n with
  | O => s
  | S n' => play_rounds rnd n' (play_round rnd s)
  end.

(** *** Purchases *)


(** From a state satisfying [P], [m] ends, whatever way, in a state
    satisfying [Q]. *)
Definition hoare {A} (P : SessionState -> Prop) (m : Script A)
    (Q : SessionState -> Prop) : Prop :=
  ∀ s, P s -> Q (m s).2.

(** *** Worked examples *)

(** The radio row of the first wrong option on screen. *)
Definition wrong_row (s : SessionState) : nat :=
  match current_question s with
  | Some question =>
      default 0%nat
        (fst <$> list_find (λ index, index ≠ q_answer_idx question)
                   (visible_rows s question))
  | None => 0%nat
  end.

Definition answer_wrongly (rnd : nat -> nat) (s : SessionState) : SessionState :=
  (interact (press ClickSubmit (wrong_row s) rnd) s).2.

Definition buy_5050 (rnd : nat -> nat) (s : SessionState) : SessionState :=
  (interact (press ClickFiftyFifty 0 rnd) s).2.

(** A fixed stream of draws for the worked examples. *)
Definition demo_rnd : nat -> nat := λ i, (7 * i + 3)%nat.

(** A seven-question game in which 50/50 is bought on the second question
    and every answer is right. *)
Definition demo_5050_before : SessionState :=
  play_round demo_rnd (start_game 7 demo_rnd init_state).
Definition demo_5050_bought : SessionState := buy_5050 demo_rnd demo_5050_before.
Definition demo_5050_final : SessionState :=
  play_rounds demo_rnd 6 demo_5050_bought.

(** A four-question game: three right answers, then a wrong one. *)
Definition demo_streak_states : list SessionState :=
  let s0 := start_game 4 demo_rnd init_state in
  let s1 := play_round demo_rnd s0 in
  let s2 := play_round demo_rnd s1 in
  let s3 := play_round demo_rnd s2 in
  let s4 := next_question demo_rnd (answer_wrongly demo_rnd s3) in
  [s0; s1; s2; s3; s4].

(** One right answer into a game. *)
Definition demo_one_right : SessionState :=
  answer_correctly demo_rnd (start_game 7 demo_rnd init_state).

(** *** Reruns *)

(** The script never asks for a rerun. *)
Definition no_rerun {A} (m : Script A) : Prop := ∀ s, (m s).1 ≠ Rerun.

(** No skip is waiting to be carried out. *)
Definition settled (s : SessionState) : Prop := skip_pending s = false.

(** Once the game has started, no skip is waiting. *)
Definition calm (s : SessionState) : Prop := started s = true -> settled s.

(** * Code Quality Checker ([src/code_checker.py])

    The chat-completion client and [json.loads] are external collaborators:
    the pipeline is parameterised by what the endpoint answers to a request
    and by what the parser makes of a text.  Every request handed to the
    client and every message shown to the user is recorded in a [World]. *)

Module CodeChecker.

Definition OPENAI_API_KEY : string :=
  "PLACEHOLDER -> PLEASE EXCHANGE WITH THE CODE FROM THE MESSAGE ON CODINGXCAMP".
Definition MODEL_NAME_ANALYSIS : string := "gpt-5.2".
Definition MODEL_NAME_REFACTOR : string := "gpt-5-nano".

(** What [json.loads] can return.  A float is kept up to whether it is zero,
    which is all a truth test reads. *)
#[local] Unset Elimination Schemes.
Inductive PyValue : Type :=
  | PyNone
  | PyBool (b : bool)
  | PyInt (z : Z)
  | PyFloat (is_zero : bool)
  | PyStr (text : string)
  | PyList (items : list PyValue)
  | PyDict (entries : list (string * PyValue)).
#[local] Set Elimination Schemes.

(** Python's truth test ([if not analysis_result]). *)
Definition truthy (v : PyValue) : bool :=
  match v with
  | PyNone => false
  | PyBool b => b
  | PyInt z => negb (z =? 0)
  | PyFloat is_zero => negb is_zero
  | PyStr text => negb (String.eqb text "")
  | PyList items => negb (bool_decide (length items = 0%nat))
  | PyDict entries => negb (bool_decide (length entries = 0%nat))
  end.

(** [d.get(key, fallback)] on a dictionary. *)
Definition dict_get (entries : list (string * PyValue)) (key : string)
    (fallback : PyValue) : PyValue :=
  match list_find (λ entry, entry.1 = key) entries with
  | Some (_, entry) => entry.2
  | None => fallback
  end.

(** The prompts are kept by what they are built from. *)
Inductive Messages : Type :=
  | AnalysisMessages
      (code language_hint review_level persona explanation_language : string)
  | RefactorMessages
      (code : string) (detected_language : PyValue)
      (review_level persona : string).

Definition build_analysis_messages
    (code language_hint review_level persona explanation_language : string)
    : Messages :=
  AnalysisMessages code language_hint review_level persona explanation_language.

Definition build_refactor_messages
    (code : string) (detected_language : PyValue)
    (review_level persona : string) : Messages :=
  RefactorMessages code detected_language review_level persona.

Record Request : Type := mkRequest {
  req_model : string;
  req_messages : Messages;
  req_json_object : bool
}.

(** The outcome of [client.chat.completions.create(...)] followed by
    [completion.choices[0].message.content]: an exception with its text, or
    the content, which may be [None]. *)
Inductive ApiOutcome : Type :=
  | ApiRaises (error : string)
  | ApiReturns (content : option string).

(** The outcome of [json.loads]. *)
Inductive Parsed : Type :=
  | ParseOk (value : PyValue)
  | ParseRaises (error : string).

Inductive UiMessage : Type :=
  | UiError (text : string)
  | UiWarning (text : string).

Record World : Type := mkWorld {
  shown : list UiMessage;
  sent : list Request
}.

Definition st_error (text : string) (w : World) : World :=
  {| shown := shown w ++ [UiError text]; sent := sent w |}.
Definition st_warning (text : string) (w : World) : World :=
  {| shown := shown w ++ [UiWarning text]; sent := sent w |}.
Definition send (r : Request) (w : World) : World :=
  {| shown := shown w; sent := sent w ++ [r] |}.

(** [json.loads(None)] raises a [TypeError] with this text. *)
Definition NONE_CONTENT_ERROR : string :=
  "the JSON object must be str, bytes or bytearray, not NoneType".

(** Whitespace as [str.strip()] sees it, on ASCII text. *)
Definition is_space (c : Ascii.ascii) : bool :=
  let n := Ascii.nat_of_ascii c in
  ((9 <=? n) && (n <=? 13) || (28 <=? n) && (n <=? 32))%nat.

(** [not code_input.strip()] *)
Fixpoint is_blank (text : string) : bool :=
  match text with
  | EmptyString => true
  | String c rest => is_space c && is_blank rest
  end.

Inductive Client : Type := OpenAI (api_key : string).

Definition get_client (w : World) : option Client * World :=
  if String.eqb OPENAI_API_KEY "" then
    (None,
     st_error ("No OpenAI API key configured. Please set the OPENAI_API_KEY "
               +:+ "environment variable or configure it in the source code.") w)
  else (Some (OpenAI OPENAI_API_KEY), w).

Section pipeline.
Variable api : Request -> ApiOutcome.
Variable json_loads : string -> Parsed.

Definition analysis_request
    (code language_hint review_level persona explanation_language : string)
    : Request :=
  {| req_model := MODEL_NAME_ANALYSIS;
     req_messages := build_analysis_messages code language_hint review_level
                       persona explanation_language;
     req_json_object := true |}.

Definition run_analysis (client : Client)
    (code language_hint review_level persona explanation_language : string)
    (w : World) : PyValue * World :=
  let request := analysis_request code language_hint review_level persona
                   explanation_language in
  let w := send request w in
  match api request with
  | ApiRaises error =>
      (PyDict [], st_error ("Error during analysis: " +:+ error) w)
  | ApiReturns None =>
      (PyDict [], st_error ("Error during analysis: " +:+ NONE_CONTENT_ERROR) w)
  | ApiReturns (Some content) =>
      match json_loads content with
      | ParseOk value => (value, w)
      | ParseRaises error =>
          (PyDict [], st_error ("Error during analysis: " +:+ error) w)
      end
  end.

Definition refactor_request (code : string) (detected_language : PyValue)
    (review_level persona : string) : Request :=
  {| req_model := MODEL_NAME_REFACTOR;
     req_messages := build_refactor_messages code detected_language
                       review_level persona;
     req_json_object := false |}.

(** Returns the new code; [None] when the content is [None]. *)
Definition run_refactor (client : Client) (code : string)
    (detected_language : PyValue) (review_level persona : string)
    (w : World) : option string * World :=
  let request := refactor_request code detected_language review_level persona in
  let w := send request w in
  match api request with
  | ApiRaises error =>
      (Some "", st_error ("Error during refactoring: " +:+ error) w)
  | ApiReturns content => (content, w)
  end.

(** The widgets of the page. *)
Record PageInput : Type := mkPageInput {
  language_hint : string;
  review_level : string;
  persona : string;
  explanation_language_ui : string;
  generate_refactor : bool;
  code_input : string;
  analyze_button : bool
}.

(** [main] is followed from its first line to the line that opens the
    result tabs.  Up to there it returns early, raises, or goes on to the
    tabs with the analysis result and the refactored code.  The tabs
    themselves, the rest of [main], send no request; what they draw, the
    messages they show and the exceptions they raise on a result that is
    not shaped as the prompt asks are not part of the outcome. *)
Inductive PageOutcome : Type :=
  | Returned
  | Raised
  | TabsOpened (analysis_result : PyValue) (refactored_code : option string).

Definition main (inp : PageInput) (w : World) : PageOutcome * World :=
  let explanation_language :=
    if String.eqb (explanation_language_ui inp) "Deutsch"
    then "German" else "English" in
  if negb (analyze_button inp) then (Returned, w)
  else if is_blank (code_input inp) then
    (Returned,
     st_warning "Please paste some code before running the analysis." w)
  else
    match get_client w with
    | (None, w) => (Returned, w)
    | (Some openai_client, w) =>
        let (analysis_result, w) :=
          run_analysis openai_client (code_input inp) (language_hint inp)
            (review_level inp) (persona inp) explanation_language w in
        if negb (truthy analysis_result) then (Returned, w)
        else
          match analysis_result with
          | PyDict entries =>
              let detected_language :=
                dict_get entries "language"
                  (PyStr (if String.eqb (language_hint inp) ""
                          then "text" else language_hint inp)) in
              if generate_refactor inp then
                let (refactored_code, w) :=
                  run_refactor openai_client (code_input inp) detected_language
                    (review_level inp) (persona inp) w in
                (TabsOpened analysis_result refactored_code, w)
              else (TabsOpened analysis_result (Some ""), w)
          | _ => (Raised, w)
          end
    end.

(** The analysis call fails: the request raises, or its content is not
    valid JSON. *)
Definition analysis_fails (request : Request) : Prop :=
  (∃ error, api request = ApiRaises error)
  ∨ api request = ApiReturns None
  ∨ (∃ content error,
       api request = ApiReturns (Some content)
       ∧ json_loads content = ParseRaises error).

End pipeline.

(** The request [main] hands to [run_analysis]. *)
Definition page_analysis_request (inp : PageInput) : Request :=
  analysis_request (code_input inp) (language_hint inp) (review_level inp)
    (persona inp)
    (if String.eqb (explanation_language_ui inp) "Deutsch"
     then "German" else "English").

(** The analysis call as [main] makes it. *)
Definition page_run_analysis (api : Request -> ApiOutcome)
    (json_loads : string -> Parsed) (inp : PageInput) (w : World)
    : PyValue * World :=
  run_analysis api json_loads (OpenAI OPENAI_API_KEY) (code_input inp)
    (language_hint inp) (review_level inp) (persona inp)
    (if String.eqb (explanation_language_ui inp) "Deutsch"
     then "German" else "English") w.

(** ** Scoring helpers for the traffic light *)

(** [get_quality_level]: label, description and colour for a score. *)
Definition get_quality_level (score : Z) : string * string * string :=
  if score <? 40 then
    ("Poor",
     "Code quality is poor. Serious refactoring is strongly recommended "
     +:+ "before using this code in production or teaching.",
     "#c0392b")
  else if score <? 60 then
    ("Below average",
     "Code is usable but has significant weaknesses. It should be improved "
     +:+ "to meet common best practices.",
     "#e67e22")
  else if score <? 80 then
    ("Acceptable",
     "Code quality is acceptable. It follows some best practices, but there "
     +:+ "is still clear potential for improvement.",
     "#f1c40f")
  else if score <? 90 then
    ("Good",
     "Code quality is good. It follows most relevant best practices with "
     +:+ "only minor improvement opportunities.",
     "#27ae60")
  else
    ("Excellent",
     "Code quality is excellent. It is clear, well-structured, robust and "
     +:+ "close to what an experienced engineer would write.",
     "#2ecc71").

(** The score bands as the page's own help text lists them ("How the scoring
    and traffic light system work"): lowest score, highest score, label. *)
Definition SCORE_HELP_TABLE : list (Z * Z * string) :=
  [(0, 39, "Poor"); (40, 59, "Below average"); (60, 79, "Acceptable");
   (80, 89, "Good"); (90, 100, "Excellent")].

(** The refactor request [main] sends for an analysis result with these
    entries: the language is the one the analysis detected, else the hint,
    else [text]. *)
Definition page_refactor_request (inp : PageInput)
    (entries : list (string * PyValue)) : Request :=
  refactor_request (code_input inp)
    (dict_get entries "language"
       (PyStr (if String.eqb (language_hint inp) ""
               then "text" else language_hint inp)))
    (review_level inp) (persona inp).

(** An endpoint that is down, a parser that accepts nothing, and a page with
    the button pressed on some code. *)
Definition demo_api_down : Request -> ApiOutcome :=
  λ _, ApiRaises "Connection error.".
Definition demo_json_loads : string -> Parsed :=
  λ _, ParseRaises "Expecting value: line 1 column 1 (char 0)".
Definition demo_page : PageInput :=
  {| language_hint := "Auto"; review_level := "Beginner-friendly";
     persona := "Balanced senior engineer"; explanation_language_ui := "English";
     generate_refactor := true; code_input := "x=1"; analyze_button := true |}.
Definition empty_world : World := {| shown := []; sent := [] |}.

End CodeChecker.

(** * Quiz Arcade: states and invariants used by the further properties *)

(** A question is on screen and waits for an answer: the game runs, the
    current id is one of the bank, and no bought 50/50 is still to be
    applied. *)
Definition awaiting_answer (s : SessionState) (question : Question) : Prop :=
  started s = true ∧ answered s = false
  ∧ q_index s < len (question_ids s)
  ∧ current_question s = Some question
  ∧ no_pending_5050 s
  ∧ valid_setting s.

(** A question is on screen with an answer locked in. *)
Definition answer_locked (s : SessionState) (question : Question) : Prop :=
  started s = true ∧ answered s = true ∧ is_Some (last_correct s)
  ∧ q_index s < len (question_ids s)
  ∧ current_question s = Some question
  ∧ no_pending_5050 s
  ∧ valid_setting s.

(** The state a wrong answer leaves behind. *)
Definition answered_wrong (s : SessionState) : SessionState :=
  set_streak 0 (set_last_correct (Some false) (set_answered true s)).

(** The state the Skip button leaves behind, before the page moves on. *)
Definition skip_paid (s : SessionState) : SessionState :=
  set_answered true (set_streak 0 (set_last_correct None
    (set_shop_buys (shop_buys s ++ ["Skip"])
       (set_skips_used (skips_used s + 1)
          (set_coins (coins s - SKIP_COST) s))))).

(** The state the Hint button leaves behind. *)
Definition hint_paid (s : SessionState) : SessionState :=
  set_show_hint true (set_shop_buys (shop_buys s ++ ["Hint"])
    (set_hints_used (hints_used s + 1)
       (set_coins (coins s - HINT_COST) s))).

(** One of the three power-up buttons. *)
Definition powerup_click (c : Click) : Prop :=
  c = ClickHint ∨ c = ClickSkip ∨ c = ClickFiftyFifty.


(** The state a monster purchase leaves behind. *)
Definition bought (monster : Monster) (s : SessionState) : SessionState :=
  set_badges ({[ BADGE_MONSTER_COLLECTOR ]} ∪ badges s)
    (set_selected_monster (Some (m_id monster))
       (set_monsters_owned (monsters_owned s ++ [m_id monster])
          (set_coins (coins s - m_price monster) s))).

(** A button of the monster shop. *)
Definition monster_click (c : Click) : Prop :=
  ∃ monster_id, c = ClickSelect monster_id ∨ c = ClickBuy monster_id.

(** The game is over: every question has been passed. *)
Definition finished (s : SessionState) : Prop :=
  started s = true ∧ 0 < len (question_ids s) <= q_index s ∧ valid_setting s.

(** A seven-question game, just started. *)
Definition demo_waiting : SessionState := start_game 7 demo_rnd init_state.

(** The first and the second question of that game. *)
Definition demo_first_question : Question :=
  {| q_id := "whitespace";
     q_options := ["Version 1"; "Version 2"; "Both are equally recommended";
                   "Neither"];
     q_answer_idx := 1; q_topic := "Formatting" |}.

Definition demo_second_question : Question :=
  {| q_id := "constant_naming";
     q_options := ["maxValue"; "MAX_VALUE"; "MaxValue"; "max_value"];
     q_answer_idx := 1; q_topic := "Naming" |}.

(** A three-question game played to the end. *)
Definition demo_finished : SessionState :=
  play_rounds demo_rnd 3 (start_game 3 demo_rnd init_state).

(** The cheapest monster of the shop. *)
Definition demo_monster : Monster :=
  {| m_id := "pep_snek"; m_name := "PEP Snek"; m_price := 20; m_image := "1.jpg" |}.

(** The second cheapest monster of the shop. *)
Definition demo_second_monster : Monster :=
  {| m_id := "lint_lizard"; m_name := "Lint Lizard"; m_price := 35;
     m_image := "2.jpg" |}.

(** Seven right answers into a ten-question game: 60 coins to spend, a
    streak of 7, the eighth question on screen. *)
Definition demo_rich : SessionState :=
  play_rounds demo_rnd 7 (start_game 10 demo_rnd init_state).

Definition demo_eighth_question : Question :=
  {| q_id := "line_length";
     q_options := ["79 characters"; "99 characters"; "120 characters";
                   "60 characters"];
     q_answer_idx := 0; q_topic := "Formatting" |}.

(** The same game after the two cheapest monsters were bought, one after
    the other. *)
Definition demo_one_monster : SessionState :=
  (interact (press (ClickBuy (m_id demo_monster)) 0 demo_rnd) demo_rich).2.
Definition demo_two_monsters : SessionState :=
  (interact (press (ClickBuy (m_id demo_second_monster)) 0 demo_rnd)
     demo_one_monster).2.

(** The slider is left alone or set to a position it offers. *)
Definition slider_ok (inp : RunInput) : Prop :=
  ∀ v, slider inp = Some v ->
    MIN_QUESTIONS_PER_GAME <= v
      <= Z.min MAX_QUESTIONS_PER_GAME (len QUESTION_POOL).

(** 1 while a right answer is locked in on the current question. *)
Definition answer_bonus (s : SessionState) : Z :=
  if answered s && bool_decide (last_correct s = Some true) then 1 else 0.

(** The question list of the game. *)
Definition ids_inv (s : SessionState) : Prop :=
  0 <= q_index s <= len (question_ids s)
  ∧ NoDup (question_ids s)
  ∧ (∀ question_id, question_id ∈ question_ids s ->
       question_id ∈ q_id <$> QUESTION_POOL)
  ∧ (started s = true ->
       MIN_QUESTIONS_PER_GAME <= len (question_ids s)
         <= MAX_QUESTIONS_PER_GAME).

(** The counters of the game. *)
Definition score_inv (s : SessionState) : Prop :=
  0 <= streak s <= score s
  ∧ score s <= q_index s + answer_bonus s <= len (question_ids s)
  ∧ 0 <= hints_used s ∧ 0 <= skips_used s ∧ 0 <= coins s.

(** An applied 50/50 belongs to the question on screen and has left its
    right answer there. *)
Definition fair_5050 (s : SessionState) : Prop :=
  used_5050 s = true ->
  ∃ question,
    current_question s = Some question
    ∧ q_answer_idx question ∈ visible_rows s question
    ∧ len (visible_rows s question)
      = len (q_options question) - Z.min 2 (len (q_options question) - 1).

(** The monster collection. *)
Definition monsters_inv (s : SessionState) : Prop :=
  NoDup (monsters_owned s)
  ∧ (∀ monster_id, monster_id ∈ monsters_owned s ->
       monster_id ∈ m_id <$> MONSTER_SHOP)
  ∧ (∀ monster_id, selected_monster s = Some monster_id ->
       monster_id ∈ monsters_owned s).

(** The score badges are held only with the score they stand for. *)
Definition badge_inv (s : SessionState) : Prop :=
  (BADGE_APPRENTICE ∈ badges s -> BADGE_SCORE_APPRENTICE <= score s)
  ∧ (BADGE_PRO ∈ badges s -> BADGE_SCORE_PRO <= score s).

Definition game_core (s : SessionState) : Prop :=
  valid_setting s ∧ ids_inv s ∧ score_inv s ∧ fair_5050 s ∧ monsters_inv s
  ∧ badge_inv s.

(** Between two runs a bought 50/50 is only ever waiting on the results
    screen. *)
Definition game_inv (s : SessionState) : Prop :=
  game_core s
  ∧ (no_pending_5050 s ∨ len (question_ids s) <= q_index s).

(** Between the power-up shop and the quiz area it may also wait in a
    running game. *)
Definition game_mid (s : SessionState) : Prop :=
  game_core s
  ∧ (no_pending_5050 s ∨ len (question_ids s) <= q_index s
     ∨ started s = true).

(** The exceptions a run can end in: the slider was given a position it does
    not offer, or Submit was pressed with a radio row that is not on
    screen. *)
Definition allowed (inp : RunInput) (e : PyExc) (s' : SessionState) : Prop :=
  (e = StreamlitAPIException ∧ ¬ slider_ok inp)
  ∨ (e = IndexError ∧ click inp = ClickSubmit
     ∧ ∃ question, current_question s' = Some question
                   ∧ visible_rows s' question !! radio inp = None).

(** From a state satisfying [P], the script ends in a state satisfying [Q],
    or stops for a rerun with the invariant in place, or stops on an allowed
    exception with the invariant in place. *)
Definition step_ok {A} (inp : RunInput) (P : SessionState -> Prop)
    (m : Script A) (Q : SessionState -> Prop) : Prop :=
  ∀ s, P s ->
    match m s with
    | (Done _, s') => Q s'
    | (Rerun, s') => game_inv s'
    | (Raise e, s') => game_inv s' ∧ allowed inp e s'
    end.

(** The state the 50/50 button leaves behind in the power-up shop. *)
Definition fifty_fifty_paid (s : SessionState) : SessionState :=
  set_shop_buys (shop_buys s ++ ["50/50"])
    (set_coins (coins s - FIFTY_FIFTY_COST) s).

(** A run's outcome keeps the invariant and raises nothing but an allowed
    exception. *)
Definition outcome_ok (inp : RunInput) (r : Flow unit * SessionState) : Prop :=
  match r with
  | (Done _, s') => game_inv s'
  | (Rerun, s') => game_inv s'
  | (Raise e, s') => game_inv s' ∧ allowed inp e s'
  end.

(** The state in which a bought 50/50 has been taken off the purchase list
    and applied. *)
Definition fifty_fifty_taken (rnd : nat -> nat) (question : Question)
    (s : SessionState) : SessionState :=
  (apply_5050 rnd question
     (set_shop_buys (py_remove "50/50" (shop_buys s)) s)).2.

(** The balance is at most [c]. *)
Definition coins_at_most (c : Z) (s : SessionState) : Prop :=
  0 <= c ∧ coins s <= c.

(** The balance is [c] and the streak is not negative. *)
Definition purse (c : Z) (s : SessionState) : Prop :=
  coins s = c ∧ 0 <= streak s.

(** The balance is [c], or [c] plus one reward. *)
Definition rewarded (c : Z) (s : SessionState) : Prop :=
  coins s = c
  ∨ c + BASE_COIN_REWARD + 1 <= coins s
      <= c + BASE_COIN_REWARD + MAX_STREAK_BONUS.

(** A question count the slider offers. *)
Definition offered (n : Z) : Prop :=
  MIN_QUESTIONS_PER_GAME <= n
    <= Z.min MAX_QUESTIONS_PER_GAME (len QUESTION_POOL).


(** * Properties

    ** Sampling without replacement *)

Section sampling.
Context {A : Type}.
Implicit Types (pool : list A) (rnd : nat -> nat).

(** One selection step keeps the pool's contents: what is emitted plus
    what stays in the pool is a rearrangement of the pool. *)
Lemma sample_step_perm pool j x z :
  pool !! j = Some x ->
  pool !! pred (length pool) = Some z ->
  pool ≡ₚ x :: take (pred (length pool)) (<[j := z]> pool).
Proof.
  intros Hj Hz.
  assert (Hlt : (j < length pool)%nat) by (eapply lookup_lt_Some; eauto).
  set (init := take (pred (length pool)) pool).
  assert (Hpool : pool = init ++ [z]).
  { unfold init.
    rewrite <- (take_drop_middle pool (pred (length pool)) z) at 1 by done.
    replace (S (pred (length pool))) with (length pool) by lia.
    by rewrite drop_all. }
  assert (Hinit_len : length init = pred (length pool)).
  { unfold init. rewrite length_take. lia. }
  destruct (decide (j = pred (length pool))) as [->|Hne].
  - assert (x = z) by congruence; subst z.
    rewrite list_insert_id by done. fold init.
    rewrite Hpool at 1. symmetry. apply Permutation_cons_append.
  - rewrite take_insert_lt by lia. fold init.
    assert (Hinit : init !! j = Some x).
    { unfold init. rewrite lookup_take_lt by lia. done. }
    rewrite Hpool at 1.
    rewrite (delete_Permutation init j x Hinit) at 1.
    rewrite insert_take_drop by lia.
    rewrite delete_take_drop.
    simpl. f_equiv. rewrite <- app_assoc. f_equiv.
    symmetry. apply Permutation_cons_append.
Qed.

Lemma sample_pool_perm rnd k : ∀ i pool,
  (k ≤ length pool)%nat ->
  ∃ rest, pool ≡ₚ sample_pool rnd i pool k ++ rest
          ∧ length rest = (length pool - k)%nat.
Proof.
  induction k as [|k IH]; intros i pool Hk; simpl.
  - exists pool. split; [done | lia].
  - destruct (lookup_lt_is_Some_2 pool (rnd i `mod` length pool)%nat) as [x Hx].
    { apply Nat.mod_upper_bound. lia. }
    destruct (lookup_lt_is_Some_2 pool (pred (length pool))) as [z Hz]; [lia|].
    rewrite Hx, Hz.
    pose proof (sample_step_perm pool _ x z Hx Hz) as Hstep.
    destruct (IH (S i) (take (pred (length pool))
                          (<[(rnd i `mod` length pool)%nat := z]> pool)))
      as (rest & Hperm & Hlen).
    { rewrite length_take, length_insert. lia. }
    exists rest. split.
    + rewrite Hstep at 1. simpl. by rewrite <- Hperm.
    + rewrite Hlen, length_take, length_insert. lia.
Qed.

Lemma sample_pool_length rnd k i pool :
  (k ≤ length pool)%nat -> length (sample_pool rnd i pool k) = k.
Proof.
  intros Hk. destruct (sample_pool_perm rnd k i pool Hk) as (rest & Hperm & Hlen).
  apply Permutation_length in Hperm. rewrite length_app in Hperm. lia.
Qed.

Lemma sample_pool_elem rnd k i pool x :
  (k ≤ length pool)%nat -> x ∈ sample_pool rnd i pool k -> x ∈ pool.
Proof.
  intros Hk Hx. destruct (sample_pool_perm rnd k i pool Hk) as (rest & Hperm & _).
  rewrite Hperm. apply elem_of_app. by left.
Qed.

Lemma sample_pool_NoDup rnd k i pool :
  (k ≤ length pool)%nat -> NoDup pool -> NoDup (sample_pool rnd i pool k).
Proof.
  intros Hk Hnd. destruct (sample_pool_perm rnd k i pool Hk) as (rest & Hperm & _).
  rewrite Hperm in Hnd. by apply NoDup_app in Hnd as [? _].
Qed.

(** [random.sample] succeeds exactly when [0 <= k <= len population]. *)
Lemma random_sample_Some rnd pool k :
  0 <= k <= len pool ->
  random_sample rnd pool k = Some (sample_pool rnd 0 pool (Z.to_nat k)).
Proof.
  intros Hk. unfold random_sample.
  destruct (Z.leb_spec 0 k); [|lia].
  destruct (Z.leb_spec k (len pool)); [done|lia].
Qed.
End sampling.

(** ** Invariants of scripts *)

Lemma preserves_ret {A} I (a : A) : preserves I (mret a).
Proof. intros s Hs. exact Hs. Qed.

Lemma preserves_bind {A B} I (m : Script A) (f : A -> Script B) :
  preserves I m -> (∀ a, preserves I (f a)) -> preserves I (m ≫= f).
Proof.
  intros Hm Hf s Hs. specialize (Hm s Hs).
  unfold mbind, Script_bind. destruct (m s) as [[a| |e] s']; simpl in *; auto.
  by apply Hf.
Qed.

Lemma preserves_get_bind {B} I (f : SessionState -> Script B) :
  (∀ s, I s -> I (f s s).2) -> preserves I (get_state ≫= f).
Proof. intros Hf s Hs. by apply Hf. Qed.

Lemma preserves_modify I (f : SessionState -> SessionState) :
  (∀ s, I s -> I (f s)) -> preserves I (modify f).
Proof. intros Hf s Hs. by apply Hf. Qed.

Lemma preserves_stop {A} I : preserves I (@st_rerun A).
Proof. intros s Hs. exact Hs. Qed.

Lemma preserves_raise {A} I e : preserves I (@py_raise A e).
Proof. intros s Hs. exact Hs. Qed.

Lemma preserves_or_raise {A} I e (o : option A) : preserves I (or_raise e o).
Proof. destruct o; intros s Hs; exact Hs. Qed.

Lemma preserves_when I b m : preserves I m -> preserves I (when b m).
Proof. intros Hm. destruct b; [exact Hm | apply preserves_ret]. Qed.

Lemma preserves_for_each {A} I (f : A -> Script unit) l :
  (∀ x, preserves I (f x)) -> preserves I (for_each f l).
Proof.
  intros Hf. induction l as [|x l IH]; simpl.
  - apply preserves_ret.
  - apply preserves_bind; [apply Hf | intros _; exact IH].
Qed.

#[local] Opaque QUESTION_POOL MONSTER_SHOP.

Lemma badge_names_distinct :
  BADGE_5050_USER ≠ BADGE_APPRENTICE ∧ BADGE_5050_USER ≠ BADGE_PRO
  ∧ BADGE_5050_USER ≠ BADGE_STREAK_MASTER ∧ BADGE_5050_USER ≠ BADGE_NO_HINT_HERO
  ∧ BADGE_5050_USER ≠ BADGE_MONSTER_COLLECTOR.
Proof. repeat split; discriminate. Qed.

Lemma start_new_game_inv rnd : preserves session_inv (start_new_game rnd).
Proof.
  intros s _. unfold start_new_game, session_inv. run_script. simpl.
  destruct (random_sample _ _ _); simpl; split_and!; done || set_solver.
Qed.

Lemma inv_bind_at {A B} I (m : Script A) (f : A -> Script B) s :
  I (m s).2 -> (∀ a, preserves I (f a)) -> I ((m ≫= f) s).2.
Proof.
  intros Hm Hf. unfold mbind, Script_bind.
  destruct (m s) as [[a| |e] s']; simpl in *; auto. by apply Hf.
Qed.

Lemma quiz_settings_inv inp : preserves session_inv (quiz_settings inp).
Proof.
  unfold quiz_settings. apply preserves_get_bind. intros s Hs.
  refine (preserves_bind _ _ _ _ _ s Hs).
  { unfold st_slider. cbv zeta. destruct (_ && _); [apply preserves_ret | apply preserves_raise]. }
  intros v. apply preserves_bind.
  { apply preserves_modify. intros s1 Hs1; exact Hs1. }
  intros _. apply preserves_when. apply preserves_bind; [apply start_new_game_inv|].
  intros _. apply preserves_stop.
Qed.

Lemma powerup_shop_inv inp : preserves session_inv (powerup_shop inp).
Proof.
  unfold powerup_shop.
  apply preserves_get_bind. intros s Hs.
  apply inv_bind_at.
  { unfold st_button, when. destruct (bool_decide _); simpl; [|exact Hs].
    destruct (coins s <? HINT_COST) eqn:Hc; simpl; [exact Hs|].
    destruct (started s); simpl; [|exact Hs].
    destruct (answered s); simpl; [exact Hs|].
    apply Z.ltb_ge in Hc. destruct Hs as (?&?&?&?).
    unfold session_inv; simpl. repeat split; (lia || done). }
  clear s Hs. intros _. apply preserves_get_bind. intros s Hs.
  apply inv_bind_at.
  { unfold st_button, when. destruct (bool_decide _); simpl; [|exact Hs].
    destruct (coins s <? SKIP_COST) eqn:Hc; simpl; [exact Hs|].
    destruct (started s); simpl; [|exact Hs].
    destruct (answered s); simpl; [exact Hs|].
    apply Z.ltb_ge in Hc. destruct Hs as (?&?&?&?).
    unfold session_inv; simpl. repeat split; (lia || done). }
  clear s Hs. intros _. apply preserves_get_bind. intros s Hs.
  unfold st_button, when. destruct (bool_decide _); simpl; [|exact Hs].
  destruct (coins s <? FIFTY_FIFTY_COST) eqn:Hc; simpl; [exact Hs|].
  destruct (started s); simpl; [|exact Hs].
  destruct (answered s); simpl; [exact Hs|].
  destruct (used_5050 s) eqn:Hu; simpl; [exact Hs|].
  apply Z.ltb_ge in Hc. destruct Hs as (?&?&?&?).
  unfold session_inv; simpl. repeat split; (lia || done).
Qed.

Lemma advance_inv :
  preserves session_inv
    (modify (λ s, set_q_index (q_index s + 1) s) ;; reset_question_powerups ;;
     @st_rerun unit).
Proof. intros s (?&?&?&?). unfold session_inv; simpl. split_and!; done. Qed.

Lemma elem_of_add_if x c b B : x ∈ add_if c b B ↔ (c = true ∧ x = b) ∨ x ∈ B.
Proof. unfold add_if. destruct c; set_solver. Qed.

Lemma award_badges_run s :
  award_badges s = (Done tt, set_badges (awarded s) s).
Proof.
  unfold award_badges, awarded. run_script. unfold add_if.
  destruct (BADGE_SCORE_APPRENTICE <=? score s); simpl;
  destruct (BADGE_SCORE_PRO <=? score s); simpl;
  destruct (BADGE_STREAK_THRESHOLD <=? streak s); simpl;
  destruct ((hints_used s =? 0) && (q_index s =? len (question_ids s))); simpl;
  destruct (used_5050 s); simpl; try reflexivity.
  all: destruct s; reflexivity.
Qed.

Lemma results_screen_inv inp total s :
  session_inv s -> used_5050 s = false ->
  session_inv (results_screen inp total s).2.
Proof.
  intros (Hc & Hk & Hb & Hu) Hused. unfold results_screen.
  pose proof badge_names_distinct as (?&?&?&?&?).
  apply inv_bind_at.
  { rewrite award_badges_run. unfold session_inv; simpl. split_and!; try done.
    unfold awarded. rewrite Hused. unfold add_if at 1.
    rewrite !elem_of_add_if. naive_solver. }
  intros _. apply preserves_bind.
  { apply preserves_when, preserves_raise. }
  intros _. apply preserves_when, preserves_bind; [apply start_new_game_inv|].
  intros _. apply preserves_stop.
Qed.

Lemma submit_answer_inv inp question option_indices :
  preserves session_inv (submit_answer inp question option_indices).
Proof.
  intros s (Hc & Hk & Hb & Hu). unfold submit_answer, coins_for_correct. run_script.
  destruct (option_indices !! radio inp) as [chosen|]; simpl; [|done].
  unfold BASE_COIN_REWARD, MAX_STREAK_BONUS.
  destruct (bool_decide _); simpl; unfold session_inv; simpl; split_and!; done || lia.
Qed.

Lemma apply_5050_inv rnd question s :
  session_inv s -> q_index s < len (question_ids s) ->
  session_inv
    ((modify (λ s, set_shop_buys (py_remove "50/50" (shop_buys s)) s) ;;
      apply_5050 rnd question) s).2.
Proof.
  intros (Hc & Hk & Hb & Hu) Hlt. unfold apply_5050. run_script. simpl.
  destruct (random_sample _ _ _); simpl; unfold session_inv; simpl; split_and!; done.
Qed.

Lemma bind_done {A B} (m : Script A) (f : A -> Script B) s a s' :
  m s = (Done a, s') -> (m ≫= f) s = f a s'.
Proof. intros H. unfold mbind, Script_bind. by rewrite H. Qed.

Lemma bind_rerun {A B} (m : Script A) (f : A -> Script B) s s' :
  m s = (Rerun, s') -> (m ≫= f) s = (Rerun, s').
Proof. intros H. unfold mbind, Script_bind. by rewrite H. Qed.

Lemma bind_raise {A B} (m : Script A) (f : A -> Script B) s e s' :
  m s = (Raise e, s') -> (m ≫= f) s = (Raise e, s').
Proof. intros H. unfold mbind, Script_bind. by rewrite H. Qed.

Lemma question_screen_inv inp s :
  session_inv s -> q_index s < len (question_ids s) ->
  session_inv (question_screen inp (q_index s) s).2.
Proof.
  intros Hs Hlt. unfold question_screen.
  change ((get_state ≫= ?f) s) with (f s s). cbv beta.
  destruct (py_index (question_ids s) (q_index s)) as [question_id|]; [|exact Hs].
  rewrite (bind_done _ _ s question_id s) by done.
  unfold get_question_by_id.
  destruct (head (filter _ QUESTION_POOL)) as [question|]; [|exact Hs].
  rewrite (bind_done _ _ s question s) by done.
  apply inv_bind_at.
  { unfold when. destruct (_ && _); [|exact Hs]. by apply apply_5050_inv. }
  intros _. apply preserves_bind.
  { unfold get_visible_option_indices. apply preserves_get_bind. intros s1 Hs1.
    by destruct (negb _). }
  intros option_indices. apply preserves_get_bind. intros s1 Hs1.
  apply inv_bind_at.
  { unfold when. destruct (st_button _ _ _); [|exact Hs1]. by apply submit_answer_inv. }
  intros _. apply preserves_get_bind. intros s2 Hs2.
  unfold when. destruct (st_button _ _ _); [|exact Hs2]. by apply advance_inv.
Qed.

Lemma quiz_area_inv inp : preserves session_inv (quiz_area inp).
Proof.
  unfold quiz_area. apply preserves_get_bind. intros s Hs.
  destruct (negb (started s)); [exact Hs|]. cbv zeta.
  destruct (answered s && bool_decide (last_correct s = None)
            && (q_index s <? len (question_ids s))) eqn:Hadv.
  { unfold when. erewrite bind_rerun by reflexivity. by apply advance_inv. }
  unfold when. rewrite (bind_done _ _ s tt s) by done.
  destruct (Z.leb_spec (len (question_ids s)) (q_index s)) as [Hfin|Hcur].
  - apply results_screen_inv; [done|].
    destruct Hs as (_&_&_&Hu). destruct (used_5050 s); [|done]. lia.
  - by apply question_screen_inv.
Qed.

Lemma monster_card_inv inp monster : preserves session_inv (monster_card inp monster).
Proof.
  unfold monster_card. apply preserves_get_bind. intros s Hs. cbv zeta.
  destruct (bool_decide (m_id monster ∈ monsters_owned s)).
  - destruct (bool_decide _); [exact Hs|].
    unfold when. destruct (st_button _ _ _); [|exact Hs].
    destruct Hs as (?&?&?&?). unfold session_inv; simpl. split_and!; done.
  - unfold when, st_button. destruct (bool_decide _); simpl; [|exact Hs].
    destruct (Z.ltb_spec (coins s) (m_price monster)); simpl; [exact Hs|].
    destruct Hs as (?&?&?&?). pose proof badge_names_distinct as (?&?&?&?&?).
    unfold session_inv; simpl. split_and!; try done; try lia. set_solver.
Qed.

Lemma main_inv inp : preserves session_inv (main inp).
Proof.
  unfold main, monster_shop.
  apply preserves_bind; [apply quiz_settings_inv|]. intros _.
  apply preserves_bind; [apply powerup_shop_inv|]. intros _.
  apply preserves_bind; [apply quiz_area_inv|]. intros _.
  apply preserves_for_each. apply monster_card_inv.
Qed.

Lemma reachable_inv s : reachable s -> session_inv s.
Proof.
  induction 1 as [|inp s _ IH].
  - unfold session_inv; simpl. split_and!; done.
  - by apply main_inv.
Qed.

(** ** Starting a game, 50/50 and the reward function *)

Lemma start_new_game_run rnd s :
  0 <= num_questions s ->
  start_new_game rnd s = (Done tt, fresh_game rnd s).
Proof.
  intros Hn. unfold start_new_game, fresh_game. run_script. simpl.
  rewrite random_sample_Some; [done|].
  unfold len. rewrite length_fmap. lia.
Qed.

Lemma question_ids_NoDup : NoDup (q_id <$> QUESTION_POOL).
Proof. compute_done. Qed.

Lemma fresh_game_question_ids rnd s :
  len (question_ids (fresh_game rnd s))
  = Z.of_nat (Z.to_nat (Z.min (num_questions s) (len QUESTION_POOL)))
  ∧ NoDup (question_ids (fresh_game rnd s))
  ∧ (∀ question_id, question_id ∈ question_ids (fresh_game rnd s) ->
       question_id ∈ q_id <$> QUESTION_POOL).
Proof.
  unfold fresh_game. simpl.
  assert (Hk : (Z.to_nat (Z.min (num_questions s) (len QUESTION_POOL))
                ≤ length (q_id <$> QUESTION_POOL))%nat).
  { rewrite length_fmap. unfold len. generalize (length QUESTION_POOL). lia. }
  split_and!.
  - unfold len at 1. by rewrite sample_pool_length.
  - apply sample_pool_NoDup; [done | apply question_ids_NoDup].
  - intros question_id. by apply sample_pool_elem.
Qed.

(** C1 (as amended).  [start_new_game] sets the coin balance to 0, whatever
    it was, and leaves the owned monsters and the selected monster as they
    were. *)
Theorem start_new_game_resets_coins_keeps_monsters rnd s :
  let s' := (start_new_game rnd s).2 in
  coins s' = 0
  ∧ monsters_owned s' = monsters_owned s
  ∧ selected_monster s' = selected_monster s.
Proof.
  unfold start_new_game. run_script. simpl.
  destruct (random_sample _ _ _); done.
Qed.

Lemma range_NoDup n : NoDup (range n).
Proof. unfold range. apply NoDup_fmap_2; [apply _ | apply NoDup_seq]. Qed.

Lemma elem_of_range n i : i ∈ range n ↔ 0 <= i < Z.of_nat n.
Proof.
  unfold range. rewrite list_elem_of_fmap. split.
  - intros (k & -> & Hk). apply elem_of_seq in Hk. lia.
  - intros Hi. exists (Z.to_nat i). split; [lia|]. apply elem_of_seq. lia.
Qed.

Lemma wrong_indices_NoDup question : NoDup (wrong_indices question).
Proof. unfold wrong_indices. apply NoDup_filter, range_NoDup. Qed.

Lemma elem_of_wrong_indices question i :
  i ∈ wrong_indices question
  ↔ i ≠ q_answer_idx question ∧ 0 <= i < len (q_options question).
Proof. unfold wrong_indices. rewrite list_elem_of_filter, elem_of_range. done. Qed.

Lemma apply_5050_run rnd question s :
  apply_5050 rnd question s =
    (Done tt,
     set_used_5050 true
       (set_eliminated_options
          (list_to_set
             (sample_pool rnd 0 (wrong_indices question)
                (Z.to_nat (Z.min 2 (len (wrong_indices question))))))
          s)).
Proof.
  unfold apply_5050. run_script.
  rewrite random_sample_Some; [done|]. unfold len. lia.
Qed.

Lemma filter_all {A} (P : A -> Prop) `{∀ x, Decision (P x)} (l : list A) :
  (∀ x, x ∈ l -> P x) -> filter P l = l.
Proof.
  induction l as [|x l IH]; intros Hl; [done|].
  rewrite filter_cons, decide_True by (apply Hl; by left).
  f_equal. apply IH. intros y Hy. apply Hl. by right.
Qed.

Lemma length_filter_ne (l : list Z) a :
  NoDup l -> a ∈ l -> length (filter (λ x, x ≠ a) l) = pred (length l).
Proof.
  induction l as [|x l IH]; intros Hnd Hin; [by apply elem_of_nil in Hin|].
  apply NoDup_cons in Hnd as [Hx Hnd]. rewrite filter_cons.
  destruct (decide (x ≠ a)) as [Hne|Heq].
  - apply elem_of_cons in Hin as [->|Hin]; [done|].
    simpl. rewrite IH by done. destruct l; [by apply elem_of_nil in Hin|done].
  - assert (x = a) as -> by (destruct (decide (x = a)); done).
    simpl. f_equal. apply filter_all. intros y Hy ->. done.
Qed.

Lemma length_range n : length (range n) = n.
Proof. unfold range. by rewrite length_fmap, length_seq. Qed.

(** A question whose answer index points into its options has one wrong
    option less than it has options. *)
Lemma wrong_indices_length question :
  0 <= q_answer_idx question < len (q_options question) ->
  len (wrong_indices question) = len (q_options question) - 1.
Proof.
  intros Hwf. unfold wrong_indices, len in *.
  rewrite length_filter_ne, length_range; [lia|apply range_NoDup|].
  apply elem_of_range. lia.
Qed.

Lemma wrong_indices_count question :
  len (wrong_indices question) = wrong_option_count question.
Proof.
  unfold wrong_option_count. case_bool_decide as Hwf.
  - by apply wrong_indices_length.
  - unfold wrong_indices, len in *. rewrite filter_all, length_range; [done|].
    intros index Hin ->. apply elem_of_range in Hin. lia.
Qed.

(** C5.  For every question, with however few options, [apply_5050] returns
    normally and marks the question as reduced; it eliminates exactly
    [min 2 wrongOptionCount] option indices, where [wrongOptionCount] counts
    the options other than the right answer; every eliminated index is the
    index of an option of the question and differs from the answer index,
    so the right answer is never eliminated. *)
Theorem apply_5050_eliminates_wrong_options rnd question s :
  let r := apply_5050 rnd question s in
  r.1 = Done tt
  ∧ used_5050 r.2 = true
  ∧ Z.of_nat (size (eliminated_options r.2))
    = Z.min 2 (wrong_option_count question)
  ∧ (q_answer_idx question ∉ eliminated_options r.2)
  ∧ (∀ index, index ∈ eliminated_options r.2 ->
       0 <= index < len (q_options question)
       ∧ index ≠ q_answer_idx question).
Proof.
  intros r. subst r. rewrite apply_5050_run. simpl.
  assert (Hk : (Z.to_nat (Z.min 2 (len (wrong_indices question)))
                ≤ length (wrong_indices question))%nat) by (unfold len; lia).
  split_and!.
  - done.
  - done.
  - rewrite size_list_to_set
      by (apply sample_pool_NoDup; [done | apply wrong_indices_NoDup]).
    rewrite sample_pool_length by done.
    rewrite <- wrong_indices_count. unfold len. lia.
  - rewrite elem_of_list_to_set. intros Hin.
    apply sample_pool_elem in Hin; [|done].
    apply elem_of_wrong_indices in Hin as [Hne _]. done.
  - intros index. rewrite elem_of_list_to_set. intros Hin.
    apply sample_pool_elem in Hin; [|done].
    apply elem_of_wrong_indices in Hin as [Hne Hrange]. done.
Qed.

(** C7.  [coins_for_correct] returns [BASE_COIN_REWARD + min streak
    MAX_STREAK_BONUS]; for streaks [0 <= streak1 <= streak2] the reward does
    not decrease, and it never exceeds [BASE_COIN_REWARD + MAX_STREAK_BONUS]. *)
Theorem coins_for_correct_monotone_capped (s1 s2 : SessionState) :
  0 <= streak s1 -> streak s1 <= streak s2 ->
  ∃ r1 r2,
    coins_for_correct s1 = (Done r1, s1)
    ∧ coins_for_correct s2 = (Done r2, s2)
    ∧ r1 = BASE_COIN_REWARD + Z.min (streak s1) MAX_STREAK_BONUS
    ∧ r2 = BASE_COIN_REWARD + Z.min (streak s2) MAX_STREAK_BONUS
    ∧ r1 <= r2
    ∧ r2 <= BASE_COIN_REWARD + MAX_STREAK_BONUS.
Proof.
  intros H1 H2. eexists _, _. split_and!; try reflexivity; lia.
Qed.

Lemma coins_for_correct_monotone_capped_witness :
  0 <= streak init_state
  ∧ streak init_state <= streak (set_streak 4 init_state)
  ∧ ∃ r1 r2,
      coins_for_correct init_state = (Done r1, init_state)
      ∧ coins_for_correct (set_streak 4 init_state)
        = (Done r2, set_streak 4 init_state)
      ∧ r1 = BASE_COIN_REWARD + Z.min (streak init_state) MAX_STREAK_BONUS
      ∧ r2 = BASE_COIN_REWARD
             + Z.min (streak (set_streak 4 init_state)) MAX_STREAK_BONUS
      ∧ r1 <= r2
      ∧ r2 <= BASE_COIN_REWARD + MAX_STREAK_BONUS.
Proof.
  assert (H1 : 0 <= streak init_state) by (simpl; lia).
  assert (H2 : streak init_state <= streak (set_streak 4 init_state))
    by (simpl; lia).
  split; [exact H1|]. split; [exact H2|].
  exact (coins_for_correct_monotone_capped init_state (set_streak 4 init_state) H1 H2).
Defined.

(** ** Running the page on one button press *)

Lemma set_num_questions_same s : set_num_questions (num_questions s) s = s.
Proof. by destruct s. Qed.

Lemma quiz_settings_idle inp s :
  slider inp = None -> click inp ≠ ClickNewGame -> valid_setting s ->
  quiz_settings inp s = (Done tt, s).
Proof.
  intros Hsl Hc [Hlo Hhi]. unfold quiz_settings, st_slider, st_button. run_script.
  rewrite Hsl. simpl.
  destruct (Z.leb_spec MIN_QUESTIONS_PER_GAME (num_questions s)); [|lia].
  destruct (Z.leb_spec (num_questions s)
              (Z.min MAX_QUESTIONS_PER_GAME (len QUESTION_POOL))); [|lia].
  simpl. rewrite bool_decide_eq_false_2 by done. simpl.
  by rewrite set_num_questions_same.
Qed.

Lemma powerup_shop_idle inp s :
  purchase_cost (click inp) = None -> powerup_shop inp s = (Done tt, s).
Proof.
  intros Hc. unfold powerup_shop, st_button. run_script.
  destruct (click inp); simpl in *; try done.
Qed.

Lemma monster_card_idle inp monster s :
  (∀ monster_id, click inp ≠ ClickSelect monster_id) ->
  (∀ monster_id, click inp ≠ ClickBuy monster_id) ->
  monster_card inp monster s = (Done tt, s).
Proof.
  intros Hsel Hbuy. unfold monster_card, st_button. run_script.
  rewrite (bool_decide_eq_false_2 (click inp = ClickSelect _)) by done.
  rewrite (bool_decide_eq_false_2 (click inp = ClickBuy _)) by done.
  simpl. by repeat case_match.
Qed.

Lemma monster_shop_idle inp s :
  (∀ monster_id, click inp ≠ ClickSelect monster_id) ->
  (∀ monster_id, click inp ≠ ClickBuy monster_id) ->
  monster_shop inp s = (Done tt, s).
Proof.
  intros Hsel Hbuy. unfold monster_shop.
  induction MONSTER_SHOP as [|monster l IH]; simpl; [done|].
  rewrite (bind_done _ _ s tt s) by by apply monster_card_idle. done.
Qed.

Lemma main_quiz_click inp s :
  slider inp = None -> quiz_click (click inp) -> valid_setting s ->
  main inp s = quiz_area inp s.
Proof.
  intros Hsl Hc Hv. unfold main.
  rewrite (bind_done _ _ s tt s)
    by (apply quiz_settings_idle; [done| |done]; destruct Hc as [->|[->|[->| ->]]]; done).
  rewrite (bind_done _ _ s tt s)
    by (apply powerup_shop_idle; destruct Hc as [->|[->|[->| ->]]]; done).
  unfold mbind, Script_bind.
  destruct (quiz_area inp s) as [[[]| |e] s'] eqn:Hq; try done.
  apply monster_shop_idle; intros monster_id; destruct Hc as [->|[->|[->| ->]]]; done.
Qed.

Lemma get_visible_option_indices_run question s :
  get_visible_option_indices question s = (Done (visible_rows s question), s).
Proof.
  unfold get_visible_option_indices, visible_rows. run_script.
  by destruct (negb (used_5050 s)).
Qed.

Lemma quiz_area_question inp s :
  started s = true -> skip_pending s = false ->
  q_index s < len (question_ids s) ->
  quiz_area inp s = question_screen inp (q_index s) s.
Proof.
  intros Hst Hskip Hlt. unfold quiz_area. run_script. rewrite Hst. simpl.
  unfold skip_pending in Hskip. rewrite Hskip.
  destruct (Z.leb_spec (len (question_ids s)) (q_index s)); [lia|done].
Qed.

Lemma quiz_area_results inp s :
  started s = true -> len (question_ids s) <= q_index s ->
  quiz_area inp s = results_screen inp (len (question_ids s)) s.
Proof.
  intros Hst Hge. unfold quiz_area. run_script. rewrite Hst. simpl.
  destruct (Z.ltb_spec (q_index s) (len (question_ids s))); [lia|].
  rewrite andb_false_r.
  destruct (Z.leb_spec (len (question_ids s)) (q_index s)); [done|lia].
Qed.

Lemma quiz_area_skip inp s :
  started s = true -> skip_pending s = true ->
  quiz_area inp s = (Rerun, advanced s).
Proof.
  intros Hst Hskip. unfold quiz_area. run_script. rewrite Hst. simpl.
  unfold skip_pending in Hskip. rewrite Hskip. done.
Qed.

Lemma current_question_Some s question :
  current_question s = Some question ->
  ∃ question_id,
    py_index (question_ids s) (q_index s) = Some question_id
    ∧ head (filter (λ q, q_id q = question_id) QUESTION_POOL) = Some question.
Proof.
  unfold current_question. destruct (py_index _ _) as [question_id|]; simpl; [|done].
  intros H. by exists question_id.
Qed.

(** The question screen up to the buttons. *)
Lemma question_screen_shown inp s question :
  current_question s = Some question -> no_pending_5050 s ->
  question_screen inp (q_index s) s =
    ((when (st_button inp ClickSubmit (answered s))
        (submit_answer inp question (visible_rows s question)) ;;
      s' ← get_state;
      when (st_button inp ClickNext (negb (answered s')))
        (modify (λ s, set_q_index (q_index s + 1) s) ;;
         reset_question_powerups ;; st_rerun)) s).
Proof.
  intros (question_id & Hid & Hq)%current_question_Some Hpend.
  unfold question_screen, get_question_by_id.
  change ((get_state ≫= ?f) s) with (f s s). cbv beta.
  rewrite Hid.
  rewrite (bind_done _ _ s question_id s) by done.
  rewrite Hq.
  rewrite (bind_done _ _ s question s) by done.
  unfold no_pending_5050 in Hpend. rewrite Hpend.
  rewrite (bind_done _ _ s tt s) by done.
  rewrite (bind_done _ _ s _ s) by apply get_visible_option_indices_run.
  done.
Qed.

Lemma question_screen_submit inp s question :
  current_question s = Some question -> no_pending_5050 s ->
  answered s = false -> click inp = ClickSubmit ->
  question_screen inp (q_index s) s
  = submit_answer inp question (visible_rows s question) s.
Proof.
  intros Hq Hpend Hans Hc. rewrite (question_screen_shown _ _ question) by done.
  unfold st_button. rewrite Hc, Hans. simpl.
  unfold mbind, Script_bind.
  destruct (submit_answer _ _ _ s) as [[[]| |e] s'] eqn:Hsub; done.
Qed.

Lemma question_screen_next inp s question :
  current_question s = Some question -> no_pending_5050 s ->
  answered s = true -> click inp = ClickNext ->
  question_screen inp (q_index s) s = (Rerun, advanced s).
Proof.
  intros Hq Hpend Hans Hc. rewrite (question_screen_shown _ _ question) by done.
  unfold st_button. rewrite Hc, Hans. simpl. run_script. simpl.
  by rewrite Hans.
Qed.

Lemma question_screen_idle inp s question :
  current_question s = Some question -> no_pending_5050 s ->
  click inp = NoClick ->
  question_screen inp (q_index s) s = (Done tt, s).
Proof.
  intros Hq Hpend Hc. rewrite (question_screen_shown _ _ question) by done.
  unfold st_button. rewrite Hc. done.
Qed.

Lemma results_screen_idle inp total s :
  click inp = NoClick -> total ≠ 0 ->
  results_screen inp total s = (Done tt, set_badges (awarded s) s).
Proof.
  intros Hc Ht. unfold results_screen.
  rewrite (bind_done _ _ s tt _) by apply award_badges_run.
  unfold st_button. rewrite Hc. run_script.
  destruct (Z.eqb_spec total 0); done.
Qed.

Lemma submit_answer_correct inp question option_indices s :
  option_indices !! radio inp = Some (q_answer_idx question) ->
  submit_answer inp question option_indices s =
    (Done tt,
     set_coins (coins s + (BASE_COIN_REWARD
                           + Z.min (streak s + 1) MAX_STREAK_BONUS))
       (set_streak (streak s + 1)
          (set_score (score s + 1)
             (set_last_correct (Some true) (set_answered true s))))).
Proof.
  intros Hrow. unfold submit_answer, coins_for_correct. rewrite Hrow.
  rewrite (bind_done _ _ s (q_answer_idx question) s) by done.
  cbv zeta. rewrite bool_decide_eq_true_2 by done. done.
Qed.

Lemma interact_run inp s :
  interact inp s =
    match main inp s with
    | (Rerun, s') => main (rerun_input inp) s'
    | r => r
    end.
Proof.
  unfold interact. simpl. destruct (main inp s) as [[[]| |e] s']; try done.
  by destruct (main (rerun_input inp) s') as [[[]| |e] s''].
Qed.

(** ** The question bank *)

Lemma question_pool_size : len QUESTION_POOL = 20.
Proof. reflexivity. Qed.

Lemma question_pool_well_formed :
  Forall (λ question,
            0 <= q_answer_idx question < len (q_options question))
         QUESTION_POOL.
Proof. compute_done. Qed.

Lemma lookup_question (pool : list Question) question_id :
  question_id ∈ q_id <$> pool ->
  ∃ question,
    head (filter (λ q, q_id q = question_id) pool) = Some question
    ∧ question ∈ pool ∧ q_id question = question_id.
Proof.
  induction pool as [|q pool IH]; simpl.
  - by intros ?%elem_of_nil.
  - intros Hin. rewrite filter_cons. destruct (decide (q_id q = question_id)) as [Heq|Hne].
    + exists q. split_and!; [done | by left | done].
    + apply elem_of_cons in Hin as [->|Hin]; [done|].
      destruct (IH Hin) as (question & ? & ? & ?).
      exists question. split_and!; [done | by right | done].
Qed.

Lemma range_lookup n i : 0 <= i < Z.of_nat n -> range n !! Z.to_nat i = Some i.
Proof.
  intros Hi. unfold range. rewrite list_lookup_fmap, lookup_seq_lt by lia.
  simpl. f_equal. lia.
Qed.

Lemma range_find n i :
  0 <= i < Z.of_nat n ->
  list_find (λ index, index = i) (range n) = Some (Z.to_nat i, i).
Proof.
  intros Hi. apply list_find_Some. split_and!.
  - by apply range_lookup.
  - done.
  - intros j y Hj Hlt ->. unfold range in Hj.
    rewrite list_lookup_fmap in Hj.
    destruct (seq 0 n !! j) as [k|] eqn:Hk; simpl in Hj; [|done].
    apply lookup_seq in Hk as [-> _]. simplify_eq. lia.
Qed.

(** ** A round of play *)

Lemma py_index_nonneg {A} (l : list A) i :
  0 <= i < len l -> ∃ x, py_index l i = Some x ∧ x ∈ l.
Proof.
  intros Hi. unfold py_index. destruct (Z.leb_spec 0 i); [|lia].
  destruct (lookup_lt_is_Some_2 l (Z.to_nat i)) as [x Hx]; [unfold len in Hi; lia|].
  exists x. split; [done|]. by eapply list_elem_of_lookup_2.
Qed.

Lemma in_game_question s :
  in_game s ->
  ∃ question,
    current_question s = Some question
    ∧ 0 <= q_answer_idx question < len (q_options question).
Proof.
  intros (_ & _ & _ & _ & Hidx & Hids & _).
  destruct (py_index_nonneg (question_ids s) (q_index s) Hidx) as (question_id & Hid & Hin).
  destruct (lookup_question QUESTION_POOL question_id (Hids _ Hin))
    as (question & Hq & Hpool & _).
  exists question. split.
  - unfold current_question. rewrite Hid. done.
  - pose proof question_pool_well_formed as Hwf.
    rewrite Forall_forall in Hwf. by apply Hwf.
Qed.

Lemma in_game_no_pending s : in_game s -> no_pending_5050 s.
Proof.
  intros (_ & _ & _ & Hbuys & _). unfold no_pending_5050. rewrite Hbuys.
  done.
Qed.

Lemma answer_correctly_run rnd s :
  in_game s -> answer_correctly rnd s = answered_right s.
Proof.
  intros Hg. pose proof Hg as (Hst & Hans & Hused & Hbuys & Hidx & Hids & Hv).
  destruct (in_game_question s Hg) as (question & Hq & Hwf).
  unfold answer_correctly. rewrite interact_run.
  rewrite main_quiz_click; [|done|right; by left|done].
  rewrite quiz_area_question; [|done| |lia].
  2:{ unfold skip_pending. by rewrite Hans. }
  rewrite (question_screen_submit _ _ question);
    [|done|by apply in_game_no_pending|done|done].
  rewrite submit_answer_correct; [done|].
  simpl. unfold correct_row, visible_rows. rewrite Hq, Hused. simpl.
  rewrite range_find by (unfold len in Hwf; lia). simpl.
  apply range_lookup. unfold len in Hwf; lia.
Qed.

Lemma main_idle_in_game inp s :
  slider inp = None -> click inp = NoClick ->
  in_game s -> main inp s = (Done tt, s).
Proof.
  intros Hsl Hc Hg. pose proof Hg as (Hst & Hans & Hused & Hbuys & Hidx & Hids & Hv).
  destruct (in_game_question s Hg) as (question & Hq & Hwf).
  rewrite main_quiz_click; [|done|by left|done].
  rewrite quiz_area_question; [|done| |lia].
  2:{ unfold skip_pending. by rewrite Hans. }
  by rewrite (question_screen_idle _ _ question);
    [|done|by apply in_game_no_pending|done].
Qed.

Lemma main_idle_finished inp s :
  slider inp = None -> click inp = NoClick -> valid_setting s ->
  started s = true -> 0 < len (question_ids s) <= q_index s ->
  main inp s = (Done tt, set_badges (awarded s) s).
Proof.
  intros Hsl Hc Hv Hst Hfin.
  rewrite main_quiz_click; [|done|by left|done].
  rewrite quiz_area_results; [|done|lia].
  apply results_screen_idle; [done|lia].
Qed.

Lemma next_question_run rnd s :
  in_game s ->
  next_question rnd (answered_right s) =
    let s2 := advanced (answered_right s) in
    if q_index s + 1 <? len (question_ids s) then s2
    else set_badges (awarded s2) s2.
Proof.
  intros Hg. pose proof Hg as (Hst & Hans & Hused & Hbuys & Hidx & Hids & Hv).
  destruct (in_game_question s Hg) as (question & Hq & Hwf).
  unfold next_question. rewrite interact_run.
  rewrite main_quiz_click; [|done|right; right; by left|done].
  rewrite quiz_area_question; [|done|done|simpl; lia].
  rewrite (question_screen_next _ _ question);
    [|done|by apply (in_game_no_pending s)|done|done].
  cbv zeta. destruct (Z.ltb_spec (q_index s + 1) (len (question_ids s))) as [Hlt|Hge].
  - rewrite main_idle_in_game; [done|done|done|].
    unfold in_game; simpl. split_and!; try done; lia.
  - rewrite main_idle_finished; try done. simpl. lia.
Qed.

Lemma play_round_run rnd s :
  in_game s ->
  play_round rnd s =
    let s2 := advanced (answered_right s) in
    if q_index s + 1 <? len (question_ids s) then s2
    else set_badges (awarded s2) s2.
Proof.
  intros Hg. unfold play_round. rewrite answer_correctly_run by done.
  by apply next_question_run.
Qed.

(** While questions remain, [n] right answers in a row add [n] to score
    and streak and [reward_sum] to the coins, and leave the badges alone. *)
Lemma play_rounds_in_game rnd n : ∀ s,
  in_game s -> q_index s + Z.of_nat n < len (question_ids s) ->
  let s' := play_rounds rnd n s in
  in_game s'
  ∧ q_index s' = q_index s + Z.of_nat n
  ∧ question_ids s' = question_ids s
  ∧ score s' = score s + Z.of_nat n
  ∧ streak s' = streak s + Z.of_nat n
  ∧ coins s' = coins s + reward_sum (streak s) n
  ∧ badges s' = badges s
  ∧ hints_used s' = hints_used s.
Proof.
  induction n as [|n IH]; intros s Hg Hlt; simpl.
  - split_and!; try done; lia.
  - pose proof Hg as (Hst & Hans & Hused & Hbuys & Hidx & Hids & Hv).
    rewrite play_round_run by done. cbv zeta.
    destruct (Z.ltb_spec (q_index s + 1) (len (question_ids s))) as [Hlt1|]; [|lia].
    destruct (IH (advanced (answered_right s))) as (Hg' & Hq & Hi & Hsc & Hk & Hc & Hb & Hh).
    { unfold in_game; simpl. split_and!; try done; lia. }
    { simpl. lia. }
    simpl in *. split_and!; try done; lia.
Qed.

Lemma interact_rerun inp s s' :
  main inp s = (Rerun, s') -> interact inp s = main (rerun_input inp) s'.
Proof. intros H. rewrite interact_run. by rewrite H. Qed.

Lemma main_new_game n rnd s :
  MIN_QUESTIONS_PER_GAME <= n
    <= Z.min MAX_QUESTIONS_PER_GAME (len QUESTION_POOL) ->
  main {| slider := Some n; click := ClickNewGame; radio := 0; draws := rnd |} s
  = (Rerun, fresh_game rnd (set_num_questions n s)).
Proof.
  intros Hn.
  assert (Hn0 : 0 <= num_questions (set_num_questions n s))
    by (simpl; unfold MIN_QUESTIONS_PER_GAME in Hn; lia).
  unfold main. apply bind_rerun. unfold quiz_settings, st_slider, st_button.
  change ((get_state ≫= ?f) s) with (f s s). cbv beta.
  cbn [slider click draws default from_option]. unfold id.
  destruct (Z.leb_spec MIN_QUESTIONS_PER_GAME n); [|lia].
  destruct (Z.leb_spec n (Z.min MAX_QUESTIONS_PER_GAME (len QUESTION_POOL))); [|lia].
  cbn [andb]. rewrite (bind_done _ _ s n s) by done.
  rewrite (bind_done _ _ s tt (set_num_questions n s)) by done.
  rewrite bool_decide_eq_true_2 by done. cbn [andb negb when].
  by rewrite (bind_done _ _ _ tt _ (start_new_game_run rnd _ Hn0)).
Qed.

Lemma fresh_game_in_game n rnd s :
  MIN_QUESTIONS_PER_GAME <= n
    <= Z.min MAX_QUESTIONS_PER_GAME (len QUESTION_POOL) ->
  in_game (fresh_game rnd (set_num_questions n s))
  ∧ len (question_ids (fresh_game rnd (set_num_questions n s))) = n
  ∧ NoDup (question_ids (fresh_game rnd (set_num_questions n s))).
Proof.
  intros Hn.
  assert (Hn0 : 0 <= num_questions (set_num_questions n s))
    by (simpl; unfold MIN_QUESTIONS_PER_GAME in Hn; lia).
  destruct (fresh_game_question_ids rnd (set_num_questions n s))
    as (Hlen & Hnd & Hin).
  change (num_questions (set_num_questions n s)) with n in Hlen.
  assert (0 <= len QUESTION_POOL) by (unfold len; lia).
  unfold MIN_QUESTIONS_PER_GAME in *.
  split_and!; [|lia|done].
  unfold in_game, valid_setting, MIN_QUESTIONS_PER_GAME.
  split_and!; try reflexivity; try exact Hin; try (cbn; lia).
  change (q_index (fresh_game rnd (set_num_questions n s))) with 0. lia.
Qed.

Lemma start_game_run n rnd s :
  MIN_QUESTIONS_PER_GAME <= n
    <= Z.min MAX_QUESTIONS_PER_GAME (len QUESTION_POOL) ->
  start_game n rnd s = fresh_game rnd (set_num_questions n s).
Proof.
  intros Hn. unfold start_game.
  rewrite (interact_rerun _ _ _ (main_new_game n rnd s Hn)).
  rewrite main_idle_in_game;
    [reflexivity|reflexivity|reflexivity|by apply fresh_game_in_game].
Qed.

(** C4.  For every question count [n] the slider delivers,
    [3 <= n <= min 10 bankSize], and every session state, [startGame(n)]
    (the slider at [n], "New game" pressed) ends in the state
    [start_new_game] builds from the stored count, and the question order of
    that state has exactly [clamp n 3 (min 10 bankSize)] ids, which is [n],
    all distinct and all drawn from the bank. *)
Theorem start_game_question_order n rnd s :
  MIN_QUESTIONS_PER_GAME <= n
    <= Z.min MAX_QUESTIONS_PER_GAME (len QUESTION_POOL) ->
  let s' := start_game n rnd s in
  start_new_game rnd (set_num_questions n s) = (Done tt, s')
  ∧ len (question_ids s')
    = clamp n MIN_QUESTIONS_PER_GAME
        (Z.min MAX_QUESTIONS_PER_GAME (len QUESTION_POOL))
  ∧ len (question_ids s') = n
  ∧ NoDup (question_ids s')
  ∧ (∀ question_id, question_id ∈ question_ids s' ->
       question_id ∈ q_id <$> QUESTION_POOL).
Proof.
  intros Hn s'. subst s'. rewrite (start_game_run n rnd s Hn).
  destruct (fresh_game_in_game n rnd s Hn) as (Hgame & Hlen & Hnd).
  pose proof Hgame as (_ & _ & _ & _ & _ & Hin & _).
  split_and!; try done.
  - apply start_new_game_run. simpl.
    unfold MIN_QUESTIONS_PER_GAME in Hn. lia.
  - rewrite Hlen. unfold clamp. lia.
Qed.

Lemma start_game_question_order_witness :
  MIN_QUESTIONS_PER_GAME <= 7
    <= Z.min MAX_QUESTIONS_PER_GAME (len QUESTION_POOL)
  ∧ len (question_ids (start_game 7 demo_rnd init_state)) = 7
  ∧ NoDup (question_ids (start_game 7 demo_rnd init_state)).
Proof.
  assert (Hn : MIN_QUESTIONS_PER_GAME <= 7
               <= Z.min MAX_QUESTIONS_PER_GAME (len QUESTION_POOL))
    by (vm_compute; split; discriminate).
  split; [exact Hn|].
  destruct (start_game_question_order 7 demo_rnd init_state Hn)
    as (_ & _ & Hlen & Hnd & _).
  split; [exact Hlen|exact Hnd].
Defined.


(** ** A whole game *)

Lemma play_rounds_snoc rnd n : ∀ s,
  play_rounds rnd (S n) s = play_round rnd (play_rounds rnd n s).
Proof. induction n as [|n IH]; intros s; [done|]. simpl in *. by rewrite <- IH. Qed.

Lemma fresh_game_fields rnd s :
  q_index (fresh_game rnd s) = 0 ∧ score (fresh_game rnd s) = 0
  ∧ streak (fresh_game rnd s) = 0 ∧ coins (fresh_game rnd s) = 0
  ∧ badges (fresh_game rnd s) = ∅ ∧ hints_used (fresh_game rnd s) = 0.
Proof. split_and!; reflexivity. Qed.

(** The round that answers the last question ends the game and hands out
    the badges. *)
Lemma play_round_last rnd s :
  in_game s -> q_index s + 1 = len (question_ids s) ->
  let s' := play_round rnd s in
  q_index s' = len (question_ids s')
  ∧ score s' = score s + 1
  ∧ streak s' = streak s + 1
  ∧ coins s' = coins s + (BASE_COIN_REWARD + Z.min (streak s + 1) MAX_STREAK_BONUS)
  ∧ badges s' = awarded (advanced (answered_right s)).
Proof.
  intros Hg Hlast. cbv zeta. rewrite play_round_run by done. cbv zeta.
  destruct (Z.ltb_spec (q_index s + 1) (len (question_ids s))); [lia|].
  simpl. split_and!; done || lia.
Qed.

(** C2 (as amended).  The bank has 20 questions; [startGame(7)] yields 7
    distinct question ids; seven right answers in a row, nothing spent, end
    the game with score 7, the badges Apprentice, Pro and Streak Master, and a
    coin balance equal to the sum of [5 + min i 5] over the streaks
    [i = 1..7], which is [6+7+8+9+10+10+10 = 60]. *)
Theorem full_game_seven_correct rnd s0 :
  let g0 := start_game 7 rnd s0 in
  let g7 := play_rounds rnd 7 g0 in
  len QUESTION_POOL = 20
  ∧ len (question_ids g0) = 7 ∧ NoDup (question_ids g0)
  ∧ q_index g7 = len (question_ids g7)
  ∧ score g7 = 7
  ∧ BADGE_APPRENTICE ∈ badges g7 ∧ BADGE_PRO ∈ badges g7
  ∧ BADGE_STREAK_MASTER ∈ badges g7
  ∧ coins g7 = reward_sum 0 7
  ∧ coins g7 = 60.
Proof.
  cbv zeta.
  assert (Hn : MIN_QUESTIONS_PER_GAME <= 7
               <= Z.min MAX_QUESTIONS_PER_GAME (len QUESTION_POOL)).
  { rewrite question_pool_size. unfold MIN_QUESTIONS_PER_GAME, MAX_QUESTIONS_PER_GAME. lia. }
  rewrite (start_game_run 7 rnd s0 Hn).
  destruct (fresh_game_in_game 7 rnd s0 Hn) as (Hg & Hlen & Hnd).
  destruct (fresh_game_fields rnd (set_num_questions 7 s0))
    as (Hq0 & Hsc0 & Hst0 & Hc0 & Hb0 & Hh0).
  remember (fresh_game rnd (set_num_questions 7 s0)) as g0 eqn:Hg0. clear Hg0.
  split; [apply question_pool_size|]. split; [exact Hlen|]. split; [exact Hnd|].
  change 7%nat with (S 6). rewrite play_rounds_snoc.
  destruct (play_rounds_in_game rnd 6 g0 Hg) as (Hg6 & Hq & Hids & Hsc & Hst & Hc & Hb & Hh).
  { rewrite Hq0, Hlen. lia. }
  remember (play_rounds rnd 6 g0) as g6 eqn:Heq6. clear Heq6.
  destruct (play_round_last rnd g6 Hg6) as (Hfin & Hsc7 & Hst7 & Hc7 & Hb7).
  { rewrite Hq, Hids, Hq0, Hlen. lia. }
  remember (play_round rnd g6) as g7 eqn:Heq7. clear Heq7.
  assert (Hcoins : coins g7 = 60).
  { rewrite Hc7, Hc, Hst, Hc0, Hst0. reflexivity. }
  split_and!.
  - exact Hfin.
  - lia.
  - rewrite Hb7. unfold awarded. rewrite !elem_of_add_if. simpl.
    do 4 right. left. split; [|done]. apply Z.leb_le.
    unfold BADGE_SCORE_APPRENTICE. lia.
  - rewrite Hb7. unfold awarded. rewrite !elem_of_add_if. simpl.
    do 3 right. left. split; [|done]. apply Z.leb_le.
    unfold BADGE_SCORE_PRO. lia.
  - rewrite Hb7. unfold awarded. rewrite !elem_of_add_if. simpl.
    do 2 right. left. split; [|done]. apply Z.leb_le.
    unfold BADGE_STREAK_THRESHOLD. lia.
  - rewrite Hcoins. reflexivity.
  - exact Hcoins.
Qed.

(** C2, counterexample.  A seven-question game answered right throughout
    ends with 60 coins, not 55. *)
Lemma full_game_coins_not_55 :
  let final := play_rounds demo_rnd 7 (start_game 7 demo_rnd init_state) in
  score final = 7 ∧ coins final = 60 ∧ coins final ≠ 55.
Proof. vm_compute. split_and!; done. Qed.

(** C10.  The Submit handler raises the streak before it computes the
    reward: when the answer is right and it is the [N]-th right answer in a
    row ([N >= 1], so the streak stood at [N - 1]), the streak becomes [N] and
    exactly [BASE_COIN_REWARD + min N MAX_STREAK_BONUS] coins are added; for
    [N = 1] that is 6 coins. *)
Theorem submit_correct_reward_after_increment inp question option_indices s N :
  option_indices !! radio inp = Some (q_answer_idx question) ->
  1 <= N -> streak s = N - 1 ->
  ∃ s', submit_answer inp question option_indices s = (Done tt, s')
        ∧ streak s' = N
        ∧ score s' = score s + 1
        ∧ coins s' = coins s + (BASE_COIN_REWARD + Z.min N MAX_STREAK_BONUS)
        ∧ (N = 1 -> coins s' = coins s + 6).
Proof.
  intros Hrow HN Hst. eexists. split; [by apply submit_answer_correct|].
  simpl. rewrite Hst. replace (N - 1 + 1) with N by lia.
  split_and!; try done; try lia. intros ->. reflexivity.
Qed.

Lemma submit_correct_reward_after_increment_witness :
  [0; 1; 2; 3] !! radio (press ClickSubmit 1 demo_rnd) = Some 1
  ∧ 1 <= 1
  ∧ streak init_state = 1 - 1
  ∧ ∃ s',
      submit_answer (press ClickSubmit 1 demo_rnd)
        {| q_id := "naming_functions";
           q_options := ["calculateTotal()"; "calculate_total()";
                         "CalculateTotal()"; "calculate-Total()"];
           q_answer_idx := 1; q_topic := "Naming" |}
        [0; 1; 2; 3] init_state = (Done tt, s')
      ∧ coins s' = coins init_state + 6.
Proof.
  assert (H1 : [0; 1; 2; 3] !! radio (press ClickSubmit 1 demo_rnd) = Some 1)
    by reflexivity.
  assert (H2 : 1 <= 1) by lia.
  assert (H3 : streak init_state = 1 - 1) by reflexivity.
  split; [exact H1|]. split; [exact H2|]. split; [exact H3|].
  destruct (submit_correct_reward_after_increment (press ClickSubmit 1 demo_rnd)
              {| q_id := "naming_functions";
                 q_options := ["calculateTotal()"; "calculate_total()";
                               "CalculateTotal()"; "calculate-Total()"];
                 q_answer_idx := 1; q_topic := "Naming" |}
              [0; 1; 2; 3] init_state 1 H1 H2 H3)
    as (s' & Hrun & _ & _ & _ & Hsix).
  exists s'. split; [exact Hrun|]. by apply Hsix.
Defined.

(** ** One rerun is enough *)

Lemma no_rerun_ret {A} (a : A) : no_rerun (mret a).
Proof. by intros s. Qed.

Lemma no_rerun_bind {A B} (m : Script A) (f : A -> Script B) :
  no_rerun m -> (∀ a, no_rerun (f a)) -> no_rerun (m ≫= f).
Proof.
  intros Hm Hf s. specialize (Hm s). unfold mbind, Script_bind.
  destruct (m s) as [[a| |e] s']; simpl in *; try done. apply Hf.
Qed.

Lemma no_rerun_get_bind {B} (f : SessionState -> Script B) :
  (∀ s, (f s s).1 ≠ Rerun) -> no_rerun (get_state ≫= f).
Proof. intros Hf s. apply Hf. Qed.

Lemma no_rerun_modify f : no_rerun (modify f).
Proof. by intros s. Qed.

Lemma no_rerun_or_raise {A} e (o : option A) : no_rerun (or_raise e o).
Proof. by destruct o; intros s. Qed.

Lemma no_rerun_raise {A} e : no_rerun (@py_raise A e).
Proof. by intros s. Qed.

Lemma no_rerun_when b m : no_rerun m -> no_rerun (when b m).
Proof. intros Hm. destruct b; [done|apply no_rerun_ret]. Qed.

Lemma no_rerun_submit_answer inp question option_indices :
  no_rerun (submit_answer inp question option_indices).
Proof.
  intros s. unfold submit_answer, coins_for_correct. run_script.
  destruct (option_indices !! radio inp); simpl; [|done].
  by destruct (bool_decide _).
Qed.

Lemma quiz_settings_idle_no_rerun inp :
  click inp = NoClick -> no_rerun (quiz_settings inp).
Proof.
  intros Hc. unfold quiz_settings. apply no_rerun_get_bind. intros s.
  apply no_rerun_bind.
  { unfold st_slider. cbv zeta. destruct (_ && _); [apply no_rerun_ret | apply no_rerun_raise]. }
  intros v. apply no_rerun_bind; [apply no_rerun_modify|]. intros _.
  unfold st_button. rewrite Hc. apply no_rerun_ret.
Qed.

Lemma quiz_settings_calm inp :
  click inp = NoClick -> preserves calm (quiz_settings inp).
Proof.
  intros Hc. unfold quiz_settings. apply preserves_get_bind. intros s Hs.
  refine (preserves_bind _ _ _ _ _ s Hs).
  { unfold st_slider. cbv zeta. destruct (_ && _); [apply preserves_ret | apply preserves_raise]. }
  intros v. apply preserves_bind; [by apply preserves_modify|]. intros _.
  unfold st_button. rewrite Hc. apply preserves_ret.
Qed.

Lemma question_screen_idle_no_rerun inp current_index :
  click inp = NoClick -> no_rerun (question_screen inp current_index).
Proof.
  intros Hc. unfold question_screen. apply no_rerun_get_bind. intros s1.
  apply no_rerun_bind; [apply no_rerun_or_raise|]. intros question_id.
  apply no_rerun_bind; [apply no_rerun_or_raise|]. intros question.
  apply no_rerun_bind.
  { apply no_rerun_when, no_rerun_bind; [apply no_rerun_modify|].
    intros _ s2. by rewrite apply_5050_run. }
  intros _. apply no_rerun_bind.
  { intros s2. by rewrite get_visible_option_indices_run. }
  intros option_indices. apply no_rerun_get_bind. intros s2.
  apply no_rerun_bind.
  { apply no_rerun_when, no_rerun_submit_answer. }
  intros _. apply no_rerun_get_bind. intros s3.
  unfold st_button. by rewrite Hc.
Qed.

Lemma results_screen_idle_no_rerun inp total :
  click inp = NoClick -> no_rerun (results_screen inp total).
Proof.
  intros Hc. unfold results_screen.
  apply no_rerun_bind; [intros s; by rewrite award_badges_run|]. intros _.
  apply no_rerun_bind; [apply no_rerun_when, no_rerun_raise|]. intros _.
  unfold st_button. rewrite Hc. apply no_rerun_ret.
Qed.

Lemma quiz_area_idle_no_rerun inp s :
  click inp = NoClick -> calm s -> (quiz_area inp s).1 ≠ Rerun.
Proof.
  intros Hc Hs. destruct (started s) eqn:Hst.
  - specialize (Hs Hst).
    destruct (Z.lt_ge_cases (q_index s) (len (question_ids s))).
    + rewrite quiz_area_question by done.
      by apply question_screen_idle_no_rerun.
    + rewrite quiz_area_results by done.
      by apply results_screen_idle_no_rerun.
  - unfold quiz_area. run_script. by rewrite Hst.
Qed.

(** A run with no button pressed, from a state in which no skip is waiting,
    does not ask for a rerun. *)
Lemma main_idle_no_rerun inp s :
  click inp = NoClick -> calm s ->
  (main inp s).1 ≠ Rerun.
Proof.
  intros Hc Hs. unfold main, mbind, Script_bind.
  pose proof (quiz_settings_idle_no_rerun inp Hc s) as Hqs.
  pose proof (quiz_settings_calm inp Hc s Hs) as Hs1.
  destruct (quiz_settings inp s) as [[[]| |e] s1]; simpl in *; try done.
  rewrite powerup_shop_idle by by rewrite Hc.
  pose proof (quiz_area_idle_no_rerun inp s1 Hc Hs1) as Hqa.
  destruct (quiz_area inp s1) as [[[]| |e] s2]; simpl in *; try done.
  rewrite monster_shop_idle by (intros ?; by rewrite Hc). done.
Qed.

Lemma start_new_game_settled rnd s : settled (start_new_game rnd s).2.
Proof.
  unfold start_new_game. run_script. simpl.
  by destruct (random_sample _ _ _).
Qed.

Lemma advance_settled s :
  settled
    ((modify (λ s, set_q_index (q_index s + 1) s) ;; reset_question_powerups ;;
      @st_rerun unit) s).2.
Proof. done. Qed.

Lemma submit_answer_settled inp question option_indices :
  preserves settled (submit_answer inp question option_indices).
Proof.
  intros s Hs. unfold submit_answer, coins_for_correct. run_script.
  destruct (option_indices !! radio inp); simpl; [|done].
  by destruct (bool_decide _).
Qed.

Lemma results_screen_settled inp total :
  preserves settled (results_screen inp total).
Proof.
  unfold results_screen. apply preserves_bind.
  { intros s Hs. by rewrite award_badges_run. }
  intros _. apply preserves_bind; [apply preserves_when, preserves_raise|].
  intros _. apply preserves_when, preserves_bind.
  { intros s _. apply start_new_game_settled. }
  intros _. apply preserves_stop.
Qed.

Lemma question_screen_settled inp current_index :
  preserves settled (question_screen inp current_index).
Proof.
  unfold question_screen. apply preserves_get_bind. intros s Hs.
  refine (preserves_bind _ _ _ _ _ s Hs); [apply preserves_or_raise|].
  intros question_id. apply preserves_bind; [apply preserves_or_raise|].
  intros question. apply preserves_bind.
  { apply preserves_when, preserves_bind; [by apply preserves_modify|].
    intros _ s1 Hs1. by rewrite apply_5050_run. }
  intros _. apply preserves_bind.
  { intros s1 Hs1. by rewrite get_visible_option_indices_run. }
  intros option_indices. apply preserves_get_bind. intros s1 Hs1.
  refine (preserves_bind _ _ _ _ _ s1 Hs1).
  { apply preserves_when, submit_answer_settled. }
  intros _. apply preserves_get_bind. intros s2 Hs2.
  unfold when. destruct (st_button _ _ _); [|exact Hs2]. apply advance_settled.
Qed.

(** However the quiz area ends, it leaves no skip waiting. *)
Lemma quiz_area_calm inp s : calm (quiz_area inp s).2.
Proof.
  destruct (started s) eqn:Hst.
  - intros _. destruct (skip_pending s) eqn:Hskip.
    + by rewrite quiz_area_skip.
    + destruct (Z.lt_ge_cases (q_index s) (len (question_ids s))).
      * rewrite quiz_area_question by done. by apply question_screen_settled.
      * rewrite quiz_area_results by done. by apply results_screen_settled.
  - unfold quiz_area. run_script. rewrite Hst. simpl. intros Hst'. congruence.
Qed.

Lemma monster_shop_calm inp : preserves calm (monster_shop inp).
Proof.
  unfold monster_shop. apply preserves_for_each. intros monster.
  unfold monster_card. apply preserves_get_bind. intros s Hs.
  destruct (bool_decide (m_id monster ∈ monsters_owned s)).
  - destruct (bool_decide _); [exact Hs|].
    unfold when. by destruct (st_button _ _ _).
  - unfold when. by destruct (st_button _ _ _).
Qed.

Lemma quiz_settings_rerun_calm inp s s' :
  quiz_settings inp s = (Rerun, s') -> calm s'.
Proof.
  unfold quiz_settings, st_slider. run_script. cbv zeta.
  destruct (_ && _); simpl; [|done].
  destruct (st_button _ _ _); simpl; [|done].
  intros H _.
  pose proof (start_new_game_settled (draws inp)
                (set_num_questions (default (num_questions s) (slider inp)) s)) as Hset.
  destruct (start_new_game _ _) as [[[]| |e] s1]; simpl in *; by simplify_eq.
Qed.

Lemma powerup_shop_no_rerun inp : no_rerun (powerup_shop inp).
Proof.
  intros s. unfold powerup_shop. run_script.
  by repeat (destruct (st_button _ _ _); simpl).
Qed.

(** Whenever a run asks for a rerun, it leaves no skip waiting. *)
Lemma main_rerun_calm inp s s' : main inp s = (Rerun, s') -> calm s'.
Proof.
  unfold main, mbind, Script_bind.
  destruct (quiz_settings inp s) as [[[]| |e] s1] eqn:Hqs; [| |done].
  2:{ intros [= <-]. by eapply quiz_settings_rerun_calm. }
  pose proof (powerup_shop_no_rerun inp s1) as Hps.
  destruct (powerup_shop inp s1) as [[[]| |e] s2]; simpl in Hps; [|done|done].
  pose proof (quiz_area_calm inp s2) as Hqa.
  destruct (quiz_area inp s2) as [[[]| |e] s3]; simpl in Hqa; [| |done].
  2:{ by intros [= <-]. }
  pose proof (monster_shop_calm inp s3 Hqa) as Hms.
  destruct (monster_shop inp s3) as [[[]| |e] s4]; simpl in Hms; try done.
  by intros [= <-].
Qed.

(** X1.  An interaction settles, in any state and for any input: the run it
    triggers either ends without asking for a rerun, or asks for one, and
    that one rerun never asks for another.  [st.rerun()] cannot loop. *)
Lemma interact_settles inp s : (interact inp s).1 ≠ Rerun.
Proof.
  rewrite interact_run.
  destruct (main inp s) as [[[]| |e] s'] eqn:Hmain; try done.
  apply main_idle_no_rerun; [done|]. by eapply main_rerun_calm.
Qed.

(** ** Purchases *)

Lemma hoare_bind {A B} P R Q (m : Script A) (f : A -> Script B) :
  hoare P m R -> (∀ s, R s -> Q s) -> (∀ a, hoare R (f a) Q) ->
  hoare P (m ≫= f) Q.
Proof.
  intros Hm HRQ Hf s Hs. specialize (Hm s Hs).
  unfold mbind, Script_bind. destruct (m s) as [[a| |e] s']; simpl in *; auto.
  by apply Hf.
Qed.

Lemma preserves_hoare {A} I (m : Script A) : preserves I m -> hoare I m I.
Proof. done. Qed.






Lemma powerup_shop_idle_buy inp s :
  click inp ≠ ClickHint -> click inp ≠ ClickSkip -> click inp ≠ ClickFiftyFifty ->
  powerup_shop inp s = (Done tt, s).
Proof.
  intros H1 H2 H3. unfold powerup_shop, st_button. run_script.
  by rewrite !bool_decide_eq_false_2 by done.
Qed.


(** ** Reachable states, purchases and badges *)


Lemma reachable_interact inp s : reachable s -> reachable (interact inp s).2.
Proof.
  intros Hs. rewrite interact_run.
  pose proof (reachable_run inp s Hs) as H1.
  destruct (main inp s) as [[[]| |e] s']; simpl in *; try done.
  by apply reachable_run.
Qed.

(** In no state the page can reach is the 50/50 badge in the badge set. *)
Lemma fifty_fifty_badge_unreachable s :
  reachable s -> BADGE_5050_USER ∉ badges s.
Proof. intros Hs. by apply reachable_inv in Hs as (_ & _ & Hb & _). Qed.

(** C8 (as amended).  When the results screen is drawn for a finished game
    whose badge set does not hold Streak Master yet, the badge is in the set
    afterwards if and only if the streak at that moment, the run of right
    answers the game ended on, is at least 3. *)
Theorem streak_master_needs_final_streak inp s :
  slider inp = None -> click inp = NoClick -> valid_setting s ->
  started s = true -> 0 < len (question_ids s) <= q_index s ->
  BADGE_STREAK_MASTER ∉ badges s ->
  (main inp s).1 = Done tt
  ∧ (BADGE_STREAK_MASTER ∈ badges (main inp s).2
     ↔ BADGE_STREAK_THRESHOLD <= streak s).
Proof.
  intros Hsl Hc Hv Hst Hfin Hnot.
  rewrite main_idle_finished by done. split; [done|]. simpl.
  unfold awarded. rewrite !elem_of_add_if, Z.leb_le.
  split.
  - intros [[_ ?]|[[_ ?]|[[? _]|[[_ ?]|[[_ ?]|?]]]]]; done.
  - intros H. do 2 right. left. done.
Qed.

Lemma reachable_start_game n rnd s : reachable s -> reachable (start_game n rnd s).
Proof. apply reachable_interact. Qed.

Lemma reachable_play_round rnd s : reachable s -> reachable (play_round rnd s).
Proof. intros Hs. by do 2 apply reachable_interact. Qed.

Lemma reachable_play_rounds rnd n : ∀ s,
  reachable s -> reachable (play_rounds rnd n s).
Proof.
  induction n as [|n IH]; intros s Hs; simpl; [done|].
  by apply IH, reachable_play_round.
Qed.

(** C1, counterexample.  One right answer into a game the balance is 6;
    [start_new_game] on that state leaves 0. *)
Lemma new_game_forgets_earned_coins :
  reachable demo_one_right
  ∧ coins demo_one_right = 6
  ∧ coins (start_new_game demo_rnd demo_one_right).2 = 0
  ∧ coins (start_new_game demo_rnd demo_one_right).2 ≠ coins demo_one_right.
Proof.
  split; [apply reachable_interact, reachable_start_game, reachable_init|].
  vm_compute. split_and!; done.
Qed.

(** C3, the failing game.  50/50 is bought on the second of seven questions
    (5 coins are paid, two options are hidden), every question is answered,
    the game is finished, and the 50/50 badge is not in the badge set. *)
Example fifty_fifty_bought_but_no_badge :
  reachable demo_5050_final
  ∧ coins demo_5050_bought = coins demo_5050_before - FIFTY_FIFTY_COST
  ∧ used_5050 demo_5050_bought = true
  ∧ size (eliminated_options demo_5050_bought) = 2%nat
  ∧ q_index demo_5050_final = len (question_ids demo_5050_final)
  ∧ score demo_5050_final = 7
  ∧ BADGE_5050_USER ∉ badges demo_5050_final.
Proof.
  assert (Hreach : reachable demo_5050_final).
  { apply reachable_play_rounds, reachable_interact, reachable_play_round,
      reachable_start_game, reachable_init. }
  split; [exact Hreach|].
  split_and!; vm_compute; done.
Qed.

(** C8, counterexample.  Four questions: three right answers (the streak
    reaches 3), then a wrong one.  The game is finished, the highest streak
    was 3, and Streak Master is not in the badge set. *)
Lemma streak_master_lost_after_wrong_answer :
  ∃ final, last demo_streak_states = Some final
    ∧ q_index final = len (question_ids final)
    ∧ max_streak demo_streak_states = 3
    ∧ BADGE_STREAK_THRESHOLD <= max_streak demo_streak_states
    ∧ BADGE_STREAK_MASTER ∉ badges final.
Proof.
  eexists. split; [reflexivity|].
  split_and!; vm_compute; done.
Qed.

Lemma streak_master_needs_final_streak_witness :
  let s := set_streak 3 (set_q_index 3
             (set_question_ids ["line_length"; "whitespace"; "docstring"]
                (set_started true init_state))) in
  slider (press NoClick 0 demo_rnd) = None
  ∧ click (press NoClick 0 demo_rnd) = NoClick
  ∧ valid_setting s
  ∧ started s = true
  ∧ 0 < len (question_ids s) <= q_index s
  ∧ (BADGE_STREAK_MASTER ∉ badges s)
  ∧ BADGE_STREAK_MASTER ∈ badges (main (press NoClick 0 demo_rnd) s).2.
Proof.
  intros s.
  assert (H1 : slider (press NoClick 0 demo_rnd) = None) by reflexivity.
  assert (H2 : click (press NoClick 0 demo_rnd) = NoClick) by reflexivity.
  assert (H3 : valid_setting s) by (vm_compute; split; discriminate).
  assert (H4 : started s = true) by reflexivity.
  assert (H5 : 0 < len (question_ids s) <= q_index s) by (vm_compute; done).
  assert (H6 : BADGE_STREAK_MASTER ∉ badges s) by (simpl; set_solver).
  do 6 (split; [assumption|]).
  apply (proj2 (streak_master_needs_final_streak
                  (press NoClick 0 demo_rnd) s H1 H2 H3 H4 H5 H6)).
  vm_compute. discriminate.
Defined.

(** ** Code Quality Checker *)

Lemma run_analysis_failure api json_loads client code hint level who lang w :
  CodeChecker.analysis_fails api json_loads
    (CodeChecker.analysis_request code hint level who lang) ->
  ∃ text,
    CodeChecker.run_analysis api json_loads client code hint level who lang w
    = (CodeChecker.PyDict [],
       CodeChecker.st_error ("Error during analysis: " +:+ text)
         (CodeChecker.send
            (CodeChecker.analysis_request code hint level who lang) w)).
Proof.
  intros [[error Herr]|[Hnone|(content & error & Hret & Hparse)]];
    unfold CodeChecker.run_analysis; cbv zeta.
  - rewrite Herr. by eexists.
  - rewrite Hnone. by eexists.
  - rewrite Hret, Hparse. by eexists.
Qed.

(** Whatever the endpoint and the parser do, an analysis result that tests
    false ends the page before the refactor step. *)
Lemma main_stops_on_empty_result api json_loads inp w :
  CodeChecker.analyze_button inp = true ->
  CodeChecker.is_blank (CodeChecker.code_input inp) = false ->
  CodeChecker.truthy (CodeChecker.page_run_analysis api json_loads inp w).1
  = false ->
  CodeChecker.main api json_loads inp w
  = (CodeChecker.Returned,
     (CodeChecker.page_run_analysis api json_loads inp w).2).
Proof.
  intros Hbtn Hcode Hfalsy. unfold CodeChecker.main. rewrite Hbtn, Hcode.
  cbn [negb].
  change (CodeChecker.get_client w)
    with (Some (CodeChecker.OpenAI CodeChecker.OPENAI_API_KEY), w).
  cbv zeta iota beta. unfold CodeChecker.page_run_analysis in Hfalsy |- *.
  destruct (CodeChecker.run_analysis _ _ _ _ _ _ _ _ w) as [result w'].
  simpl in *. by rewrite Hfalsy.
Qed.

(** C9.  When the button was pressed on some code and the analysis call
    fails (the request raises, or its content is not valid JSON),
    [run_analysis] returns the empty dictionary and shows an error message,
    and [main] returns at once: the only request it has sent is the analysis
    request, so no refactor request is sent. *)
Theorem failed_analysis_skips_refactor api json_loads inp w :
  CodeChecker.analyze_button inp = true ->
  CodeChecker.is_blank (CodeChecker.code_input inp) = false ->
  CodeChecker.analysis_fails api json_loads
    (CodeChecker.page_analysis_request inp) ->
  ∃ text,
    CodeChecker.page_run_analysis api json_loads inp w
    = (CodeChecker.PyDict [],
       CodeChecker.st_error ("Error during analysis: " +:+ text)
         (CodeChecker.send (CodeChecker.page_analysis_request inp) w))
    ∧ CodeChecker.main api json_loads inp w
      = (CodeChecker.Returned,
         CodeChecker.st_error ("Error during analysis: " +:+ text)
           (CodeChecker.send (CodeChecker.page_analysis_request inp) w))
    ∧ CodeChecker.sent (CodeChecker.main api json_loads inp w).2
      = CodeChecker.sent w ++ [CodeChecker.page_analysis_request inp]
    ∧ (∀ request,
         request ∈ CodeChecker.sent (CodeChecker.main api json_loads inp w).2 ->
         request ∈ CodeChecker.sent w
         ∨ CodeChecker.req_model request = CodeChecker.MODEL_NAME_ANALYSIS).
Proof.
  intros Hbtn Hcode Hfail.
  destruct (run_analysis_failure api json_loads
              (CodeChecker.OpenAI CodeChecker.OPENAI_API_KEY)
              _ _ _ _ _ w Hfail) as (text & Hrun).
  exists text. fold (CodeChecker.page_analysis_request inp) in Hrun.
  fold (CodeChecker.page_run_analysis api json_loads inp w) in Hrun.
  assert (Hmain : CodeChecker.main api json_loads inp w
                  = (CodeChecker.Returned,
                     CodeChecker.st_error ("Error during analysis: " +:+ text)
                       (CodeChecker.send
                          (CodeChecker.page_analysis_request inp) w))).
  { rewrite main_stops_on_empty_result by (done || by rewrite Hrun).
    by rewrite Hrun. }
  split; [exact Hrun|]. split; [exact Hmain|]. rewrite Hmain. simpl.
  split; [done|]. intros request [Hin| ->%list_elem_of_singleton]%elem_of_app.
  - by left.
  - by right.
Qed.

Lemma failed_analysis_skips_refactor_witness :
  CodeChecker.analyze_button CodeChecker.demo_page = true
  ∧ CodeChecker.is_blank (CodeChecker.code_input CodeChecker.demo_page) = false
  ∧ CodeChecker.analysis_fails CodeChecker.demo_api_down
      CodeChecker.demo_json_loads
      (CodeChecker.page_analysis_request CodeChecker.demo_page)
  ∧ ∃ text,
      CodeChecker.main CodeChecker.demo_api_down CodeChecker.demo_json_loads
        CodeChecker.demo_page CodeChecker.empty_world
      = (CodeChecker.Returned,
         CodeChecker.st_error ("Error during analysis: " +:+ text)
           (CodeChecker.send
              (CodeChecker.page_analysis_request CodeChecker.demo_page)
              CodeChecker.empty_world)).
Proof.
  assert (H1 : CodeChecker.analyze_button CodeChecker.demo_page = true)
    by reflexivity.
  assert (H2 : CodeChecker.is_blank
                 (CodeChecker.code_input CodeChecker.demo_page) = false)
    by reflexivity.
  assert (H3 : CodeChecker.analysis_fails CodeChecker.demo_api_down
                 CodeChecker.demo_json_loads
                 (CodeChecker.page_analysis_request CodeChecker.demo_page)).
  { left. by eexists. }
  split; [exact H1|]. split; [exact H2|]. split; [exact H3|].
  destruct (failed_analysis_skips_refactor CodeChecker.demo_api_down
              CodeChecker.demo_json_loads CodeChecker.demo_page
              CodeChecker.empty_world H1 H2 H3) as (text & _ & Hmain & _).
  by exists text.
Defined.

(** * Quiz Arcade: the page, button by button *)

(** ** Catalog lookups *)

Lemma head_filter_unique {A} (key : A -> string) (l : list A) x :
  NoDup (key <$> l) -> x ∈ l ->
  head (filter (λ y, key y = key x) l) = Some x.
Proof.
  induction l as [|y l IH]; intros Hnd Hin; [by apply elem_of_nil in Hin|].
  rewrite fmap_cons in Hnd. apply NoDup_cons in Hnd as [Hy Hnd].
  rewrite filter_cons. destruct (decide (key y = key x)) as [Heq|Hne].
  - apply elem_of_cons in Hin as [->|Hin]; [done|].
    exfalso. apply Hy. rewrite Heq. by apply list_elem_of_fmap_2.
  - apply elem_of_cons in Hin as [->|Hin]; [done|]. by apply IH.
Qed.

Lemma head_filter_none {A} (key : A -> string) (l : list A) k :
  k ∉ key <$> l -> head (filter (λ y, key y = k) l) = None.
Proof.
  induction l as [|y l IH]; intros Hk; [done|].
  rewrite fmap_cons in Hk. apply not_elem_of_cons in Hk as [Hne Hk].
  rewrite filter_cons. destruct (decide (key y = k)); [congruence|]. by apply IH.
Qed.

Lemma head_filter_some {A} (P : A -> Prop) `{∀ x, Decision (P x)} (l : list A) x :
  head (filter P l) = Some x -> P x ∧ x ∈ l.
Proof.
  intros Hh. assert (Hin : x ∈ filter P l).
  { destruct (filter P l) as [|y l']; simplify_eq/=. by left. }
  by apply list_elem_of_filter in Hin.
Qed.

(** X2.  [get_question_by_id] finds every question of the bank under its own
    id and leaves the session alone; for an id that is not in the bank it
    raises [KeyError]; and whatever it returns is a bank question with the id
    asked for. *)
Theorem get_question_by_id_lookup question_id s :
  (∀ question, question ∈ QUESTION_POOL ->
     get_question_by_id (q_id question) s = (Done question, s))
  ∧ (question_id ∉ q_id <$> QUESTION_POOL ->
     get_question_by_id question_id s = (Raise KeyError, s))
  ∧ (∀ question, (get_question_by_id question_id s).1 = Done question ->
     question ∈ QUESTION_POOL ∧ q_id question = question_id).
Proof.
  unfold get_question_by_id. split_and!.
  - intros question Hin.
    by rewrite (head_filter_unique q_id _ question question_ids_NoDup Hin).
  - intros Hout. by rewrite head_filter_none.
  - intros question. destruct (head _) as [q|] eqn:Hh; simpl; [|done].
    intros [= ->]. apply head_filter_some in Hh as [? ?]. done.
Qed.

Lemma monster_ids_NoDup : NoDup (m_id <$> MONSTER_SHOP).
Proof. compute_done. Qed.

(** X3.  [get_monster] returns every monster of the shop under its own id,
    [None] for an id the shop does not have, and never a monster with another
    id. *)
Theorem get_monster_lookup monster_id :
  (∀ monster, monster ∈ MONSTER_SHOP -> get_monster (m_id monster) = Some monster)
  ∧ (monster_id ∉ m_id <$> MONSTER_SHOP -> get_monster monster_id = None)
  ∧ (∀ monster, get_monster monster_id = Some monster ->
     monster ∈ MONSTER_SHOP ∧ m_id monster = monster_id).
Proof.
  unfold get_monster. split_and!.
  - intros monster Hin. apply (head_filter_unique m_id); [apply monster_ids_NoDup|done].
  - intros Hout. by apply head_filter_none.
  - intros monster Hh. apply head_filter_some in Hh as [? ?]. done.
Qed.

(** ** 50/50 and the options on screen *)

Lemma filter_none {A} (P : A -> Prop) `{∀ x, Decision (P x)} (l : list A) :
  (∀ x, x ∈ l -> ¬ P x) -> filter P l = [].
Proof.
  induction l as [|x l IH]; intros Hl; [done|].
  rewrite filter_cons, decide_False by (apply Hl; by left).
  apply IH. intros y Hy. apply Hl. by right.
Qed.

(** Hiding the members of a duplicate-free list [p] taken from a
    duplicate-free list [l] leaves [length l - length p] elements. *)
Lemma length_filter_hidden (l p : list Z) :
  NoDup l -> NoDup p -> (∀ x, x ∈ p -> x ∈ l) ->
  length (filter (λ x, x ∉ (list_to_set p : gset Z)) l)
  = (length l - length p)%nat.
Proof.
  intros Hl Hp Hsub.
  destruct (submseteq_Permutation p l) as [r Hperm].
  { by apply NoDup_submseteq. }
  rewrite Hperm in Hl |- *. rewrite filter_app, length_app.
  apply NoDup_app in Hl as (_ & Hdisj & _).
  rewrite filter_none, filter_all; [rewrite length_app; simpl; lia| |].
  - intros x Hx. rewrite elem_of_list_to_set. intros Hxp. by eapply Hdisj.
  - intros x Hx Hnot. apply Hnot. by apply elem_of_list_to_set.
Qed.

(** What is on screen once 50/50 has been applied. *)
Lemma visible_after_5050 rnd question s :
  0 <= q_answer_idx question < len (q_options question) ->
  let s' := (apply_5050 rnd question s).2 in
  q_answer_idx question ∈ visible_rows s' question
  ∧ len (visible_rows s' question)
    = len (q_options question) - Z.min 2 (len (q_options question) - 1)
  ∧ NoDup (visible_rows s' question)
  ∧ (∀ index, index ∈ visible_rows s' question ->
       (index ∉ eliminated_options s')
       ∧ 0 <= index < len (q_options question)).
Proof.
  intros Hwf s'. subst s'. rewrite apply_5050_run. cbn [snd].
  unfold visible_rows. cbn [used_5050 eliminated_options set_used_5050
    set_eliminated_options negb].
  set (picked := sample_pool rnd 0 (wrong_indices question)
                   (Z.to_nat (Z.min 2 (len (wrong_indices question))))).
  assert (Hk : (Z.to_nat (Z.min 2 (len (wrong_indices question)))
                ≤ length (wrong_indices question))%nat) by (unfold len; lia).
  assert (Hsub : ∀ x, x ∈ picked -> x ∈ wrong_indices question).
  { intros x. by apply sample_pool_elem. }
  assert (Hnd : NoDup picked).
  { apply sample_pool_NoDup; [done|apply wrong_indices_NoDup]. }
  assert (Hlen : length picked = Z.to_nat (Z.min 2 (len (wrong_indices question)))).
  { by apply sample_pool_length. }
  split_and!.
  - apply list_elem_of_filter. split.
    + rewrite elem_of_list_to_set. intros Hin%Hsub.
      apply elem_of_wrong_indices in Hin as [? _]. done.
    + apply elem_of_range. unfold len in Hwf. lia.
  - unfold len at 1. rewrite length_filter_hidden, length_range; [|apply range_NoDup|done|].
    + rewrite Hlen, wrong_indices_length by done. unfold len in *. lia.
    + intros x Hx%Hsub. apply elem_of_wrong_indices in Hx as [_ Hx].
      apply elem_of_range. unfold len in Hx. lia.
  - apply NoDup_filter, range_NoDup.
  - intros index [Hnot Hin%elem_of_range]%list_elem_of_filter.
    split; [done|]. unfold len. lia.
Qed.

(** X4.  After [apply_5050] on a question whose answer index points into its
    options, [get_visible_option_indices] still lists the right answer, lists
    [min 2 (options - 1)] options fewer than there are, and lists no
    eliminated index and no index outside the options. *)
Theorem fifty_fifty_keeps_answer_visible rnd question s :
  0 <= q_answer_idx question < len (q_options question) ->
  let s' := (apply_5050 rnd question s).2 in
  ∃ visible,
    get_visible_option_indices question s' = (Done visible, s')
    ∧ q_answer_idx question ∈ visible
    ∧ len visible
      = len (q_options question) - Z.min 2 (len (q_options question) - 1)
    ∧ NoDup visible
    ∧ (∀ index, index ∈ visible ->
         (index ∉ eliminated_options s')
         ∧ 0 <= index < len (q_options question)).
Proof.
  intros Hwf s'. exists (visible_rows s' question).
  split; [apply get_visible_option_indices_run|].
  by apply visible_after_5050.
Qed.

Lemma fifty_fifty_keeps_answer_visible_witness :
  let question := {| q_id := "comparisons";
                     q_options := ["== None"; "!= None"; "is None"; "equals(None)"];
                     q_answer_idx := 2; q_topic := "Best practices" |} in
  0 <= q_answer_idx question < len (q_options question)
  ∧ ∃ visible,
      get_visible_option_indices question
        (apply_5050 demo_rnd question init_state).2
      = (Done visible, (apply_5050 demo_rnd question init_state).2)
      ∧ len visible = 2.
Proof.
  intros question.
  assert (H : 0 <= q_answer_idx question < len (q_options question))
    by (unfold len; simpl; lia).
  split; [exact H|].
  destruct (fifty_fifty_keeps_answer_visible demo_rnd question init_state H)
    as (visible & Hrun & _ & Hlen & _).
  exists visible. split; [exact Hrun|]. rewrite Hlen. reflexivity.
Defined.

(** *** The question screen, button by button *)

Lemma main_on_question inp s :
  slider inp = None -> quiz_click (click inp) ->
  started s = true -> skip_pending s = false ->
  q_index s < len (question_ids s) -> valid_setting s ->
  main inp s = question_screen inp (q_index s) s.
Proof.
  intros Hsl Hc Hst Hskip Hlt Hv.
  rewrite main_quiz_click by done. by apply quiz_area_question.
Qed.

Lemma awaiting_not_skip s question : awaiting_answer s question -> skip_pending s = false.
Proof. intros (_ & Hans & _). unfold skip_pending. by rewrite Hans. Qed.

Lemma locked_not_skip s question : answer_locked s question -> skip_pending s = false.
Proof.
  intros (_ & Hans & [b Hb] & _). unfold skip_pending. rewrite Hans, Hb.
  by rewrite bool_decide_eq_false_2.
Qed.

Lemma submit_answer_wrong inp question option_indices s chosen :
  option_indices !! radio inp = Some chosen ->
  chosen ≠ q_answer_idx question ->
  submit_answer inp question option_indices s = (Done tt, answered_wrong s).
Proof.
  intros Hrow Hne. unfold submit_answer. rewrite Hrow.
  rewrite (bind_done _ _ s chosen s) by done.
  cbv zeta. rewrite bool_decide_eq_false_2 by done. done.
Qed.

Lemma submit_answer_bad_row inp question option_indices s :
  option_indices !! radio inp = None ->
  submit_answer inp question option_indices s = (Raise IndexError, s).
Proof. intros Hrow. unfold submit_answer. by rewrite Hrow. Qed.

(** X5.  With a question waiting for an answer, submitting a row that shows
    a wrong option locks the answer in as wrong, sets the streak to 0 and
    leaves score, coins and question index as they were; submitting a row
    that is not on screen raises [IndexError] and changes nothing. *)
Theorem wrong_answer_resets_streak inp s question :
  awaiting_answer s question ->
  slider inp = None -> click inp = ClickSubmit ->
  (∀ chosen, visible_rows s question !! radio inp = Some chosen ->
     chosen ≠ q_answer_idx question ->
     main inp s = (Done tt, answered_wrong s)
     ∧ streak (main inp s).2 = 0
     ∧ answered (main inp s).2 = true
     ∧ last_correct (main inp s).2 = Some false
     ∧ score (main inp s).2 = score s
     ∧ coins (main inp s).2 = coins s
     ∧ q_index (main inp s).2 = q_index s)
  ∧ (visible_rows s question !! radio inp = None ->
     main inp s = (Raise IndexError, s)).
Proof.
  intros Hw Hsl Hc. pose proof Hw as (Hst & Hans & Hlt & Hq & Hpend & Hv).
  assert (Hmain : main inp s
                  = submit_answer inp question (visible_rows s question) s).
  { rewrite main_on_question; try done.
    - by apply question_screen_submit.
    - rewrite Hc. right. by left.
    - by eapply awaiting_not_skip. }
  split.
  - intros chosen Hrow Hne.
    rewrite Hmain, (submit_answer_wrong _ _ _ _ chosen) by done.
    split_and!; reflexivity.
  - intros Hrow. by rewrite Hmain, submit_answer_bad_row.
Qed.


(** X7.  With an answer locked in, Next moves to the following question,
    clears the per-question flags, so that every option of any question is on
    screen again, and asks for a rerun; while the question is unanswered Next
    is dead. *)
Theorem next_moves_on inp s question :
  slider inp = None -> click inp = ClickNext ->
  (answer_locked s question ->
     main inp s = (Rerun, advanced s)
     ∧ q_index (advanced s) = q_index s + 1
     ∧ score (advanced s) = score s ∧ coins (advanced s) = coins s
     ∧ streak (advanced s) = streak s
     ∧ ∀ other, visible_rows (advanced s) other
                = range (length (q_options other)))
  ∧ (awaiting_answer s question -> main inp s = (Done tt, s)).
Proof.
  intros Hsl Hc. split.
  - intros Hl. pose proof Hl as (Hst & Hans & Hver & Hlt & Hq & Hpend & Hv).
    split_and!; try reflexivity.
    rewrite main_on_question; try done.
    + by apply (question_screen_next _ _ question).
    + rewrite Hc. right. right. by left.
    + by eapply locked_not_skip.
  - intros Hw. pose proof Hw as (Hst & Hans & Hlt & Hq & Hpend & Hv).
    rewrite main_on_question; try done.
    + rewrite (question_screen_shown _ _ question) by done.
      unfold st_button. rewrite Hc. run_script. simpl. by rewrite Hans.
    + rewrite Hc. right. right. by left.
    + by eapply awaiting_not_skip.
Qed.

(** *** Power-ups *)

Lemma quiz_settings_idle_powerup inp s :
  slider inp = None -> powerup_click (click inp) -> valid_setting s ->
  quiz_settings inp s = (Done tt, s).
Proof.
  intros Hsl Hc Hv. apply quiz_settings_idle; [done| |done].
  destruct Hc as [->|[->| ->]]; done.
Qed.

Lemma monster_shop_idle_powerup inp s :
  powerup_click (click inp) -> monster_shop inp s = (Done tt, s).
Proof.
  intros Hc. apply monster_shop_idle; intros monster_id;
    destruct Hc as [->|[->| ->]]; done.
Qed.

(** With a power-up button pressed, the question screen only applies a
    pending 50/50; with none pending it does nothing. *)
Lemma question_screen_idle_powerup inp s question :
  powerup_click (click inp) ->
  current_question s = Some question -> no_pending_5050 s ->
  question_screen inp (q_index s) s = (Done tt, s).
Proof.
  intros Hc Hq Hpend. rewrite (question_screen_shown _ _ question) by done.
  unfold st_button. destruct Hc as [->|[->| ->]]; done.
Qed.

Lemma powerup_shop_dead inp s cost :
  purchase_cost (click inp) = Some cost -> powerup_click (click inp) ->
  coins s < cost ∨ started s = false ∨ answered s = true ->
  powerup_shop inp s = (Done tt, s).
Proof.
  intros Hcost Hc Hdead. unfold powerup_shop, st_button. run_script.
  destruct Hc as [Hc|[Hc|Hc]]; rewrite Hc in *; simpl in *; simplify_eq.
  - destruct Hdead as [?|[->| ->]]; [|by rewrite orb_true_r|by rewrite orb_true_r].
    by destruct (Z.ltb_spec (coins s) HINT_COST); [|lia].
  - destruct Hdead as [?|[->| ->]]; [|by rewrite orb_true_r|by rewrite orb_true_r].
    by destruct (Z.ltb_spec (coins s) SKIP_COST); [|lia].
  - destruct Hdead as [?|[->| ->]];
      [|by rewrite !orb_true_r|by rewrite ?orb_true_r, ?orb_true_l].
    by destruct (Z.ltb_spec (coins s) FIFTY_FIFTY_COST); [|lia].
Qed.


Lemma powerup_shop_skip inp s :
  click inp = ClickSkip -> SKIP_COST <= coins s ->
  started s = true -> answered s = false ->
  powerup_shop inp s = (Done tt, skip_paid s).
Proof.
  intros Hc Hcoins Hst Hans. unfold powerup_shop, st_button. run_script.
  rewrite Hc, Hst, Hans. unfold skip_paid, SKIP_COST in *. simpl.
  destruct (Z.ltb_spec (coins s) 4); [lia|]. by rewrite ?Hst, ?Hans.
Qed.

(** X9.  Skip, when the player can pay for it and a question is still to be
    answered: 4 coins are paid, the skip is counted, the streak falls to 0,
    the score stays, and the page moves on to the next question at once,
    asking for a rerun, with the question unanswered and no verdict. *)
Theorem skip_pays_and_moves_on inp s :
  slider inp = None -> click inp = ClickSkip -> valid_setting s ->
  started s = true -> answered s = false ->
  q_index s < len (question_ids s) -> SKIP_COST <= coins s ->
  main inp s = (Rerun, advanced (skip_paid s))
  ∧ coins (main inp s).2 = coins s - 4
  ∧ skips_used (main inp s).2 = skips_used s + 1
  ∧ streak (main inp s).2 = 0
  ∧ score (main inp s).2 = score s
  ∧ q_index (main inp s).2 = q_index s + 1
  ∧ answered (main inp s).2 = false
  ∧ last_correct (main inp s).2 = None.
Proof.
  intros Hsl Hc Hv Hst Hans Hlt Hcoins.
  assert (Hmain : main inp s = (Rerun, advanced (skip_paid s))).
  { unfold main.
    rewrite (bind_done _ _ s tt s)
      by (apply quiz_settings_idle_powerup; [done|right; by left|done]).
    rewrite (bind_done _ _ s tt (skip_paid s)) by by apply powerup_shop_skip.
    apply bind_rerun. apply quiz_area_skip; [done|].
    unfold skip_pending. simpl.
    by destruct (Z.ltb_spec (q_index s) (len (question_ids s))); [|lia]. }
  rewrite Hmain. split_and!; reflexivity.
Qed.

Lemma powerup_shop_hint inp s :
  click inp = ClickHint -> HINT_COST <= coins s ->
  started s = true -> answered s = false ->
  powerup_shop inp s = (Done tt, hint_paid s).
Proof.
  intros Hc Hcoins Hst Hans. unfold powerup_shop, st_button. run_script.
  rewrite Hc, Hst, Hans. unfold hint_paid, HINT_COST in *. simpl.
  destruct (Z.ltb_spec (coins s) 3); [lia|]. by rewrite ?Hst, ?Hans.
Qed.

(** X10.  Hint, when the player can pay for it and a question waits for an
    answer: 3 coins are paid, the hint is counted and switched on, and
    nothing else moves: the options on screen, score, streak and question
    index are as before and the question is still unanswered. *)
Theorem hint_pays_and_shows_topic inp s question :
  slider inp = None -> click inp = ClickHint ->
  awaiting_answer s question -> HINT_COST <= coins s ->
  main inp s = (Done tt, hint_paid s)
  ∧ coins (main inp s).2 = coins s - 3
  ∧ hints_used (main inp s).2 = hints_used s + 1
  ∧ show_hint (main inp s).2 = true
  ∧ visible_rows (main inp s).2 question = visible_rows s question
  ∧ score (main inp s).2 = score s ∧ streak (main inp s).2 = streak s
  ∧ q_index (main inp s).2 = q_index s ∧ answered (main inp s).2 = false.
Proof.
  intros Hsl Hc Hw Hcoins. pose proof Hw as (Hst & Hans & Hlt & Hq & Hpend & Hv).
  assert (Hmain : main inp s = (Done tt, hint_paid s)).
  { unfold main.
    rewrite (bind_done _ _ s tt s)
      by (apply quiz_settings_idle_powerup; [done|by left|done]).
    rewrite (bind_done _ _ s tt (hint_paid s)) by by apply powerup_shop_hint.
    rewrite (bind_done _ _ (hint_paid s) tt (hint_paid s)).
    - apply monster_shop_idle_powerup. by left.
    - rewrite quiz_area_question; [|done| |done].
      + apply (question_screen_idle_powerup _ _ question); [by left|done|].
        unfold no_pending_5050 in *. simpl.
        destruct (used_5050 s); [by rewrite andb_false_r|].
        rewrite andb_true_r in *. apply bool_decide_eq_false.
        apply bool_decide_eq_false in Hpend.
        rewrite elem_of_app, list_elem_of_singleton. intros [?|?]; done.
      + unfold skip_pending. simpl. by rewrite Hans. }
  rewrite Hmain. split_and!; try reflexivity. simpl. exact Hans.
Qed.


Lemma current_question_in_pool s question :
  current_question s = Some question ->
  0 <= q_answer_idx question < len (q_options question).
Proof.
  intros (question_id & _ & Hq)%current_question_Some.
  apply head_filter_some in Hq as [_ Hin].
  pose proof question_pool_well_formed as Hwf.
  rewrite Forall_forall in Hwf. by apply Hwf.
Qed.


Lemma powerup_shop_used_5050 inp s :
  click inp = ClickFiftyFifty -> used_5050 s = true ->
  powerup_shop inp s = (Done tt, s).
Proof.
  intros Hc Hused. unfold powerup_shop, st_button. run_script.
  rewrite Hc. simpl. rewrite Hused. by rewrite !orb_true_r.
Qed.


(** *** The monster shop *)

Lemma question_screen_idle_monster inp s question :
  monster_click (click inp) ->
  current_question s = Some question -> no_pending_5050 s ->
  question_screen inp (q_index s) s = (Done tt, s).
Proof.
  intros [monster_id Hc] Hq Hpend.
  rewrite (question_screen_shown _ _ question) by done.
  unfold st_button. destruct Hc as [-> | ->]; done.
Qed.

(** With a monster-shop button pressed on a question screen, everything
    above the monster shop leaves the session alone. *)
Lemma main_monster_click inp s question :
  slider inp = None -> monster_click (click inp) ->
  (awaiting_answer s question ∨ answer_locked s question) ->
  main inp s = monster_shop inp s.
Proof.
  intros Hsl Hc Hcase.
  assert (Hfacts : valid_setting s ∧ started s = true
                   ∧ skip_pending s = false
                   ∧ q_index s < len (question_ids s)
                   ∧ current_question s = Some question
                   ∧ no_pending_5050 s).
  { destruct Hcase as [Hw|Hl].
    - pose proof (awaiting_not_skip _ _ Hw).
      destruct Hw as (?&?&?&?&?&?). by split_and!.
    - pose proof (locked_not_skip _ _ Hl).
      destruct Hl as (?&?&?&?&?&?&?). by split_and!. }
  destruct Hfacts as (Hv & Hst & Hskip & Hlt & Hq & Hpend).
  pose proof Hc as [monster_id Hc'].
  unfold main.
  rewrite (bind_done _ _ s tt s).
  2:{ apply quiz_settings_idle; [done| |done]. by destruct Hc' as [-> | ->]. }
  rewrite (bind_done _ _ s tt s).
  2:{ apply powerup_shop_idle_buy; by destruct Hc' as [-> | ->]. }
  rewrite (bind_done _ _ s tt s); [done|].
  rewrite quiz_area_question by done.
  by apply (question_screen_idle_monster _ _ question).
Qed.

Lemma monster_card_other inp monster monster_id s :
  click inp = ClickBuy monster_id ∨ click inp = ClickSelect monster_id ->
  m_id monster ≠ monster_id ->
  monster_card inp monster s = (Done tt, s).
Proof.
  intros Hc Hne. unfold monster_card, st_button. run_script.
  destruct (bool_decide (m_id monster ∈ monsters_owned s)).
  - destruct (bool_decide (selected_monster s = _)); [done|].
    rewrite bool_decide_eq_false_2; [done|]. destruct Hc as [-> | ->]; congruence.
  - rewrite bool_decide_eq_false_2; [done|]. destruct Hc as [-> | ->]; congruence.
Qed.

Lemma monster_card_buys inp monster s :
  click inp = ClickBuy (m_id monster) ->
  m_id monster ∉ monsters_owned s -> m_price monster <= coins s ->
  monster_card inp monster s = (Rerun, bought monster s).
Proof.
  intros Hc Hnew Hcoins. unfold monster_card, st_button. run_script.
  rewrite bool_decide_eq_false_2 by done. rewrite Hc.
  rewrite bool_decide_eq_true_2 by done.
  by destruct (Z.ltb_spec (coins s) (m_price monster)); [lia|].
Qed.

Lemma monster_card_refuses inp monster s :
  click inp = ClickBuy (m_id monster) ->
  m_id monster ∈ monsters_owned s ∨ coins s < m_price monster ->
  monster_card inp monster s = (Done tt, s).
Proof.
  intros Hc Hcase. unfold monster_card, st_button. run_script. rewrite Hc.
  destruct (bool_decide (m_id monster ∈ monsters_owned s)) eqn:Hown.
  - by destruct (bool_decide (selected_monster s = _)).
  - apply bool_decide_eq_false in Hown. destruct Hcase as [?|Hlow]; [done|].
    destruct (Z.ltb_spec (coins s) (m_price monster)); [|lia].
    simpl. by rewrite andb_false_r.
Qed.

Lemma monster_card_selects inp monster s :
  click inp = ClickSelect (m_id monster) ->
  m_id monster ∈ monsters_owned s ->
  selected_monster s ≠ Some (m_id monster) ->
  monster_card inp monster s
  = (Rerun, set_selected_monster (Some (m_id monster)) s).
Proof.
  intros Hc Hown Hsel. unfold monster_card, st_button. run_script.
  rewrite bool_decide_eq_true_2 by done.
  rewrite bool_decide_eq_false_2 by done. rewrite Hc.
  by rewrite bool_decide_eq_true_2.
Qed.

Lemma monster_card_select_dead inp monster s :
  click inp = ClickSelect (m_id monster) ->
  m_id monster ∉ monsters_owned s ∨ selected_monster s = Some (m_id monster) ->
  monster_card inp monster s = (Done tt, s).
Proof.
  intros Hc Hcase. unfold monster_card, st_button. run_script. rewrite Hc.
  destruct (bool_decide (m_id monster ∈ monsters_owned s)) eqn:Hown.
  - apply bool_decide_eq_true in Hown. destruct Hcase as [?|Hsel]; [done|].
    by rewrite bool_decide_eq_true_2.
  - done.
Qed.

(** In a shop whose ids are all different, only the card of the monster the
    button belongs to reacts. *)
Lemma for_each_cards_one inp monster monster_id (l : list Monster) s r :
  click inp = ClickBuy monster_id ∨ click inp = ClickSelect monster_id ->
  m_id monster = monster_id ->
  NoDup (m_id <$> l) -> monster ∈ l ->
  monster_card inp monster s = r ->
  (r.1 = Rerun ∨ r = (Done tt, s)) ->
  for_each (monster_card inp) l s = r.
Proof.
  intros Hc Hid Hnd Hin Hcard Hr. revert Hnd Hin.
  induction l as [|y l IH]; intros Hnd Hin; [by apply elem_of_nil in Hin|].
  rewrite fmap_cons in Hnd. apply NoDup_cons in Hnd as [Hy Hnd]. simpl.
  destruct (decide (y = monster)) as [->|Hne].
  - destruct Hr as [Hre|Hdone].
    + destruct r as [[[]| |e] s']; simpl in Hre; try done.
      by rewrite (bind_rerun _ _ s s').
    + rewrite Hdone in *. rewrite (bind_done _ _ s tt s) by done.
      clear IH. induction l as [|z l IHl]; [done|]. simpl.
      rewrite fmap_cons in Hy, Hnd. apply not_elem_of_cons in Hy as [Hz Hy].
      apply NoDup_cons in Hnd as [_ Hnd].
      rewrite (bind_done _ _ s tt s).
      * apply IHl; [done|done|]. apply elem_of_cons in Hin as [?|?]; [by left|by left].
      * apply (monster_card_other _ _ monster_id); [done|congruence].
  - apply elem_of_cons in Hin as [?|Hin]; [done|].
    rewrite (bind_done _ _ s tt s); [by apply IH|].
    apply (monster_card_other _ _ monster_id); [done|].
    intros Heq. apply Hy. rewrite Heq, <- Hid. by apply list_elem_of_fmap_2.
Qed.

(** X12.  Buying a monster of the shop while a question is on screen.  If
    the monster is not owned yet and the balance covers its price, exactly
    the price is paid, the id is appended to the owned monsters, the monster
    becomes the selected one, the Monster Collector badge is granted and the
    page asks for a rerun; score and streak stay.  If the monster is owned
    already, or the balance is short, the press changes nothing: no monster
    is paid for twice. *)
Theorem buy_monster_effect inp s question monster :
  slider inp = None -> monster ∈ MONSTER_SHOP ->
  click inp = ClickBuy (m_id monster) ->
  awaiting_answer s question ∨ answer_locked s question ->
  (m_id monster ∉ monsters_owned s -> m_price monster <= coins s ->
     main inp s = (Rerun, bought monster s)
     ∧ coins (bought monster s) = coins s - m_price monster
     ∧ monsters_owned (bought monster s) = monsters_owned s ++ [m_id monster]
     ∧ selected_monster (bought monster s) = Some (m_id monster)
     ∧ BADGE_MONSTER_COLLECTOR ∈ badges (bought monster s)
     ∧ score (bought monster s) = score s
     ∧ streak (bought monster s) = streak s)
  ∧ (m_id monster ∈ monsters_owned s ∨ coins s < m_price monster ->
     main inp s = (Done tt, s)).
Proof.
  intros Hsl Hin Hc Hcase.
  assert (Hmain : main inp s = monster_shop inp s).
  { apply (main_monster_click _ _ question); [done| |done].
    exists (m_id monster). by right. }
  split.
  - intros Hnew Hcoins. split_and!; try reflexivity.
    + rewrite Hmain. unfold monster_shop.
      apply (for_each_cards_one _ monster (m_id monster));
        [by left|done|apply monster_ids_NoDup|done| |by left].
      by apply monster_card_buys.
    + simpl. set_solver.
  - intros Hrefuse. rewrite Hmain. unfold monster_shop.
    apply (for_each_cards_one _ monster (m_id monster));
      [by left|done|apply monster_ids_NoDup|done| |by right].
    by apply monster_card_refuses.
Qed.

(** X13.  Selecting a monster of the shop while a question is on screen.
    An owned monster that is not the selected one becomes the selected one,
    at no cost, and the page asks for a rerun; for a monster that is not
    owned, or is selected already, the press changes nothing. *)
Theorem select_monster_effect inp s question monster :
  slider inp = None -> monster ∈ MONSTER_SHOP ->
  click inp = ClickSelect (m_id monster) ->
  awaiting_answer s question ∨ answer_locked s question ->
  (m_id monster ∈ monsters_owned s ->
   selected_monster s ≠ Some (m_id monster) ->
     main inp s = (Rerun, set_selected_monster (Some (m_id monster)) s)
     ∧ coins (main inp s).2 = coins s
     ∧ monsters_owned (main inp s).2 = monsters_owned s)
  ∧ (m_id monster ∉ monsters_owned s
     ∨ selected_monster s = Some (m_id monster) ->
     main inp s = (Done tt, s)).
Proof.
  intros Hsl Hin Hc Hcase.
  assert (Hmain : main inp s = monster_shop inp s).
  { apply (main_monster_click _ _ question); [done| |done].
    exists (m_id monster). by left. }
  split.
  - intros Hown Hsel.
    assert (Hrun : main inp s
                   = (Rerun, set_selected_monster (Some (m_id monster)) s)).
    { rewrite Hmain. unfold monster_shop.
      apply (for_each_cards_one _ monster (m_id monster));
        [by right|done|apply monster_ids_NoDup|done| |by left].
      by apply monster_card_selects. }
    rewrite Hrun. split_and!; reflexivity.
  - intros Hdead. rewrite Hmain. unfold monster_shop.
    apply (for_each_cards_one _ monster (m_id monster));
      [by right|done|apply monster_ids_NoDup|done| |by right].
    by apply monster_card_select_dead.
Qed.

(** *** The results screen *)

Lemma results_screen_play_again inp total s :
  click inp = ClickPlayAgain -> total ≠ 0 -> 0 <= num_questions s ->
  results_screen inp total s
  = (Rerun, fresh_game (draws inp) (set_badges (awarded s) s)).
Proof.
  intros Hc Ht Hn. unfold results_screen.
  rewrite (bind_done _ _ s tt _ (award_badges_run s)).
  rewrite (bind_done _ _ _ tt (set_badges (awarded s) s)).
  2:{ unfold when. by destruct (Z.eqb_spec total 0). }
  unfold st_button. rewrite Hc. cbn [when andb negb].
  rewrite bool_decide_eq_true_2 by done. cbn [andb].
  unfold when.
  by rewrite (bind_done _ _ _ tt _
                (start_new_game_run (draws inp) (set_badges (awarded s) s) Hn)).
Qed.

(** X14.  "Play again" on the results screen hands out the badges of the
    finished game and then starts a new game exactly as "New game" does with
    the slider left alone: the page asks for a rerun, there are as many
    distinct questions from the bank as the session's question count, score,
    coins, streak and badges are reset, and the monsters are kept. *)
Theorem play_again_starts_over inp s :
  slider inp = None -> click inp = ClickPlayAgain -> finished s ->
  let s' := (main inp s).2 in
  (main inp s).1 = Rerun
  ∧ s' = fresh_game (draws inp) (set_badges (awarded s) s)
  ∧ len (question_ids s') = num_questions s
  ∧ NoDup (question_ids s')
  ∧ (∀ question_id, question_id ∈ question_ids s' ->
       question_id ∈ q_id <$> QUESTION_POOL)
  ∧ q_index s' = 0 ∧ score s' = 0 ∧ coins s' = 0 ∧ streak s' = 0
  ∧ badges s' = ∅
  ∧ monsters_owned s' = monsters_owned s
  ∧ selected_monster s' = selected_monster s.
Proof.
  intros Hsl Hc (Hst & Hfin & Hv).
  assert (Hn : 0 <= num_questions s).
  { destruct Hv as [Hlo _]. unfold MIN_QUESTIONS_PER_GAME in Hlo. lia. }
  assert (Hmain : main inp s
                  = (Rerun, fresh_game (draws inp) (set_badges (awarded s) s))).
  { rewrite main_quiz_click; [|done|rewrite Hc; by do 3 right|done].
    rewrite quiz_area_results; [|done|lia].
    apply results_screen_play_again; [done|lia|done]. }
  cbv zeta. rewrite Hmain. cbn [fst snd].
  destruct (fresh_game_question_ids (draws inp) (set_badges (awarded s) s))
    as (Hlen & Hnd & Hin).
  split_and!; try done.
  rewrite Hlen. change (num_questions (set_badges (awarded s) s))
    with (num_questions s).
  destruct Hv as [Hlo Hhi]. unfold MIN_QUESTIONS_PER_GAME in Hlo.
  assert (0 <= len QUESTION_POOL) by (unfold len; lia). lia.
Qed.

(** *** Worked examples for the buttons *)

Lemma demo_waiting_awaits : awaiting_answer demo_waiting demo_first_question.
Proof. split_and!; vm_compute; first [reflexivity | split; discriminate]. Qed.

Lemma demo_one_right_locked : answer_locked demo_one_right demo_first_question.
Proof.
  split_and!; vm_compute;
    first [reflexivity | by eexists | split; discriminate].
Qed.

Lemma demo_5050_before_awaits :
  awaiting_answer demo_5050_before demo_second_question.
Proof. split_and!; vm_compute; first [reflexivity | split; discriminate]. Qed.

Lemma demo_finished_finished : finished demo_finished.
Proof.
  split_and!; vm_compute; first [reflexivity | discriminate | split; discriminate].
Qed.

Lemma demo_monster_in_shop : demo_monster ∈ MONSTER_SHOP.
Proof. vm_compute. by left. Qed.

Lemma demo_rich_awaits : awaiting_answer demo_rich demo_eighth_question.
Proof. split_and!; vm_compute; first [reflexivity | split; discriminate]. Qed.

Lemma demo_two_monsters_awaits :
  awaiting_answer demo_two_monsters demo_eighth_question.
Proof. split_and!; vm_compute; first [reflexivity | split; discriminate]. Qed.

Lemma reachable_demo_rich : reachable demo_rich.
Proof. apply reachable_play_rounds, reachable_start_game, reachable_init. Qed.

Lemma reachable_demo_two_monsters : reachable demo_two_monsters.
Proof. do 2 apply reachable_interact. apply reachable_demo_rich. Qed.

Lemma wrong_answer_resets_streak_witness :
  awaiting_answer demo_waiting demo_first_question
  ∧ main (press ClickSubmit 0 demo_rnd) demo_waiting
    = (Done tt, answered_wrong demo_waiting)
  ∧ streak (main (press ClickSubmit 0 demo_rnd) demo_waiting).2 = 0.
Proof.
  split; [exact demo_waiting_awaits|].
  assert (Hrow : visible_rows demo_waiting demo_first_question
                   !! radio (press ClickSubmit 0 demo_rnd) = Some 0)
    by reflexivity.
  assert (Hne : 0 ≠ q_answer_idx demo_first_question) by discriminate.
  destruct (proj1 (wrong_answer_resets_streak (press ClickSubmit 0 demo_rnd)
                     demo_waiting demo_first_question
                     demo_waiting_awaits eq_refl eq_refl) 0 Hrow Hne)
    as (Hrun & Hstreak & _).
  split; [exact Hrun|exact Hstreak].
Defined.


Lemma next_moves_on_witness :
  answer_locked demo_one_right demo_first_question
  ∧ main (press ClickNext 0 demo_rnd) demo_one_right
    = (Rerun, advanced demo_one_right)
  ∧ (awaiting_answer demo_waiting demo_first_question ->
     main (press ClickNext 0 demo_rnd) demo_waiting = (Done tt, demo_waiting)).
Proof.
  split; [exact demo_one_right_locked|]. split.
  - exact (proj1 (proj1 (next_moves_on (press ClickNext 0 demo_rnd)
                           demo_one_right demo_first_question eq_refl eq_refl)
                    demo_one_right_locked)).
  - exact (proj2 (next_moves_on (press ClickNext 0 demo_rnd)
                    demo_waiting demo_first_question eq_refl eq_refl)).
Defined.


Lemma skip_pays_and_moves_on_witness :
  valid_setting demo_5050_before
  ∧ started demo_5050_before = true
  ∧ answered demo_5050_before = false
  ∧ q_index demo_5050_before < len (question_ids demo_5050_before)
  ∧ SKIP_COST <= coins demo_5050_before
  ∧ main (press ClickSkip 0 demo_rnd) demo_5050_before
    = (Rerun, advanced (skip_paid demo_5050_before)).
Proof.
  destruct demo_5050_before_awaits as (Hst & Hans & Hlt & _ & _ & Hv).
  assert (Hcoins : SKIP_COST <= coins demo_5050_before)
    by (vm_compute; discriminate).
  do 5 (split; [assumption|]).
  exact (proj1 (skip_pays_and_moves_on (press ClickSkip 0 demo_rnd)
                  demo_5050_before eq_refl eq_refl Hv Hst Hans Hlt Hcoins)).
Defined.

Lemma hint_pays_and_shows_topic_witness :
  awaiting_answer demo_5050_before demo_second_question
  ∧ HINT_COST <= coins demo_5050_before
  ∧ main (press ClickHint 0 demo_rnd) demo_5050_before
    = (Done tt, hint_paid demo_5050_before).
Proof.
  assert (Hcoins : HINT_COST <= coins demo_5050_before)
    by (vm_compute; discriminate).
  split; [exact demo_5050_before_awaits|]. split; [exact Hcoins|].
  exact (proj1 (hint_pays_and_shows_topic (press ClickHint 0 demo_rnd)
                  demo_5050_before demo_second_question eq_refl eq_refl
                  demo_5050_before_awaits Hcoins)).
Defined.


Lemma buy_monster_effect_witness :
  demo_monster ∈ MONSTER_SHOP
  ∧ awaiting_answer demo_rich demo_eighth_question
  ∧ (m_id demo_monster ∉ monsters_owned demo_rich)
  ∧ m_price demo_monster <= coins demo_rich
  ∧ coins demo_rich = 60
  ∧ main (press (ClickBuy (m_id demo_monster)) 0 demo_rnd) demo_rich
    = (Rerun, bought demo_monster demo_rich)
  ∧ coins (bought demo_monster demo_rich)
    = coins demo_rich - m_price demo_monster
  ∧ monsters_owned (bought demo_monster demo_rich)
    = monsters_owned demo_rich ++ [m_id demo_monster].
Proof.
  assert (Hnew : m_id demo_monster ∉ monsters_owned demo_rich).
  { change (monsters_owned demo_rich) with (@nil string).
    apply not_elem_of_nil. }
  assert (Hcoins : m_price demo_monster <= coins demo_rich)
    by (vm_compute; discriminate).
  split; [exact demo_monster_in_shop|]. split; [exact demo_rich_awaits|].
  split; [exact Hnew|]. split; [exact Hcoins|].
  split; [vm_compute; reflexivity|].
  destruct (proj1 (buy_monster_effect
                     (press (ClickBuy (m_id demo_monster)) 0 demo_rnd)
                     demo_rich demo_eighth_question demo_monster eq_refl
                     demo_monster_in_shop eq_refl
                     (or_introl demo_rich_awaits))
              Hnew Hcoins) as (Hmain & Hpaid & Hown & _).
  split; [exact Hmain|]. split; [exact Hpaid|exact Hown].
Defined.

Lemma select_monster_effect_witness :
  demo_monster ∈ MONSTER_SHOP
  ∧ awaiting_answer demo_two_monsters demo_eighth_question
  ∧ monsters_owned demo_two_monsters
    = [m_id demo_monster; m_id demo_second_monster]
  ∧ selected_monster demo_two_monsters = Some (m_id demo_second_monster)
  ∧ main (press (ClickSelect (m_id demo_monster)) 0 demo_rnd) demo_two_monsters
    = (Rerun, set_selected_monster (Some (m_id demo_monster)) demo_two_monsters).
Proof.
  assert (Howned : monsters_owned demo_two_monsters
                   = [m_id demo_monster; m_id demo_second_monster])
    by (vm_compute; reflexivity).
  assert (Hsel : selected_monster demo_two_monsters
                 = Some (m_id demo_second_monster))
    by (vm_compute; reflexivity).
  assert (Hown : m_id demo_monster ∈ monsters_owned demo_two_monsters)
    by (rewrite Howned; by left).
  assert (Hother : selected_monster demo_two_monsters
                   ≠ Some (m_id demo_monster))
    by (rewrite Hsel; discriminate).
  split; [exact demo_monster_in_shop|].
  split; [exact demo_two_monsters_awaits|].
  split; [exact Howned|]. split; [exact Hsel|].
  exact (proj1 (proj1 (select_monster_effect
                         (press (ClickSelect (m_id demo_monster)) 0 demo_rnd)
                         demo_two_monsters demo_eighth_question demo_monster
                         eq_refl demo_monster_in_shop eq_refl
                         (or_introl demo_two_monsters_awaits))
                  Hown Hother)).
Defined.

Lemma play_again_starts_over_witness :
  finished demo_finished
  ∧ (main (press ClickPlayAgain 0 demo_rnd) demo_finished).1 = Rerun
  ∧ len (question_ids (main (press ClickPlayAgain 0 demo_rnd) demo_finished).2)
    = num_questions demo_finished.
Proof.
  split; [exact demo_finished_finished|].
  destruct (play_again_starts_over (press ClickPlayAgain 0 demo_rnd)
              demo_finished eq_refl eq_refl demo_finished_finished)
    as (Hrun & _ & Hlen & _).
  split; [exact Hrun|exact Hlen].
Defined.


(** *** What every reachable session satisfies *)

(** ** Proofs *)

Lemma step_ok_bind {A B} inp P R Q (m : Script A) (f : A -> Script B) :
  step_ok inp P m R -> (∀ a, step_ok inp R (f a) Q) ->
  step_ok inp P (m ≫= f) Q.
Proof.
  intros Hm Hf s Hs. specialize (Hm s Hs). unfold mbind, Script_bind.
  destruct (m s) as [[a| |e] s']; [by apply Hf|done|done].
Qed.

Lemma question_pool_four_options :
  Forall (λ question, length (q_options question) = 4%nat) QUESTION_POOL.
Proof. compute_done. Qed.

Lemma init_state_game_inv : game_inv init_state.
Proof.
  split; [|by left]. split_and!.
  - unfold valid_setting. rewrite question_pool_size. done.
  - split_and!; try done; [apply NoDup_nil_2|]. intros ? []%elem_of_nil.
  - split_and!; done.
  - done.
  - split_and!; try done; [apply NoDup_nil_2|]. intros ? []%elem_of_nil.
  - split; intros []%elem_of_empty.
Qed.

(** A new game: the invariant holds whatever the session was. *)
Lemma fresh_game_inv rnd s :
  valid_setting s -> monsters_inv s -> game_inv (fresh_game rnd s).
Proof.
  intros Hv Hm.
  destruct (fresh_game_question_ids rnd s) as (Hlen & Hnd & Hin).
  assert (Hlen' : len (question_ids (fresh_game rnd s)) = num_questions s).
  { rewrite Hlen. destruct Hv as [Hlo Hhi].
    unfold MIN_QUESTIONS_PER_GAME in Hlo. lia. }
  clear Hlen.
  assert (Hf : q_index (fresh_game rnd s) = 0 ∧ score (fresh_game rnd s) = 0
               ∧ streak (fresh_game rnd s) = 0 ∧ coins (fresh_game rnd s) = 0
               ∧ hints_used (fresh_game rnd s) = 0
               ∧ skips_used (fresh_game rnd s) = 0
               ∧ answered (fresh_game rnd s) = false
               ∧ used_5050 (fresh_game rnd s) = false
               ∧ shop_buys (fresh_game rnd s) = []
               ∧ num_questions (fresh_game rnd s) = num_questions s
               ∧ monsters_owned (fresh_game rnd s) = monsters_owned s
               ∧ selected_monster (fresh_game rnd s) = selected_monster s
               ∧ badges (fresh_game rnd s) = ∅)
    by (split_and!; reflexivity).
  destruct Hf as (Hqi & Hsc & Hst & Hco & Hhi & Hsk & Han & Hus & Hsb & Hnq
                  & Hmo & Hsm & Hba).
  remember (fresh_game rnd s) as s' eqn:Hs'. clear Hs'.
  pose proof Hv as [Hlo Hhi'].
  unfold MIN_QUESTIONS_PER_GAME, MAX_QUESTIONS_PER_GAME in *.
  split.
  - split_and!.
    + unfold valid_setting, MIN_QUESTIONS_PER_GAME, MAX_QUESTIONS_PER_GAME.
      by rewrite Hnq.
    + split_and!; try done; try lia.
      intros _. unfold MIN_QUESTIONS_PER_GAME, MAX_QUESTIONS_PER_GAME. lia.
    + unfold score_inv, answer_bonus. rewrite Han. simpl. lia.
    + intros Hu. congruence.
    + unfold monsters_inv. by rewrite Hmo, Hsm.
    + unfold badge_inv. rewrite Hba. split; intros []%elem_of_empty.
  - left. unfold no_pending_5050. by rewrite Hsb.
Qed.

(** What the power-up shop does, button by button. *)
Lemma powerup_shop_cases inp s :
  powerup_shop inp s = (Done tt, s)
  ∨ (click inp = ClickHint ∧ started s = true ∧ answered s = false
     ∧ HINT_COST <= coins s ∧ powerup_shop inp s = (Done tt, hint_paid s))
  ∨ (click inp = ClickSkip ∧ started s = true ∧ answered s = false
     ∧ SKIP_COST <= coins s ∧ powerup_shop inp s = (Done tt, skip_paid s))
  ∨ (click inp = ClickFiftyFifty ∧ started s = true ∧ answered s = false
     ∧ used_5050 s = false ∧ FIFTY_FIFTY_COST <= coins s
     ∧ powerup_shop inp s = (Done tt, fifty_fifty_paid s)).
Proof.
  destruct (decide (powerup_click (click inp))) as [Hc|Hc].
  - destruct (decide (started s = true ∧ answered s = false)) as [[Hst Hans]|Hoff].
    + destruct Hc as [Hc|[Hc|Hc]].
      * destruct (decide (HINT_COST <= coins s)) as [Hcoins|Hlow].
        -- right. left. split_and!; try done. by apply powerup_shop_hint.
        -- left. apply (powerup_shop_dead _ _ HINT_COST); [by rewrite Hc|by left|].
           left. lia.
      * destruct (decide (SKIP_COST <= coins s)) as [Hcoins|Hlow].
        -- right. right. left. split_and!; try done. by apply powerup_shop_skip.
        -- left. apply (powerup_shop_dead _ _ SKIP_COST);
             [by rewrite Hc|right; by left|]. left. lia.
      * destruct (used_5050 s) eqn:Hused.
        { left. by apply powerup_shop_used_5050. }
        destruct (decide (FIFTY_FIFTY_COST <= coins s)) as [Hcoins|Hlow].
        -- right. right. right. split_and!; try done.
           unfold powerup_shop, st_button. run_script. rewrite Hc.
           unfold FIFTY_FIFTY_COST in *. simpl.
           destruct (Z.ltb_spec (coins s) 5); [lia|].
           by rewrite Hst, Hans, Hused.
        -- left. apply (powerup_shop_dead _ _ FIFTY_FIFTY_COST);
             [by rewrite Hc|right; by right|]. left. lia.
    + left.
      assert (Hdead : started s = false ∨ answered s = true).
      { destruct (started s), (answered s); try (by left); try (by right).
        exfalso. by apply Hoff. }
      destruct Hc as [Hc|[Hc|Hc]].
      * apply (powerup_shop_dead _ _ HINT_COST); [by rewrite Hc|by left|by right].
      * apply (powerup_shop_dead _ _ SKIP_COST);
          [by rewrite Hc|right; by left|by right].
      * apply (powerup_shop_dead _ _ FIFTY_FIFTY_COST);
          [by rewrite Hc|right; by right|by right].
  - left. unfold powerup_shop, st_button. run_script.
    rewrite !bool_decide_eq_false_2; [done|..];
      intros Heq; apply Hc; rewrite Heq; unfold powerup_click; auto.
Qed.

Lemma no_pending_app s s' b :
  b ≠ "50/50" -> used_5050 s' = used_5050 s ->
  shop_buys s' = shop_buys s ++ [b] ->
  no_pending_5050 s -> no_pending_5050 s'.
Proof.
  unfold no_pending_5050. intros Hb -> ->.
  destruct (used_5050 s); [by rewrite !andb_false_r|].
  rewrite !andb_true_r, !bool_decide_eq_false.
  rewrite elem_of_app, list_elem_of_singleton. intros Hno [?|?]; done.
Qed.

Lemma powerup_shop_ok inp : step_ok inp game_inv (powerup_shop inp) game_mid.
Proof.
  intros s [Hcore Hpend].
  destruct (powerup_shop_cases inp s)
    as [->|[(_ & Hst & Hans & Hcoins & ->)
           |[(_ & Hst & Hans & Hcoins & ->)
            |(_ & Hst & Hans & Hused & Hcoins & ->)]]].
  - split; [done|]. destruct Hpend; auto.
  - destruct Hcore as (Hv & Hids & Hsc & Hfair & Hm & Hb). split.
    + split_and!; try done.
      unfold hint_paid, score_inv, answer_bonus, HINT_COST in *. simpl. lia.
    + destruct Hpend as [Hpend|?]; [left|by right; left].
      by apply (no_pending_app s _ "Hint").
  - destruct Hcore as (Hv & Hids & Hsc & Hfair & Hm & Hb). split.
    + split_and!; try done.
      unfold skip_paid, score_inv, answer_bonus, SKIP_COST in *. simpl.
      rewrite Hans in Hsc. simpl in Hsc. lia.
    + destruct Hpend as [Hpend|?]; [left|by right; left].
      by apply (no_pending_app s _ "Skip").
  - destruct Hcore as (Hv & Hids & Hsc & Hfair & Hm & Hb). split.
    + split_and!; try done.
      unfold fifty_fifty_paid, score_inv, answer_bonus, FIFTY_FIFTY_COST in *.
      simpl. lia.
    + right. by right.
Qed.

Lemma game_inv_set_num_questions v s :
  MIN_QUESTIONS_PER_GAME <= v
    <= Z.min MAX_QUESTIONS_PER_GAME (len QUESTION_POOL) ->
  game_inv s -> game_inv (set_num_questions v s).
Proof. intros Hv ((_ & ? & ? & ? & ? & ?) & ?). by split_and!. Qed.

Lemma quiz_settings_ok inp : step_ok inp game_inv (quiz_settings inp) game_inv.
Proof.
  intros s Hinv. pose proof Hinv as ((Hv & _ & _ & _ & Hm & _) & _).
  unfold quiz_settings, st_slider. run_script.
  set (v := default (num_questions s) (slider inp)).
  destruct (Z.leb_spec MIN_QUESTIONS_PER_GAME v) as [Hlo|Hlo]; simpl.
  2:{ split; [done|]. left. split; [done|]. intros Hok.
      destruct (slider inp) as [v'|] eqn:Hsl; simpl in v; subst v.
      - specialize (Hok v' Hsl). lia.
      - destruct Hv. lia. }
  destruct (Z.leb_spec v (Z.min MAX_QUESTIONS_PER_GAME (len QUESTION_POOL)))
    as [Hhi|Hhi]; simpl.
  2:{ split; [done|]. left. split; [done|]. intros Hok.
      destruct (slider inp) as [v'|] eqn:Hsl; simpl in v; subst v.
      - specialize (Hok v' Hsl). lia.
      - destruct Hv. lia. }
  assert (Hinv1 : game_inv (set_num_questions v s))
    by by apply game_inv_set_num_questions.
  unfold st_button. destruct (bool_decide (click inp = ClickNewGame)); simpl;
    [|done].
  assert (Hn0 : 0 <= num_questions (set_num_questions v s)).
  { simpl. unfold MIN_QUESTIONS_PER_GAME in Hlo. lia. }
  rewrite (start_new_game_run _ _ Hn0).
  apply fresh_game_inv; [by split|done].
Qed.

(** What a card of the monster shop does. *)
Lemma monster_card_cases inp monster s :
  monster_card inp monster s = (Done tt, s)
  ∨ (click inp = ClickSelect (m_id monster)
     ∧ m_id monster ∈ monsters_owned s
     ∧ selected_monster s ≠ Some (m_id monster)
     ∧ monster_card inp monster s
       = (Rerun, set_selected_monster (Some (m_id monster)) s))
  ∨ (click inp = ClickBuy (m_id monster)
     ∧ (m_id monster ∉ monsters_owned s) ∧ m_price monster <= coins s
     ∧ monster_card inp monster s = (Rerun, bought monster s)).
Proof.
  destruct (decide (click inp = ClickSelect (m_id monster))) as [Hc|Hc].
  - destruct (decide (m_id monster ∈ monsters_owned s
                      ∧ selected_monster s ≠ Some (m_id monster)))
      as [[Hown Hsel]|Hno].
    + right. left. split_and!; try done. by apply monster_card_selects.
    + left. apply monster_card_select_dead; [done|].
      destruct (decide (m_id monster ∈ monsters_owned s)); [|by left].
      right. destruct (decide (selected_monster s = Some (m_id monster)));
        [done|]. exfalso. by apply Hno.
  - destruct (decide (click inp = ClickBuy (m_id monster))) as [Hb|Hb].
    + destruct (decide (m_id monster ∈ monsters_owned s)) as [Hown|Hnew].
      { left. apply monster_card_refuses; [done|by left]. }
      destruct (decide (m_price monster <= coins s)) as [Hcoins|Hlow].
      * right. right. split_and!; try done. by apply monster_card_buys.
      * left. apply monster_card_refuses; [done|]. right. lia.
    + left. unfold monster_card, st_button. run_script.
      destruct (bool_decide (m_id monster ∈ monsters_owned s));
        [destruct (bool_decide (selected_monster s = _)); [done|]|];
        by rewrite bool_decide_eq_false_2.
Qed.

Lemma monster_card_ok inp monster :
  monster ∈ MONSTER_SHOP ->
  step_ok inp game_inv (monster_card inp monster) game_inv.
Proof.
  intros Hin s Hinv.
  destruct (monster_card_cases inp monster s)
    as [->|[(_ & Hown & _ & ->)|(_ & Hnew & Hcoins & ->)]]; [done|..].
  - destruct Hinv as ((Hv & Hids & Hsc & Hfair & (Hnd & Hsub & Hsel) & Hb) & Hpend).
    split; [|done]. split_and!; try done.
    split_and!; try done. simpl. by intros ? [= <-].
  - destruct Hinv as ((Hv & Hids & Hsc & Hfair & (Hnd & Hsub & Hsel) & Hb) & Hpend).
    split; [|done]. split_and!; [done|done| |done| |].
    + unfold bought, score_inv, answer_bonus in *. simpl. lia.
    + split_and!; simpl.
      * apply NoDup_app. split_and!; [done| |apply NoDup_singleton].
        intros x Hx ->%list_elem_of_singleton. done.
      * intros x [Hx| ->%list_elem_of_singleton]%elem_of_app; [by apply Hsub|].
        by apply list_elem_of_fmap_2.
      * intros ? [= <-]. apply elem_of_app. right. by left.
    + destruct Hb as [Hb1 Hb2]. unfold badge_inv, bought. simpl.
      split; intros [Heq%elem_of_singleton|?]%elem_of_union; auto;
        discriminate.
Qed.

Lemma for_each_cards_ok inp (l : list Monster) :
  (∀ monster, monster ∈ l -> monster ∈ MONSTER_SHOP) ->
  step_ok inp game_inv (for_each (monster_card inp) l) game_inv.
Proof.
  induction l as [|monster l IH]; intros Hl; [by intros s Hs|].
  simpl. apply (step_ok_bind _ _ game_inv).
  - apply monster_card_ok, Hl. by left.
  - intros _. apply IH. intros m Hm. apply Hl. by right.
Qed.

Lemma monster_shop_ok inp : step_ok inp game_inv (monster_shop inp) game_inv.
Proof. by apply for_each_cards_ok. Qed.

Lemma advanced_inv s :
  game_core s -> q_index s < len (question_ids s) -> game_inv (advanced s).
Proof.
  intros (Hv & Hids & Hsc & Hfair & Hm & Hb) Hlt. split; [|by left].
  split_and!; try done.
  - destruct Hids as (Hq & Hnd & Hin & Hst). split_and!; try done; simpl; lia.
  - unfold score_inv, answer_bonus in *. simpl.
    destruct (answered s && bool_decide (last_correct s = Some true)); lia.
Qed.

Lemma question_on_screen s :
  ids_inv s -> q_index s < len (question_ids s) ->
  ∃ question, current_question s = Some question ∧ question ∈ QUESTION_POOL.
Proof.
  intros (Hq & _ & Hin & _) Hlt.
  destruct (py_index_nonneg (question_ids s) (q_index s)) as (question_id & Hid & Hmem);
    [lia|].
  destruct (lookup_question QUESTION_POOL question_id (Hin _ Hmem))
    as (question & Hhead & Hpool & _).
  exists question. split; [|done]. unfold current_question. by rewrite Hid.
Qed.

Lemma question_screen_pending inp s question :
  current_question s = Some question -> ¬ no_pending_5050 s ->
  question_screen inp (q_index s) s
  = question_screen inp (q_index s)
      (fifty_fifty_taken (draws inp) question s)
  ∧ no_pending_5050 (fifty_fifty_taken (draws inp) question s)
  ∧ current_question (fifty_fifty_taken (draws inp) question s)
    = Some question.
Proof.
  intros Hq Hpend.
  assert (Hpending : bool_decide ("50/50" ∈ shop_buys s) && negb (used_5050 s)
                     = true).
  { unfold no_pending_5050 in Hpend. by destruct (_ && _). }
  set (s1 := fifty_fifty_taken (draws inp) question s).
  assert (Hs1 : s1 = set_used_5050 true
            (set_eliminated_options
               (list_to_set
                  (sample_pool (draws inp) 0 (wrong_indices question)
                     (Z.to_nat (2 `min` len (wrong_indices question)))))
               (set_shop_buys (py_remove "50/50" (shop_buys s)) s))).
  { unfold s1, fifty_fifty_taken. by rewrite apply_5050_run. }
  assert (Hq1 : current_question s1 = Some question) by (by rewrite Hs1).
  assert (Hno : no_pending_5050 s1).
  { rewrite Hs1. unfold no_pending_5050. simpl. by rewrite andb_false_r. }
  split_and!; [|done|done].
  assert (Hqi : q_index s1 = q_index s) by (by rewrite Hs1).
  transitivity (question_screen inp (q_index s1) s1); [|by rewrite Hqi].
  rewrite (question_screen_shown inp s1 question Hq1 Hno).
  pose proof Hq as (question_id & Hid & Hhead)%current_question_Some.
  unfold question_screen, get_question_by_id.
  change ((get_state ≫= ?f) s) with (f s s). cbv beta. rewrite Hid.
  rewrite (bind_done _ _ s question_id s) by done. rewrite Hhead.
  rewrite (bind_done _ _ s question s) by done.
  rewrite Hpending. unfold when at 1.
  rewrite (bind_done _ _ s tt s1).
  2:{ rewrite Hs1. run_script. simpl. by rewrite apply_5050_run. }
  by rewrite (bind_done _ _ _ _ _ (get_visible_option_indices_run _ _)).
Qed.

Lemma answered_right_inv s :
  game_inv s -> answered s = false -> q_index s < len (question_ids s) ->
  game_inv (answered_right s).
Proof.
  intros ((Hv & Hids & Hsc & Hfair & Hm & Hb) & Hpend) Hans Hlt.
  split; [|done]. split_and!; try done.
  - unfold answered_right, score_inv, answer_bonus, BASE_COIN_REWARD,
      MAX_STREAK_BONUS in *.
    rewrite Hans in Hsc. simpl in *. lia.
  - destruct Hb as [Hb1 Hb2]. unfold badge_inv, answered_right. simpl.
    split; intros Hin; [specialize (Hb1 Hin)|specialize (Hb2 Hin)]; lia.
Qed.

Lemma answered_wrong_inv s :
  game_inv s -> answered s = false -> game_inv (answered_wrong s).
Proof.
  intros ((Hv & Hids & Hsc & Hfair & Hm & Hb) & Hpend) Hans.
  split; [|done]. split_and!; try done.
  unfold answered_wrong, score_inv, answer_bonus in *.
  rewrite Hans in Hsc. simpl in *. lia.
Qed.

Lemma question_screen_settled_ok inp s question :
  game_inv s -> q_index s < len (question_ids s) ->
  current_question s = Some question -> no_pending_5050 s ->
  outcome_ok inp (question_screen inp (q_index s) s).
Proof.
  intros Hinv Hlt Hq Hno.
  destruct (decide (click inp = ClickSubmit ∧ answered s = false))
    as [[Hc Hans]|Hns].
  - rewrite (question_screen_submit inp s question) by done.
    destruct (visible_rows s question !! radio inp) as [chosen|] eqn:Hrow.
    + destruct (decide (chosen = q_answer_idx question)) as [->|Hne].
      * rewrite submit_answer_correct by done.
        by apply answered_right_inv.
      * rewrite (submit_answer_wrong _ _ _ _ chosen) by done.
        by apply answered_wrong_inv.
    + rewrite submit_answer_bad_row by done. split; [done|].
      right. split_and!; try done. by exists question.
  - destruct (decide (click inp = ClickNext ∧ answered s = true))
      as [[Hc Hans]|Hnn].
    + rewrite (question_screen_next inp s question) by done.
      apply advanced_inv; [by destruct Hinv|done].
    + rewrite (question_screen_shown inp s question) by done.
      unfold st_button.
      destruct (decide (click inp = ClickSubmit)) as [Hc|Hc].
      * rewrite Hc. simpl.
        destruct (answered s) eqn:Hans; [done|]. exfalso. by apply Hns.
      * rewrite (bool_decide_eq_false_2 (click inp = ClickSubmit)) by done.
        run_script. simpl.
        destruct (decide (click inp = ClickNext)) as [Hc'|Hc'].
        -- rewrite Hc'. simpl.
           destruct (answered s) eqn:Hans; [|done]. exfalso. by apply Hnn.
        -- by rewrite bool_decide_eq_false_2.
Qed.

Lemma fifty_fifty_taken_inv rnd s question :
  game_mid s -> current_question s = Some question ->
  game_inv (fifty_fifty_taken rnd question s).
Proof.
  intros ((Hv & Hids & Hsc & Hfair & Hm & Hb) & _) Hq.
  pose proof (current_question_in_pool s question Hq) as Hwf.
  unfold fifty_fifty_taken.
  destruct (visible_after_5050 rnd question
              (set_shop_buys (py_remove "50/50" (shop_buys s)) s) Hwf)
    as (Hvis & Hlen & _ & _).
  assert (Hf : ∀ s1, s1 = (apply_5050 rnd question
                  (set_shop_buys (py_remove "50/50" (shop_buys s)) s)).2 ->
     num_questions s1 = num_questions s ∧ question_ids s1 = question_ids s
     ∧ q_index s1 = q_index s ∧ started s1 = started s ∧ score s1 = score s
     ∧ streak s1 = streak s ∧ answered s1 = answered s
     ∧ last_correct s1 = last_correct s ∧ hints_used s1 = hints_used s
     ∧ skips_used s1 = skips_used s ∧ coins s1 = coins s
     ∧ monsters_owned s1 = monsters_owned s
     ∧ selected_monster s1 = selected_monster s ∧ used_5050 s1 = true
     ∧ badges s1 = badges s).
  { intros s1 ->. rewrite apply_5050_run. split_and!; reflexivity. }
  specialize (Hf _ eq_refl).
  destruct Hf as (Hnq & Hqids & Hqi & Hst & Hsco & Hstr & Hans & Hlc & Hh & Hsk
                  & Hco & Hmo & Hsm & Hused & Hba).
  remember (apply_5050 rnd question
              (set_shop_buys (py_remove "50/50" (shop_buys s)) s)).2 as s1
    eqn:Hs1. clear Hs1.
  split.
  - split_and!.
    + unfold valid_setting. by rewrite Hnq.
    + unfold ids_inv. by rewrite Hqids, Hqi, Hst.
    + unfold score_inv, answer_bonus in *.
      by rewrite Hqids, Hqi, Hsco, Hstr, Hans, Hlc, Hh, Hsk, Hco.
    + intros _. exists question. split_and!; try done.
      unfold current_question in *. by rewrite Hqids, Hqi.
    + unfold monsters_inv. by rewrite Hmo, Hsm.
    + unfold badge_inv. by rewrite Hba, Hsco.
  - left. unfold no_pending_5050. by rewrite Hused, andb_false_r.
Qed.

Lemma awarded_badge_inv s :
  badge_inv s -> badge_inv (set_badges (awarded s) s).
Proof.
  intros [Hb1 Hb2]. unfold badge_inv, awarded. simpl.
  rewrite !elem_of_add_if.
  split; intros [[_ ?]|[[_ ?]|[[_ ?]|[[Hc ?]|[[Hc ?]|?]]]]];
    try discriminate; try (by apply Z.leb_le); auto.
Qed.

Lemma quiz_area_ok inp : step_ok inp game_mid (quiz_area inp) game_inv.
Proof.
  intros s Hmid. pose proof Hmid as (Hcore & Hpend).
  pose proof Hcore as (Hv & Hids & Hsc & Hfair & Hm & Hb).
  change (outcome_ok inp (quiz_area inp s)).
  destruct (started s) eqn:Hst.
  2:{ unfold quiz_area. run_script. rewrite Hst. simpl. split; [done|].
      destruct Hpend as [?|[?|?]]; [by left|by right|done]. }
  destruct (skip_pending s) eqn:Hskip.
  { rewrite quiz_area_skip by done. simpl. apply advanced_inv; [done|].
    unfold skip_pending in Hskip.
    apply andb_true_iff in Hskip as [_ Hlt]. by apply Z.ltb_lt in Hlt. }
  destruct (decide (q_index s < len (question_ids s))) as [Hlt|Hge].
  - rewrite quiz_area_question by done.
    destruct (question_on_screen s Hids Hlt) as (question & Hq & _).
    destruct (decide (no_pending_5050 s)) as [Hno|Hyes].
    + apply (question_screen_settled_ok inp s question); try done.
      split; [done|by left].
    + destruct (question_screen_pending inp s question Hq Hyes)
        as (-> & Hno1 & Hq1).
      pose proof (fifty_fifty_taken_inv (draws inp) s question Hmid Hq) as Hinv1.
      assert (Hqi : q_index (fifty_fifty_taken (draws inp) question s)
                    = q_index s
                    ∧ question_ids (fifty_fifty_taken (draws inp) question s)
                      = question_ids s).
      { unfold fifty_fifty_taken. by rewrite apply_5050_run. }
      destruct Hqi as [Hqi Hqids]. rewrite <- Hqi.
      apply (question_screen_settled_ok inp _ question); try done.
      by rewrite Hqi, Hqids.
  - rewrite quiz_area_results by (done || lia).
    destruct Hids as (Hq & Hnd & Hin & Hlen). specialize (Hlen Hst).
    unfold MIN_QUESTIONS_PER_GAME in Hlen.
    assert (Hinv1 : game_inv (set_badges (awarded s) s)).
    { split; [split_and!; try done; by apply awarded_badge_inv|].
      right. simpl. lia. }
    destruct (decide (click inp = ClickPlayAgain)) as [Hc|Hc].
    + rewrite results_screen_play_again; [|done|lia|].
      * apply fresh_game_inv; done.
      * destruct Hv as [Hlo _]. unfold MIN_QUESTIONS_PER_GAME in Hlo. lia.
    + unfold results_screen.
      rewrite (bind_done _ _ s tt _ (award_badges_run s)).
      rewrite (bind_done _ _ _ tt (set_badges (awarded s) s)).
      2:{ unfold when. destruct (Z.eqb_spec (len (question_ids s)) 0); [lia|done]. }
      unfold st_button. by rewrite bool_decide_eq_false_2.
Qed.

Lemma main_ok inp : step_ok inp game_inv (main inp) game_inv.
Proof.
  unfold main.
  apply (step_ok_bind _ _ game_inv); [apply quiz_settings_ok|intros _].
  apply (step_ok_bind _ _ game_mid); [apply powerup_shop_ok|intros _].
  apply (step_ok_bind _ _ game_inv); [apply quiz_area_ok|intros _].
  apply monster_shop_ok.
Qed.

Lemma main_outcome_ok inp s : game_inv s -> outcome_ok inp (main inp s).
Proof.
  intros Hinv. pose proof (main_ok inp s Hinv) as H. unfold outcome_ok.
  by destruct (main inp s) as [[[]| |e] s'].
Qed.

Lemma reachable_game_inv s : reachable s -> game_inv s.
Proof.
  induction 1 as [|inp s Hs IH]; [apply init_state_game_inv|].
  pose proof (main_outcome_ok inp s IH) as H.
  destruct (main inp s) as [[[]| |e] s']; simpl in *; tauto.
Qed.

(** *** Reachable sessions *)

Lemma current_question_pool s question :
  current_question s = Some question -> question ∈ QUESTION_POOL.
Proof.
  intros (question_id & _ & Hhead)%current_question_Some.
  by apply head_filter_some in Hhead as [_ ?].
Qed.

(** On a question screen between two runs the right answer is on screen,
    among at least two options. *)
Lemma question_visible s question :
  game_inv s -> current_question s = Some question ->
  q_answer_idx question ∈ visible_rows s question
  ∧ 2 <= len (visible_rows s question).
Proof.
  intros ((_ & _ & _ & Hfair & _) & _) Hq.
  pose proof (current_question_pool s question Hq) as Hpool.
  pose proof question_pool_four_options as H4.
  rewrite Forall_forall in H4. specialize (H4 _ Hpool).
  pose proof (current_question_in_pool s question Hq) as Hwf.
  destruct (used_5050 s) eqn:Hused.
  - destruct (Hfair Hused) as (question' & Hq' & Hin & Hlen).
    assert (question' = question) by congruence. subst question'.
    split; [done|]. rewrite Hlen. unfold len. rewrite H4. lia.
  - unfold visible_rows. rewrite Hused. simpl. split.
    + apply elem_of_range. unfold len in Hwf. lia.
    + unfold len. rewrite length_range, H4. lia.
Qed.



(** X16.  In every state the page can reach, the owned monsters are distinct
    monsters of the shop, and the selected monster, when there is one, is an
    owned one that [get_monster] finds: the header card never misses its
    monster. *)
Theorem reachable_monsters_consistent s :
  reachable s ->
  NoDup (monsters_owned s)
  ∧ (∀ monster_id, monster_id ∈ monsters_owned s ->
       ∃ monster, get_monster monster_id = Some monster
                  ∧ m_id monster = monster_id)
  ∧ (∀ monster_id, selected_monster s = Some monster_id ->
       monster_id ∈ monsters_owned s
       ∧ ∃ monster, get_monster monster_id = Some monster
                    ∧ m_id monster = monster_id).
Proof.
  intros Hs. apply reachable_game_inv in Hs
    as ((_ & _ & _ & _ & (Hnd & Hsub & Hsel) & _) & _).
  assert (Hfind : ∀ monster_id, monster_id ∈ monsters_owned s ->
            ∃ monster, get_monster monster_id = Some monster
                       ∧ m_id monster = monster_id).
  { intros monster_id Hown.
    destruct (proj1 (list_elem_of_fmap _ _ _) (Hsub _ Hown))
      as (monster & -> & Hin).
    exists monster. split; [|done].
    apply (head_filter_unique m_id); [apply monster_ids_NoDup|done]. }
  split_and!; [done|done|].
  intros monster_id Hsome. split; [by apply Hsel|]. by apply Hfind, Hsel.
Qed.

Lemma reachable_monsters_consistent_witness :
  reachable demo_two_monsters
  ∧ monsters_owned demo_two_monsters
    = [m_id demo_monster; m_id demo_second_monster]
  ∧ selected_monster demo_two_monsters = Some (m_id demo_second_monster)
  ∧ NoDup (monsters_owned demo_two_monsters)
  ∧ m_id demo_second_monster ∈ monsters_owned demo_two_monsters
  ∧ ∃ monster, get_monster (m_id demo_second_monster) = Some monster
               ∧ m_id monster = m_id demo_second_monster.
Proof.
  assert (Hsel : selected_monster demo_two_monsters
                 = Some (m_id demo_second_monster))
    by (vm_compute; reflexivity).
  split; [exact reachable_demo_two_monsters|].
  split; [vm_compute; reflexivity|]. split; [exact Hsel|].
  destruct (reachable_monsters_consistent demo_two_monsters
              reachable_demo_two_monsters) as (Hnd & _ & Hselected).
  split; [exact Hnd|]. exact (Hselected _ Hsel).
Defined.

(** X17.  Whenever the page can show a question, the question is one of the
    bank, its right answer is among the options on screen, whether or not
    50/50 was applied, at least two options are on screen, some radio row
    selects the right answer, and no bought 50/50 is still waiting to be
    applied. *)
Theorem question_always_answerable s :
  reachable s -> started s = true -> q_index s < len (question_ids s) ->
  ∃ question,
    current_question s = Some question
    ∧ question ∈ QUESTION_POOL
    ∧ q_answer_idx question ∈ visible_rows s question
    ∧ 2 <= len (visible_rows s question)
    ∧ (∃ row : nat,
         visible_rows s question !! row = Some (q_answer_idx question))
    ∧ no_pending_5050 s.
Proof.
  intros Hs Hst Hlt. apply reachable_game_inv in Hs.
  pose proof Hs as ((_ & Hids & _) & Hpend).
  destruct (question_on_screen s Hids Hlt) as (question & Hq & Hpool).
  destruct (question_visible s question Hs Hq) as [Hin Hlen].
  exists question. split_and!; try done.
  - by apply list_elem_of_lookup_1.
  - destruct Hpend as [?|?]; [done|lia].
Qed.

Lemma question_always_answerable_witness :
  reachable demo_waiting
  ∧ started demo_waiting = true
  ∧ q_index demo_waiting < len (question_ids demo_waiting)
  ∧ ∃ question,
      current_question demo_waiting = Some question
      ∧ q_answer_idx question ∈ visible_rows demo_waiting question.
Proof.
  assert (Hr : reachable demo_waiting)
    by exact (reachable_start_game 7 demo_rnd init_state reachable_init).
  destruct demo_waiting_awaits as (Hst & _ & Hlt & _).
  do 3 (split; [assumption|]).
  destruct (question_always_answerable demo_waiting Hr Hst Hlt)
    as (question & Hq & _ & Hin & _).
  exists question. split; [exact Hq|exact Hin].
Defined.

(** X18.  A run from a state the page can reach raises in two cases only:
    [StreamlitAPIException], when the slider is given a position it does not
    offer, and [IndexError], when Submit is pressed with a radio row of 2 or
    more that is not on screen.  It never raises [KeyError], [ValueError] or
    [ZeroDivisionError]; and with the slider left alone or in range and the
    radio on row 0 or 1 it raises nothing at all. *)
Theorem run_raises_only_on_bad_input inp s :
  reachable s ->
  (∀ e, (main inp s).1 = Raise e ->
     (e = StreamlitAPIException ∧ ¬ slider_ok inp)
     ∨ (e = IndexError ∧ click inp = ClickSubmit ∧ (2 <= radio inp)%nat
        ∧ ∃ question,
            current_question (main inp s).2 = Some question
            ∧ visible_rows (main inp s).2 question !! radio inp = None))
  ∧ (slider_ok inp -> (radio inp < 2)%nat ->
     ∀ e, (main inp s).1 ≠ Raise e).
Proof.
  intros Hs. apply reachable_game_inv in Hs.
  pose proof (main_outcome_ok inp s Hs) as Hok.
  assert (Hraise : ∀ e, (main inp s).1 = Raise e ->
     (e = StreamlitAPIException ∧ ¬ slider_ok inp)
     ∨ (e = IndexError ∧ click inp = ClickSubmit ∧ (2 <= radio inp)%nat
        ∧ ∃ question,
            current_question (main inp s).2 = Some question
            ∧ visible_rows (main inp s).2 question !! radio inp = None)).
  { intros e He. destruct (main inp s) as [[[]| |e'] s'] eqn:Hmain;
      simpl in He; try done. injection He as ->.
    destruct Hok as [Hinv [Hbad|(-> & Hc & question & Hq & Hrow)]]; [by left|].
    right. split_and!; try done; [|by exists question].
    destruct (question_visible s' question Hinv Hq) as [_ Hlen].
    apply lookup_ge_None in Hrow. unfold len in Hlen. simpl. lia. }
  split; [done|]. intros Hsl Hrow e He.
  destruct (Hraise e He) as [[_ Hbad]|(_ & _ & Hge & _)]; [done|lia].
Qed.

Lemma run_raises_only_on_bad_input_witness :
  reachable init_state
  ∧ (main {| slider := Some 0; click := NoClick; radio := 0;
             draws := demo_rnd |} init_state).1
    = Raise StreamlitAPIException
  ∧ ¬ slider_ok {| slider := Some 0; click := NoClick; radio := 0;
                   draws := demo_rnd |}.
Proof.
  split; [exact reachable_init|]. split; [reflexivity|].
  destruct (proj1 (run_raises_only_on_bad_input
                     {| slider := Some 0; click := NoClick; radio := 0;
                        draws := demo_rnd |} init_state reachable_init)
              StreamlitAPIException eq_refl)
    as [[_ Hbad]|[Hne _]]; [exact Hbad|discriminate Hne].
Defined.

(** X19.  The score badges are honest.  In every state the page can reach,
    PEP Apprentice is held only with a score of at least 5 and PEP Pro only
    with a score of at least 7.  Once the results screen has been rendered
    the converse holds too: Apprentice is held exactly when the score is at
    least 5, Pro exactly when it is at least 7 (so whoever holds Pro holds
    Apprentice), and a game finished without a hint has No-Hint Hero. *)
Theorem score_badges_match_score inp s :
  reachable s ->
  (BADGE_APPRENTICE ∈ badges s -> BADGE_SCORE_APPRENTICE <= score s)
  ∧ (BADGE_PRO ∈ badges s -> BADGE_SCORE_PRO <= score s)
  ∧ (slider inp = None -> click inp = NoClick -> finished s ->
     let s' := (main inp s).2 in
     (BADGE_APPRENTICE ∈ badges s' ↔ BADGE_SCORE_APPRENTICE <= score s')
     ∧ (BADGE_PRO ∈ badges s' ↔ BADGE_SCORE_PRO <= score s')
     ∧ (BADGE_PRO ∈ badges s' -> BADGE_APPRENTICE ∈ badges s')
     ∧ (hints_used s' = 0 -> BADGE_NO_HINT_HERO ∈ badges s')).
Proof.
  intros Hs. apply reachable_game_inv in Hs.
  pose proof Hs as ((_ & (Hq & _) & _ & _ & _ & Hb1 & Hb2) & _).
  split; [done|]. split; [done|].
  intros Hsl Hc (Hst & Hfin & Hv). cbv zeta.
  rewrite main_idle_finished by done. cbn [snd].
  change (score (set_badges (awarded s) s)) with (score s).
  change (hints_used (set_badges (awarded s) s)) with (hints_used s).
  change (badges (set_badges (awarded s) s)) with (awarded s).
  assert (Ha : BADGE_APPRENTICE ∈ awarded s ↔ BADGE_SCORE_APPRENTICE <= score s).
  { unfold awarded. rewrite !elem_of_add_if. split.
    - intros [[_ ?]|[[_ ?]|[[_ ?]|[[_ ?]|[[? _]|?]]]]];
        try discriminate; [by apply Z.leb_le|by apply Hb1].
    - intros Hle. do 4 right. left. split; [by apply Z.leb_le|done]. }
  assert (Hp : BADGE_PRO ∈ awarded s ↔ BADGE_SCORE_PRO <= score s).
  { unfold awarded. rewrite !elem_of_add_if. split.
    - intros [[_ ?]|[[_ ?]|[[_ ?]|[[? _]|[[_ ?]|?]]]]];
        try discriminate; [by apply Z.leb_le|by apply Hb2].
    - intros Hle. do 3 right. left. split; [by apply Z.leb_le|done]. }
  split_and!; [done|done| |].
  - rewrite Ha, Hp. unfold BADGE_SCORE_APPRENTICE, BADGE_SCORE_PRO. lia.
  - intros Hh. unfold awarded. rewrite !elem_of_add_if. right. left.
    split; [|done]. apply andb_true_iff. split; [by apply Z.eqb_eq|].
    apply Z.eqb_eq. lia.
Qed.

Lemma score_badges_match_score_witness :
  reachable demo_finished
  ∧ finished demo_finished
  ∧ (BADGE_APPRENTICE ∈ badges (main (press NoClick 0 demo_rnd) demo_finished).2
     ↔ BADGE_SCORE_APPRENTICE
       <= score (main (press NoClick 0 demo_rnd) demo_finished).2).
Proof.
  assert (Hr : reachable demo_finished).
  { apply reachable_play_rounds.
    exact (reachable_start_game 3 demo_rnd init_state reachable_init). }
  split; [exact Hr|]. split; [exact demo_finished_finished|].
  exact (proj1 (proj2 (proj2 (score_badges_match_score
                                 (press NoClick 0 demo_rnd) demo_finished Hr))
                  eq_refl eq_refl demo_finished_finished)).
Defined.


(** *** Where coins come from *)

Lemma start_new_game_at_most rnd c :
  preserves (coins_at_most c) (start_new_game rnd).
Proof.
  intros s [Hc _]. unfold start_new_game, coins_at_most. run_script. simpl.
  by destruct (random_sample _ _ _).
Qed.

Lemma quiz_settings_at_most inp c :
  preserves (coins_at_most c) (quiz_settings inp).
Proof.
  unfold quiz_settings. apply preserves_get_bind. intros s Hs.
  refine (preserves_bind _ _ _ _ _ s Hs).
  { unfold st_slider. cbv zeta.
    destruct (_ && _); [apply preserves_ret | apply preserves_raise]. }
  intros v. apply preserves_bind.
  { apply preserves_modify. intros s1 Hs1; exact Hs1. }
  intros _. apply preserves_when, preserves_bind;
    [apply start_new_game_at_most|intros _; apply preserves_stop].
Qed.

Lemma powerup_shop_at_most inp c :
  preserves (coins_at_most c) (powerup_shop inp).
Proof.
  intros s [Hc Hs].
  destruct (powerup_shop_cases inp s)
    as [->|[(_ & _ & _ & _ & ->)|[(_ & _ & _ & _ & ->)|(_ & _ & _ & _ & _ & ->)]]];
    split; try done; simpl;
    unfold HINT_COST, SKIP_COST, FIFTY_FIFTY_COST; lia.
Qed.

Lemma quiz_area_at_most inp c :
  click inp ≠ ClickSubmit -> preserves (coins_at_most c) (quiz_area inp).
Proof.
  intros Hsub. unfold quiz_area. apply preserves_get_bind. intros s Hs.
  destruct (negb (started s)); [exact Hs|]. cbv zeta.
  refine (preserves_bind _ _ _ _ _ s Hs).
  { apply preserves_when. intros s1 Hs1. exact Hs1. }
  intros _. destruct (_ <=? _).
  - unfold results_screen. apply preserves_bind.
    { intros s1 Hs1. by rewrite award_badges_run. }
    intros _. apply preserves_bind; [apply preserves_when, preserves_raise|].
    intros _. apply preserves_when, preserves_bind;
      [apply start_new_game_at_most|intros _; apply preserves_stop].
  - unfold question_screen. apply preserves_get_bind. intros s1 Hs1.
    refine (preserves_bind _ _ _ _ _ s1 Hs1); [apply preserves_or_raise|].
    intros question_id. apply preserves_bind; [apply preserves_or_raise|].
    intros question. apply preserves_bind.
    { apply preserves_when, preserves_bind; [by apply preserves_modify|].
      intros _ s2 Hs2. by rewrite apply_5050_run. }
    intros _. apply preserves_bind.
    { intros s2 Hs2. by rewrite get_visible_option_indices_run. }
    intros option_indices. apply preserves_get_bind. intros s2 Hs2.
    refine (preserves_bind _ _ _ _ _ s2 Hs2).
    { unfold st_button. rewrite bool_decide_eq_false_2 by done.
      apply preserves_ret. }
    intros _. apply preserves_get_bind. intros s3 Hs3.
    refine (preserves_when _ _ _ _ s3 Hs3). intros s4 Hs4. exact Hs4.
Qed.

Lemma monster_prices_nonneg :
  Forall (λ monster, 0 <= m_price monster) MONSTER_SHOP.
Proof. compute_done. Qed.

Lemma for_each_cards_at_most inp c (l : list Monster) :
  Forall (λ monster, 0 <= m_price monster) l ->
  preserves (coins_at_most c) (for_each (monster_card inp) l).
Proof.
  induction 1 as [|monster l Hp _ IH]; [apply preserves_ret|].
  simpl. apply preserves_bind; [|intros _; exact IH].
  intros s [Hc Hs].
  destruct (monster_card_cases inp monster s)
    as [->|[(_ & _ & _ & ->)|(_ & _ & _ & ->)]]; split; try done.
  simpl. lia.
Qed.

Lemma main_at_most inp c :
  click inp ≠ ClickSubmit -> preserves (coins_at_most c) (main inp).
Proof.
  intros Hsub. unfold main.
  apply preserves_bind; [apply quiz_settings_at_most|intros _].
  apply preserves_bind; [apply powerup_shop_at_most|intros _].
  apply preserves_bind; [by apply quiz_area_at_most|intros _].
  apply for_each_cards_at_most, monster_prices_nonneg.
Qed.

(** Submit *)

Lemma submit_answer_rewarded inp question option_indices c :
  hoare (purse c) (submit_answer inp question option_indices) (rewarded c).
Proof.
  intros s [Hc Hstreak]. unfold submit_answer, coins_for_correct, rewarded.
  run_script.
  destruct (option_indices !! radio inp) as [chosen|]; simpl; [|by left].
  unfold BASE_COIN_REWARD, MAX_STREAK_BONUS.
  destruct (bool_decide _); simpl; [right; lia|by left].
Qed.

Lemma purse_rewarded c s : purse c s -> rewarded c s.
Proof. intros [? _]. by left. Qed.

Lemma quiz_area_rewarded inp c :
  click inp = ClickSubmit -> hoare (purse c) (quiz_area inp) (rewarded c).
Proof.
  intros Hsub s Hs. unfold quiz_area.
  change ((get_state ≫= ?f) s) with (f s s). cbv beta.
  destruct (negb (started s)); [by apply purse_rewarded|]. cbv zeta.
  refine (hoare_bind (purse c) (purse c) _ _ _ _ (purse_rewarded c) _ s Hs).
  { apply preserves_hoare, preserves_when. intros s1 Hs1. exact Hs1. }
  intros _. destruct (_ <=? _).
  - unfold results_screen.
    refine (hoare_bind (purse c) (purse c) _ _ _ _ (purse_rewarded c) _).
    { intros s1 Hs1. by rewrite award_badges_run. }
    intros _. refine (hoare_bind (purse c) (purse c) _ _ _ _ (purse_rewarded c) _).
    { apply preserves_hoare, preserves_when, preserves_raise. }
    intros _. unfold st_button. rewrite Hsub. simpl.
    intros s1 Hs1. by apply purse_rewarded.
  - unfold question_screen. intros s1 Hs1.
    change ((get_state ≫= ?f) s1) with (f s1 s1). cbv beta.
    refine (hoare_bind (purse c) (purse c) _ _ _ _ (purse_rewarded c) _ s1 Hs1).
    { apply preserves_hoare, preserves_or_raise. }
    intros question_id.
    refine (hoare_bind (purse c) (purse c) _ _ _ _ (purse_rewarded c) _).
    { apply preserves_hoare, preserves_or_raise. }
    intros question.
    refine (hoare_bind (purse c) (purse c) _ _ _ _ (purse_rewarded c) _).
    { apply preserves_hoare, preserves_when, preserves_bind;
        [by apply preserves_modify|].
      intros _ s2 Hs2. by rewrite apply_5050_run. }
    intros _.
    refine (hoare_bind (purse c) (purse c) _ _ _ _ (purse_rewarded c) _).
    { intros s2 Hs2. by rewrite get_visible_option_indices_run. }
    intros option_indices s2 Hs2.
    change ((get_state ≫= ?f) s2) with (f s2 s2). cbv beta.
    refine (hoare_bind (purse c) (rewarded c) _ _ _ _ (λ _ H, H) _ s2 Hs2).
    { unfold when. destruct (st_button _ _ _);
        [apply submit_answer_rewarded|exact (purse_rewarded c)]. }
    intros _ s3 Hs3. change ((get_state ≫= ?f) s3) with (f s3 s3). cbv beta.
    unfold st_button. rewrite Hsub. simpl. exact Hs3.
Qed.

Lemma main_rewarded inp c :
  click inp = ClickSubmit -> hoare (purse c) (main inp) (rewarded c).
Proof.
  intros Hsub. unfold main.
  refine (hoare_bind (purse c) (purse c) _ _ _ _ (purse_rewarded c) _).
  { unfold quiz_settings. apply preserves_hoare, preserves_get_bind.
    intros s Hs. refine (preserves_bind _ _ _ _ _ s Hs).
    { unfold st_slider. cbv zeta.
      destruct (_ && _); [apply preserves_ret | apply preserves_raise]. }
    intros v. apply preserves_bind.
    { apply preserves_modify. intros s1 Hs1; exact Hs1. }
    intros _. unfold st_button. rewrite Hsub. simpl. apply preserves_ret. }
  intros _. refine (hoare_bind (purse c) (purse c) _ _ _ _ (purse_rewarded c) _).
  { intros s Hs. rewrite powerup_shop_idle; [done|by rewrite Hsub]. }
  intros _. refine (hoare_bind (purse c) (rewarded c) _ _ _ _ (λ _ H, H) _).
  { by apply quiz_area_rewarded. }
  intros _ s Hs. rewrite monster_shop_idle; [done|..];
    intros monster_id; by rewrite Hsub.
Qed.

(** X20.  Coins are earned by answering and in no other way.  From a state
    with a balance and a streak that are not negative, a run in which any
    button but Submit is pressed, or none, never raises the balance; a run
    with Submit pressed leaves the balance as it is or adds one reward of 6
    to 10 coins. *)
Theorem coins_only_earned_by_submit inp s :
  0 <= coins s -> 0 <= streak s ->
  (click inp ≠ ClickSubmit -> coins (main inp s).2 <= coins s)
  ∧ (click inp = ClickSubmit ->
     coins (main inp s).2 = coins s
     ∨ coins s + 6 <= coins (main inp s).2 <= coins s + 10).
Proof.
  intros Hc Hstreak. split.
  - intros Hsub.
    by destruct (main_at_most inp (coins s) Hsub s (conj Hc (Z.le_refl _))).
  - intros Hsub.
    destruct (main_rewarded inp (coins s) Hsub s (conj eq_refl Hstreak))
      as [?|Hr]; [by left|right].
    unfold BASE_COIN_REWARD, MAX_STREAK_BONUS in Hr. lia.
Qed.

Lemma coins_only_earned_by_submit_witness :
  0 <= coins demo_rich
  ∧ 0 <= streak demo_rich
  ∧ click (press ClickSubmit (correct_row demo_rich) demo_rnd) = ClickSubmit
  ∧ (coins (main (press ClickSubmit (correct_row demo_rich) demo_rnd)
              demo_rich).2 = coins demo_rich
     ∨ coins demo_rich + 6
       <= coins (main (press ClickSubmit (correct_row demo_rich) demo_rnd)
                   demo_rich).2
       <= coins demo_rich + 10)
  ∧ coins (main (press ClickSubmit (correct_row demo_rich) demo_rnd)
             demo_rich).2 = coins demo_rich + 10.
Proof.
  assert (Hc : 0 <= coins demo_rich) by (vm_compute; discriminate).
  assert (Hs : 0 <= streak demo_rich) by (vm_compute; discriminate).
  split; [exact Hc|]. split; [exact Hs|]. split; [reflexivity|].
  split; [|vm_compute; reflexivity].
  exact (proj2 (coins_only_earned_by_submit
                  (press ClickSubmit (correct_row demo_rich) demo_rnd)
                  demo_rich Hc Hs) eq_refl).
Defined.

(** *** The slider *)

Lemma st_slider_offered inp s :
  offered (default (num_questions s) (slider inp)) ->
  st_slider inp MIN_QUESTIONS_PER_GAME
    (Z.min MAX_QUESTIONS_PER_GAME (len QUESTION_POOL)) (num_questions s) s
  = (Done (default (num_questions s) (slider inp)), s).
Proof.
  intros [Hlo Hhi]. unfold st_slider. cbv zeta.
  destruct (Z.leb_spec MIN_QUESTIONS_PER_GAME
              (default (num_questions s) (slider inp))); [|lia].
  destruct (Z.leb_spec (default (num_questions s) (slider inp))
              (Z.min MAX_QUESTIONS_PER_GAME (len QUESTION_POOL))); [|lia].
  done.
Qed.

Lemma quiz_settings_stores inp s :
  offered (default (num_questions s) (slider inp)) ->
  click inp ≠ ClickNewGame ->
  quiz_settings inp s
  = (Done tt, set_num_questions (default (num_questions s) (slider inp)) s).
Proof.
  intros Hn Hc. unfold quiz_settings.
  change ((get_state ≫= ?f) s) with (f s s). cbv beta.
  rewrite (bind_done _ _ s _ s (st_slider_offered inp s Hn)).
  rewrite (bind_done _ _ s tt
             (set_num_questions (default (num_questions s) (slider inp)) s))
    by done.
  unfold st_button. by rewrite bool_decide_eq_false_2.
Qed.

Lemma quiz_settings_refuses inp s :
  ¬ offered (default (num_questions s) (slider inp)) ->
  quiz_settings inp s = (Raise StreamlitAPIException, s).
Proof.
  intros Hn. unfold quiz_settings.
  change ((get_state ≫= ?f) s) with (f s s). cbv beta.
  apply bind_raise. unfold st_slider. cbv zeta.
  destruct (Z.leb_spec MIN_QUESTIONS_PER_GAME
              (default (num_questions s) (slider inp))); [|done].
  destruct (Z.leb_spec (default (num_questions s) (slider inp))
              (Z.min MAX_QUESTIONS_PER_GAME (len QUESTION_POOL))); [|done].
  exfalso. by apply Hn.
Qed.

Lemma main_new_game_pressed inp s :
  click inp = ClickNewGame ->
  offered (default (num_questions s) (slider inp)) ->
  main inp s
  = (Rerun, fresh_game (draws inp)
              (set_num_questions (default (num_questions s) (slider inp)) s)).
Proof.
  intros Hc Hn. set (n := default (num_questions s) (slider inp)) in *.
  assert (Hn0 : 0 <= num_questions (set_num_questions n s)).
  { simpl. destruct Hn as [Hlo _]. unfold MIN_QUESTIONS_PER_GAME in Hlo. lia. }
  unfold main. apply bind_rerun. unfold quiz_settings.
  change ((get_state ≫= ?f) s) with (f s s). cbv beta.
  rewrite (bind_done _ _ s _ s (st_slider_offered inp s Hn)). fold n.
  rewrite (bind_done _ _ s tt (set_num_questions n s)) by done.
  unfold st_button. rewrite Hc.
  rewrite bool_decide_eq_true_2 by done. cbn [andb negb]. unfold when.
  by rewrite (bind_done _ _ _ tt _ (start_new_game_run (draws inp) _ Hn0)).
Qed.

(** X21.  "New game", pressed in any state whatsoever with the slider left
    alone or moved to a position it offers: the count on the slider is
    stored first, so the new game has exactly that many distinct bank
    questions; score, coins and streak are 0, the first question is on
    screen unanswered, the monsters are kept, and the rerun the page asks for
    changes nothing more. *)
Theorem new_game_uses_slider inp s :
  click inp = ClickNewGame ->
  offered (default (num_questions s) (slider inp)) ->
  let n := default (num_questions s) (slider inp) in
  let s' := fresh_game (draws inp) (set_num_questions n s) in
  main inp s = (Rerun, s')
  ∧ interact inp s = (Done tt, s')
  ∧ num_questions s' = n
  ∧ len (question_ids s') = n
  ∧ NoDup (question_ids s')
  ∧ (∀ question_id, question_id ∈ question_ids s' ->
       question_id ∈ q_id <$> QUESTION_POOL)
  ∧ started s' = true ∧ q_index s' = 0 ∧ answered s' = false
  ∧ score s' = 0 ∧ coins s' = 0 ∧ streak s' = 0
  ∧ monsters_owned s' = monsters_owned s
  ∧ selected_monster s' = selected_monster s.
Proof.
  intros Hc Hn. cbv zeta.
  set (n := default (num_questions s) (slider inp)) in *.
  pose proof (main_new_game_pressed inp s Hc Hn) as Hmain. fold n in Hmain.
  destruct (fresh_game_in_game n (draws inp) s Hn) as (Hgame & Hlen & Hnd).
  pose proof Hgame as (_ & _ & _ & _ & _ & Hin & _).
  split_and!; try done.
  rewrite (interact_rerun _ _ _ Hmain).
  by apply main_idle_in_game.
Qed.

Lemma new_game_uses_slider_witness :
  click {| slider := Some 5; click := ClickNewGame; radio := 0;
           draws := demo_rnd |} = ClickNewGame
  ∧ offered 5
  ∧ len (question_ids (fresh_game demo_rnd (set_num_questions 5 init_state)))
    = 5.
Proof.
  assert (Hn : offered 5) by (vm_compute; split; discriminate).
  split; [reflexivity|]. split; [exact Hn|].
  exact (proj1 (proj2 (proj2 (proj2
           (new_game_uses_slider
              {| slider := Some 5; click := ClickNewGame; radio := 0;
                 draws := demo_rnd |} init_state eq_refl Hn))))).
Defined.

(** X22.  Moving the slider while a question is on screen, with no button
    pressed, only stores the new count: the question list of the running
    game, the question on screen, score, coins and streak stay as they are,
    and the count takes effect with the next new game.  A position the
    slider does not offer is refused with [StreamlitAPIException] before
    anything else happens, in any state and whatever button is pressed. *)
Theorem slider_alone_keeps_game inp s question :
  awaiting_answer s question ∨ answer_locked s question ->
  (∀ n, slider inp = Some n -> offered n -> click inp = NoClick ->
     main inp s = (Done tt, set_num_questions n s)
     ∧ question_ids (main inp s).2 = question_ids s
     ∧ current_question (main inp s).2 = Some question
     ∧ score (main inp s).2 = score s
     ∧ coins (main inp s).2 = coins s
     ∧ streak (main inp s).2 = streak s)
  ∧ (∀ n, slider inp = Some n -> ¬ offered n ->
     main inp s = (Raise StreamlitAPIException, s)).
Proof.
  intros Hcase. split.
  - intros n Hsl Hn Hc.
    assert (Hfacts : started s = true ∧ skip_pending s = false
                     ∧ q_index s < len (question_ids s)
                     ∧ current_question s = Some question
                     ∧ no_pending_5050 s).
    { destruct Hcase as [Hw|Hl].
      - pose proof (awaiting_not_skip _ _ Hw).
        destruct Hw as (?&?&?&?&?&?). by split_and!.
      - pose proof (locked_not_skip _ _ Hl).
        destruct Hl as (?&?&?&?&?&?&?). by split_and!. }
    destruct Hfacts as (Hst & Hskip & Hlt & Hq & Hpend).
    assert (Hmain : main inp s = (Done tt, set_num_questions n s)).
    { unfold main.
      rewrite (bind_done _ _ s tt (set_num_questions n s)).
      2:{ rewrite quiz_settings_stores.
          - by rewrite Hsl.
          - by rewrite Hsl.
          - by rewrite Hc. }
      rewrite (bind_done _ _ _ tt (set_num_questions n s)).
      2:{ apply powerup_shop_idle. by rewrite Hc. }
      rewrite (bind_done _ _ _ tt (set_num_questions n s)).
      { apply monster_shop_idle; intros monster_id; by rewrite Hc. }
      rewrite quiz_area_question by done.
      by apply (question_screen_idle inp (set_num_questions n s) question). }
    rewrite Hmain. by split_and!.
  - intros n Hsl Hn. unfold main. apply bind_raise.
    apply quiz_settings_refuses. by rewrite Hsl.
Qed.

Lemma slider_alone_keeps_game_witness :
  awaiting_answer demo_waiting demo_first_question
  ∧ offered 4
  ∧ main {| slider := Some 4; click := NoClick; radio := 0;
            draws := demo_rnd |} demo_waiting
    = (Done tt, set_num_questions 4 demo_waiting).
Proof.
  assert (Hn : offered 4) by (vm_compute; split; discriminate).
  split; [exact demo_waiting_awaits|]. split; [exact Hn|].
  exact (proj1 (proj1 (slider_alone_keeps_game
                         {| slider := Some 4; click := NoClick; radio := 0;
                            draws := demo_rnd |}
                         demo_waiting demo_first_question
                         (or_introl demo_waiting_awaits))
                  4 eq_refl Hn eq_refl)).
Defined.

(** ** Purchases and the balance *)

(** *** No skip is left waiting between two runs *)





(** *** What a purchase costs *)













(** ** Code Quality Checker: further properties *)

(** X23.  [get_quality_level] agrees with the score bands the page's help
    text lists: a score inside a listed band gets the label of that band.
    Scores outside 0..100 are not rejected: a negative score is "Poor" and a
    score above 100 is "Excellent".  Every score gets one of the five labels,
    and the label fixes the colour. *)
Theorem quality_level_matches_help_table score :
  (∀ lo hi label,
     (lo, hi, label) ∈ CodeChecker.SCORE_HELP_TABLE -> lo <= score <= hi ->
     (CodeChecker.get_quality_level score).1.1 = label)
  ∧ (score < 0 -> (CodeChecker.get_quality_level score).1.1 = "Poor")
  ∧ (100 < score -> (CodeChecker.get_quality_level score).1.1 = "Excellent")
  ∧ ((CodeChecker.get_quality_level score).1.1,
     (CodeChecker.get_quality_level score).2)
    ∈ [("Poor", "#c0392b"); ("Below average", "#e67e22");
       ("Acceptable", "#f1c40f"); ("Good", "#27ae60");
       ("Excellent", "#2ecc71")].
Proof.
  unfold CodeChecker.get_quality_level, CodeChecker.SCORE_HELP_TABLE.
  split_and!.
  - intros lo hi label Hin Hband.
    rewrite !elem_of_cons, elem_of_nil in Hin.
    destruct Hin as [Heq|[Heq|[Heq|[Heq|[Heq|[]]]]]];
      injection Heq as -> -> ->;
      repeat match goal with
             | |- context [?a <? ?b] =>
                 destruct (Z.ltb_spec a b); [first [reflexivity|lia]|]
             end;
      first [reflexivity|lia].
  - intros Hneg. destruct (Z.ltb_spec score 40); [done|lia].
  - intros Hbig.
    repeat match goal with
           | |- context [?a <? ?b] => destruct (Z.ltb_spec a b); [lia|]
           end.
    done.
  - repeat match goal with
           | |- context [?a <? ?b] =>
               destruct (Z.ltb_spec a b); [cbn; set_solver|]
           end.
    cbn. set_solver.
Qed.

Lemma get_client_configured w :
  CodeChecker.get_client w
  = (Some (CodeChecker.OpenAI CodeChecker.OPENAI_API_KEY), w).
Proof. reflexivity. Qed.

(** What [main] does once the button was pressed on some code, in terms of
    the analysis call. *)
Lemma main_after_analysis api json_loads inp w :
  CodeChecker.analyze_button inp = true ->
  CodeChecker.is_blank (CodeChecker.code_input inp) = false ->
  CodeChecker.main api json_loads inp w
  = let (analysis_result, w1) :=
      CodeChecker.page_run_analysis api json_loads inp w in
    if negb (CodeChecker.truthy analysis_result) then (CodeChecker.Returned, w1)
    else
      match analysis_result with
      | CodeChecker.PyDict entries =>
          if CodeChecker.generate_refactor inp then
            let (refactored_code, w2) :=
              CodeChecker.run_refactor api
                (CodeChecker.OpenAI CodeChecker.OPENAI_API_KEY)
                (CodeChecker.code_input inp)
                (CodeChecker.dict_get entries "language"
                   (CodeChecker.PyStr
                      (if String.eqb (CodeChecker.language_hint inp) ""
                       then "text" else CodeChecker.language_hint inp)))
                (CodeChecker.review_level inp) (CodeChecker.persona inp) w1 in
            (CodeChecker.TabsOpened analysis_result refactored_code, w2)
          else (CodeChecker.TabsOpened analysis_result (Some ""), w1)
      | _ => (CodeChecker.Raised, w1)
      end.
Proof.
  intros Hbtn Hcode. unfold CodeChecker.main. rewrite Hbtn, Hcode.
  cbn [negb]. rewrite get_client_configured. reflexivity.
Qed.

Lemma page_run_analysis_sent api json_loads inp w :
  CodeChecker.sent (CodeChecker.page_run_analysis api json_loads inp w).2
  = CodeChecker.sent w ++ [CodeChecker.page_analysis_request inp].
Proof.
  unfold CodeChecker.page_run_analysis, CodeChecker.run_analysis. cbv zeta.
  fold (CodeChecker.page_analysis_request inp).
  destruct (api _) as [error|[content|]]; [done| |done].
  by destruct (json_loads content).
Qed.

(** X24.  Whatever the endpoint and the parser do, one run of the page
    sends nothing, or the analysis request alone, or the analysis request
    followed by one refactor request, in that order and after the requests
    sent before; a refactor request is sent only with refactoring switched
    on.  With the button not pressed the run sends and shows nothing; on
    blank code it sends nothing and shows the warning. *)
Theorem main_sends_at_most_two_requests api json_loads inp w :
  let w' := (CodeChecker.main api json_loads inp w).2 in
  (∃ new,
     CodeChecker.sent w' = CodeChecker.sent w ++ new
     ∧ (new = []
        ∨ new = [CodeChecker.page_analysis_request inp]
        ∨ ∃ entries,
            CodeChecker.generate_refactor inp = true
            ∧ new = [CodeChecker.page_analysis_request inp;
                     CodeChecker.page_refactor_request inp entries]))
  ∧ (CodeChecker.analyze_button inp = false ->
     CodeChecker.main api json_loads inp w = (CodeChecker.Returned, w))
  ∧ (CodeChecker.analyze_button inp = true ->
     CodeChecker.is_blank (CodeChecker.code_input inp) = true ->
     CodeChecker.main api json_loads inp w
     = (CodeChecker.Returned,
        CodeChecker.st_warning
          "Please paste some code before running the analysis." w)).
Proof.
  cbv zeta.
  destruct (CodeChecker.analyze_button inp) eqn:Hbtn.
  2:{ assert (Hm : CodeChecker.main api json_loads inp w
                   = (CodeChecker.Returned, w)).
      { unfold CodeChecker.main. by rewrite Hbtn. }
      rewrite Hm. split_and!; [|done|done].
      exists []. rewrite app_nil_r. split; [done|by left]. }
  destruct (CodeChecker.is_blank (CodeChecker.code_input inp)) eqn:Hcode.
  { assert (Hm : CodeChecker.main api json_loads inp w
                 = (CodeChecker.Returned,
                    CodeChecker.st_warning
                      "Please paste some code before running the analysis." w)).
    { unfold CodeChecker.main. by rewrite Hbtn, Hcode. }
    rewrite Hm. split_and!; [|done|done].
    exists []. rewrite app_nil_r. split; [done|by left]. }
  split_and!; [|done|done].
  rewrite main_after_analysis by done.
  pose proof (page_run_analysis_sent api json_loads inp w) as Hsent.
  destruct (CodeChecker.page_run_analysis api json_loads inp w)
    as [result w1]. simpl in Hsent.
  destruct (negb (CodeChecker.truthy result)).
  { exists [CodeChecker.page_analysis_request inp]. split; [done|].
    right. by left. }
  destruct result as [| | | | | |entries];
    try (exists [CodeChecker.page_analysis_request inp]; split; [done|];
         right; by left).
  destruct (CodeChecker.generate_refactor inp) eqn:Hgen.
  - exists [CodeChecker.page_analysis_request inp;
            CodeChecker.page_refactor_request inp entries].
    split; [|right; right; by exists entries].
    unfold CodeChecker.run_refactor. cbv zeta.
    fold (CodeChecker.page_refactor_request inp entries).
    destruct (api _); simpl; rewrite Hsent, <- app_assoc; done.
  - exists [CodeChecker.page_analysis_request inp]. split; [done|].
    right. by left.
Qed.

(** X25.  Once the analysis has returned a non-empty JSON object, the page
    neither returns early nor raises before the result tabs: it goes on to
    the tabs with that object.  With refactoring switched off only the
    analysis request is sent and the refactored code handed to the tabs is
    the empty string.  With refactoring on, the refactor request carries the
    language the analysis detected (else the hint, else "text"); if that
    request raises, the error is shown and the tabs get the analysis with
    empty refactored code; if it returns, its content, which may be [None],
    is handed to the tabs as it is.  What the tabs then draw or raise is
    outside this statement. *)
Theorem analysis_result_reaches_tabs api json_loads inp w content entries :
  CodeChecker.analyze_button inp = true ->
  CodeChecker.is_blank (CodeChecker.code_input inp) = false ->
  api (CodeChecker.page_analysis_request inp)
  = CodeChecker.ApiReturns (Some content) ->
  json_loads content = CodeChecker.ParseOk (CodeChecker.PyDict entries) ->
  entries ≠ [] ->
  let w1 := CodeChecker.send (CodeChecker.page_analysis_request inp) w in
  let w2 := CodeChecker.send (CodeChecker.page_refactor_request inp entries) w1 in
  (CodeChecker.generate_refactor inp = false ->
     CodeChecker.main api json_loads inp w
     = (CodeChecker.TabsOpened (CodeChecker.PyDict entries) (Some ""), w1))
  ∧ (CodeChecker.generate_refactor inp = true ->
     (∀ error,
        api (CodeChecker.page_refactor_request inp entries)
        = CodeChecker.ApiRaises error ->
        CodeChecker.main api json_loads inp w
        = (CodeChecker.TabsOpened (CodeChecker.PyDict entries) (Some ""),
           CodeChecker.st_error ("Error during refactoring: " +:+ error) w2))
     ∧ (∀ code,
          api (CodeChecker.page_refactor_request inp entries)
          = CodeChecker.ApiReturns code ->
          CodeChecker.main api json_loads inp w
          = (CodeChecker.TabsOpened (CodeChecker.PyDict entries) code, w2))).
Proof.
  intros Hbtn Hcode Hapi Hjson Hne. cbv zeta.
  assert (Hrun : CodeChecker.page_run_analysis api json_loads inp w
                 = (CodeChecker.PyDict entries,
                    CodeChecker.send (CodeChecker.page_analysis_request inp) w)).
  { unfold CodeChecker.page_run_analysis, CodeChecker.run_analysis. cbv zeta.
    fold (CodeChecker.page_analysis_request inp). by rewrite Hapi, Hjson. }
  assert (Htruthy : CodeChecker.truthy (CodeChecker.PyDict entries) = true).
  { simpl. by destruct entries. }
  split.
  - intros Hgen. rewrite main_after_analysis by done.
    rewrite Hrun, Htruthy. cbn [negb]. by rewrite Hgen.
  - intros Hgen. split.
    + intros error Herr. rewrite main_after_analysis by done.
      rewrite Hrun, Htruthy. cbn [negb]. rewrite Hgen.
      unfold CodeChecker.run_refactor. cbv zeta.
      fold (CodeChecker.page_refactor_request inp entries). by rewrite Herr.
    + intros code Hret. rewrite main_after_analysis by done.
      rewrite Hrun, Htruthy. cbn [negb]. rewrite Hgen.
      unfold CodeChecker.run_refactor. cbv zeta.
      fold (CodeChecker.page_refactor_request inp entries). by rewrite Hret.
Qed.

Lemma analysis_result_reaches_tabs_witness :
  let api := λ _ : CodeChecker.Request,
               CodeChecker.ApiReturns (Some "{}") in
  let json_loads := λ _ : string,
    CodeChecker.ParseOk
      (CodeChecker.PyDict [("overall_score", CodeChecker.PyInt 72)]) in
  CodeChecker.analyze_button CodeChecker.demo_page = true
  ∧ CodeChecker.is_blank (CodeChecker.code_input CodeChecker.demo_page) = false
  ∧ CodeChecker.main api json_loads CodeChecker.demo_page
      CodeChecker.empty_world
    = (CodeChecker.TabsOpened
         (CodeChecker.PyDict [("overall_score", CodeChecker.PyInt 72)])
         (Some "{}"),
       CodeChecker.send
         (CodeChecker.page_refactor_request CodeChecker.demo_page
            [("overall_score", CodeChecker.PyInt 72)])
         (CodeChecker.send
            (CodeChecker.page_analysis_request CodeChecker.demo_page)
            CodeChecker.empty_world)).
Proof.
  intros api json_loads.
  split; [reflexivity|]. split; [reflexivity|].
  assert (Hne : [("overall_score", CodeChecker.PyInt 72)]
                ≠ @nil (string * CodeChecker.PyValue)) by discriminate.
  exact (proj2 (proj2 (analysis_result_reaches_tabs api json_loads
                         CodeChecker.demo_page CodeChecker.empty_world "{}"
                         [("overall_score", CodeChecker.PyInt 72)]
                         eq_refl eq_refl eq_refl eq_refl Hne)
                  eq_refl)
           (Some "{}") eq_refl).
Defined.

(** X26.  A reply that is valid JSON but not an object is not guarded
    against.  If it tests true (a non-empty list or string, a non-zero
    number, [true]) the page raises at [analysis_result.get], after the
    analysis request and before any refactor request; if it tests false
    ([null], [false], 0, an empty string, list or object) the page returns
    without showing any message. *)
Theorem non_object_reply_is_not_guarded api json_loads inp w content value :
  CodeChecker.analyze_button inp = true ->
  CodeChecker.is_blank (CodeChecker.code_input inp) = false ->
  api (CodeChecker.page_analysis_request inp)
  = CodeChecker.ApiReturns (Some content) ->
  json_loads content = CodeChecker.ParseOk value ->
  let w1 := CodeChecker.send (CodeChecker.page_analysis_request inp) w in
  (CodeChecker.truthy value = true ->
   (∀ entries, value ≠ CodeChecker.PyDict entries) ->
   CodeChecker.main api json_loads inp w = (CodeChecker.Raised, w1))
  ∧ (CodeChecker.truthy value = false ->
     CodeChecker.main api json_loads inp w = (CodeChecker.Returned, w1)
     ∧ CodeChecker.shown w1 = CodeChecker.shown w).
Proof.
  intros Hbtn Hcode Hapi Hjson. cbv zeta.
  assert (Hrun : CodeChecker.page_run_analysis api json_loads inp w
                 = (value,
                    CodeChecker.send (CodeChecker.page_analysis_request inp) w)).
  { unfold CodeChecker.page_run_analysis, CodeChecker.run_analysis. cbv zeta.
    fold (CodeChecker.page_analysis_request inp). by rewrite Hapi, Hjson. }
  split.
  - intros Htruthy Hnot. rewrite main_after_analysis by done.
    rewrite Hrun, Htruthy. cbn [negb].
    destruct value; try done. exfalso. by eapply Hnot.
  - intros Hfalsy. rewrite main_after_analysis by done.
    rewrite Hrun, Hfalsy. done.
Qed.

Lemma non_object_reply_is_not_guarded_witness :
  let api := λ _ : CodeChecker.Request,
               CodeChecker.ApiReturns (Some "[1]") in
  let json_loads := λ _ : string,
    CodeChecker.ParseOk (CodeChecker.PyList [CodeChecker.PyInt 1]) in
  CodeChecker.analyze_button CodeChecker.demo_page = true
  ∧ CodeChecker.is_blank (CodeChecker.code_input CodeChecker.demo_page) = false
  ∧ CodeChecker.main api json_loads CodeChecker.demo_page
      CodeChecker.empty_world
    = (CodeChecker.Raised,
       CodeChecker.send
         (CodeChecker.page_analysis_request CodeChecker.demo_page)
         CodeChecker.empty_world).
Proof.
  intros api json_loads.
  split; [reflexivity|]. split; [reflexivity|].
  apply (proj1 (non_object_reply_is_not_guarded api json_loads
                  CodeChecker.demo_page CodeChecker.empty_world "[1]"
                  (CodeChecker.PyList [CodeChecker.PyInt 1])
                  eq_refl eq_refl eq_refl eq_refl)).
  - reflexivity.
  - intros entries. discriminate.
Defined.

